(** * CodeBoard language-detection bridge and FastText worker

    A shallow embedding of
      - [backend/python_bridge/switchprint_service.py] (class
        [SwitchPrintService]: tiered detection, result conversion, cache), and
      - [backend/python_workers/fasttext_worker.py] (class [FastTextWorker]
        and the request loop [main]),
    together with the properties of the design document that concern them.

    Conventions of the embedding.
      - Python [str] is [string]; the helpers of module [Py] implement the
        ASCII fragment of [str.split], [str.strip], [str.lower], ...
      - Python [float] values (confidences, clock readings) are rationals
        [Q]: the code only copies, subtracts, scales and averages them.
      - Python [int] indices are [Z]; list positions are [nat].
      - An insertion-ordered [dict] is an association list (oldest first).
      - The third-party detectors, the FastText model, the JSON parser and
        the clock are external: what they answer is an input of the model. *)

From Stdlib Require Import String Ascii List ZArith QArith Lia Bool Arith NArith.
From Stdlib Require Import DecimalString Permutation Lqa.
Import ListNotations.

Local Open Scope string_scope.
Local Open Scope list_scope.

(* ================================================================== *)
(** ** Python built-ins used by the two programs                       *)
(* ================================================================== *)

Module Py.

(** [c.isspace()] on the ASCII range: TAB, LF, VT, FF, CR, FS, GS, RS, US
    and the space. *)
Definition isspace (c : ascii) : bool :=
  let n := N_of_ascii c in
  ((9 <=? n) && (n <=? 13) || (28 <=? n) && (n <=? 32))%N.

Fixpoint lstrip (s : string) : string :=
  match s with
  | String c s' => if isspace c then lstrip s' else s
  | EmptyString => EmptyString
  end.

(** Drops trailing white space: a suffix made of white space only
    collapses to the empty string. *)
Fixpoint rstrip (s : string) : string :=
  match s with
  | EmptyString => EmptyString
  | String c s' =>
      match rstrip s' with
      | EmptyString => if isspace c then EmptyString else String c EmptyString
      | r => String c r
      end
  end.

(** [s.strip()] *)
Definition strip (s : string) : string := rstrip (lstrip s).

(** [s.split()]: maximal runs of non-space characters, in order.  [cur]
    is the word being read, reversed. *)
Fixpoint split_from (cur : list ascii) (s : string) : list string :=
  let flush := match cur with
               | [] => []
               | _ => [string_of_list_ascii (rev cur)]
               end in
  match s with
  | EmptyString => flush
  | String c s' =>
      if isspace c then flush ++ split_from [] s'
      else split_from (c :: cur) s'
  end.

Definition split (s : string) : list string := split_from [] s.

(** [sep.join(l)] *)
Definition join (sep : string) (l : list string) : string := String.concat sep l.

Definition lower_ascii (c : ascii) : ascii :=
  let n := N_of_ascii c in
  if ((65 <=? n) && (n <=? 90))%N then ascii_of_N (n + 32) else c.

Definition upper_ascii (c : ascii) : ascii :=
  let n := N_of_ascii c in
  if ((97 <=? n) && (n <=? 122))%N then ascii_of_N (n - 32) else c.

Fixpoint map_string (f : ascii -> ascii) (s : string) : string :=
  match s with
  | EmptyString => EmptyString
  | String c s' => String (f c) (map_string f s')
  end.

(** [s.lower()] and [s.upper()] *)
Definition lower : string -> string := map_string lower_ascii.
Definition upper : string -> string := map_string upper_ascii.

(** [s.replace(a, b)] for one-character [a] and [b]. *)
Definition replace_char (a b : ascii) : string -> string :=
  map_string (fun c => if Ascii.eqb c a then b else c).

(** [s.replace(pat, '')] for a non-empty [pat]: occurrences are removed
    left to right without overlap; [skip] counts the characters of the
    occurrence being removed that are still to be dropped. *)
Fixpoint remove_from (pat : string) (skip : nat) (s : string) : string :=
  match s with
  | EmptyString => EmptyString
  | String c s' =>
      match skip with
      | S k => remove_from pat k s'
      | O => if prefix pat s then remove_from pat (String.length pat - 1) s'
             else String c (remove_from pat 0 s')
      end
  end.

Definition remove (pat s : string) : string := remove_from pat 0 s.

(** [s[:n]] *)
Definition take (n : nat) (s : string) : string := substring 0 n s.

(** Truth value of a string: [bool(s)]. *)
Definition truthy (s : string) : bool :=
  match s with EmptyString => false | _ => true end.

(** [x in l] for a list of strings and for a list of integers. *)
Definition str_in (x : string) (l : list string) : bool :=
  existsb (String.eqb x) l.

Definition int_in (x : Z) (l : list Z) : bool :=
  existsb (Z.eqb x) l.

(** [x if l else d] followed by [l[i]]: the guarded indexing idiom
    [l[i] if l else d] of the conversions.  On a non-empty list the index
    is always in range where the programs use it. *)
Definition index_or (d : string) (l : list string) (i : nat) : string :=
  match l with
  | [] => d
  | _ => nth i l d
  end.

(** An insertion-ordered dictionary with string keys (oldest entry
    first), as [dict] has been since Python 3.7. *)
Section Dict.
Context {V : Type}.

Definition dict := list (string * V).

Definition keys (d : dict) : list string := map fst d.

(** [k in d] *)
Definition contains (k : string) (d : dict) : bool :=
  existsb (fun kv => String.eqb k (fst kv)) d.

(** [d.get(k)] *)
Fixpoint get (k : string) (d : dict) : option V :=
  match d with
  | [] => None
  | (k', v) :: d' => if String.eqb k k' then Some v else get k d'
  end.

(** [d[k] = v]: an existing key keeps its position, a new key goes
    last. *)
Fixpoint set (k : string) (v : V) (d : dict) : dict :=
  match d with
  | [] => [(k, v)]
  | (k', v') :: d' =>
      if String.eqb k k' then (k', v) :: d' else (k', v') :: set k v d'
  end.

(** [del d[k]] *)
Fixpoint del (k : string) (d : dict) : dict :=
  match d with
  | [] => []
  | (k', v') :: d' =>
      if String.eqb k k' then d' else (k', v') :: del k d'
  end.
End Dict.

Arguments dict V : clear implicits.

End Py.

Example split_ex :
  Py.split "  I'm going  to la tienda " = ["I'm"; "going"; "to"; "la"; "tienda"].
Proof. reflexivity. Qed.

Example strip_ex : Py.strip "  {a b}  " = "{a b}".
Proof. reflexivity. Qed.

Example lower_ex : Py.lower "EngLish-42" = "english-42".
Proof. reflexivity. Qed.

Example remove_ex : Py.remove "__label__" "__label__en" = "en".
Proof. reflexivity. Qed.

(* ================================================================== *)
(** ** Data model shared by the bridge and the worker                  *)
(* ================================================================== *)

(** A token dictionary [{'word', 'lang', 'language', 'confidence'}]. *)
Record Token := mkToken {
  tk_word : string;
  tk_lang : string;
  tk_language : string;
  tk_confidence : Q
}.

(** A finished phrase dictionary.  Indices are Python integers. *)
Record Phrase := mkPhrase {
  ph_words : list string;
  ph_text : string;
  ph_language : string;
  ph_confidence : Q;
  ph_startIndex : Z;
  ph_endIndex : Z;
  ph_isUserLanguage : bool
}.

(** The optional [user_languages] argument and its truth value: [None]
    and the empty list are both false. *)
Definition user_langs := option (list string).

Definition or_empty (ul : user_langs) : list string :=
  match ul with Some l => l | None => [] end.

Definition ul_truthy (ul : user_langs) : bool :=
  match ul with Some (_ :: _) => true | _ => false end.

(** What a call into external code does: it returns or it raises
    (the string is [str(e)]). *)
Inductive outcome (A : Type) : Type :=
| Returned (a : A)
| Raised (e : string).
Arguments Returned {A} a.
Arguments Raised {A} e.

(** [getattr(obj, name, default)] on an attribute that may be absent. *)
Definition getattr {A : Type} (attr : option A) (default : A) : A :=
  match attr with Some a => a | None => default end.

(* ================================================================== *)
(** ** switchprint_service.py                                          *)
(* ================================================================== *)

Module Bridge.

(** The result object of the primary detector, read with [getattr]:
    every attribute may be missing. *)
Record IntegratedResult := {
  ir_original_confidence : option Q;
  ir_calibrated_confidence : option Q;
  ir_reliability_score : option Q;
  ir_quality_assessment : option string;
  ir_calibration_method : option string;
  ir_detected_languages : option (list string);
  ir_switch_points : option (list Z)
}.

(** The result object of the context optimizer. *)
Record OptimizationResult := {
  or_text_type : option string;
  or_optimal_window_size : option Z;
  or_improvement_score : option Q;
  or_context_enhanced_confidence : option Q;
  or_optimization_applied : option bool
}.

(** One legacy switch point: "tuples (index, language) or just indices".
    [SpSeq None] is an empty list or tuple; [SpOther] is any other
    value, which the conversion skips. *)
Inductive LegacySwitchPoint :=
| SpSeq (first : option Z)
| SpInt (i : Z)
| SpOther.

(** The result object of a legacy detector. *)
Record LegacyResult := {
  lr_detected_languages : option (list string);
  lr_confidence : option Q;
  lr_switch_points : option (list LegacySwitchPoint)
}.

(** The [context_optimization] dictionary of a result. *)
Record ContextOptimization := {
  text_type : string;
  optimal_window_size : Z;
  improvement_score : Q;
  context_enhanced_confidence : Q;
  optimization_applied : bool
}.

(** The dataclass [SwitchPrintResult]. *)
Record SwitchPrintResult := {
  tokens : list Token;
  phrases : list Phrase;
  switch_points : list Z;
  confidence : Q;
  user_language_match : bool;
  detected_languages : list string;
  processing_time_ms : Q;
  cache_hit : bool;
  calibrated_confidence : Q;
  reliability_score : Q;
  quality_assessment : string;
  calibration_method : string;
  context_optimization : option ContextOptimization;
  performance_mode : string;
  version : string
}.

(** The dataclass constructor called with its eight required fields and
    [cache_hit]: the remaining fields take the declared defaults. *)
Definition SwitchPrintResult_defaults
    (tokens : list Token) (phrases : list Phrase) (switch_points : list Z)
    (confidence : Q) (user_language_match : bool)
    (detected_languages : list string) (processing_time_ms : Q)
    (cache_hit : bool) : SwitchPrintResult :=
  {| tokens := tokens;
     phrases := phrases;
     switch_points := switch_points;
     confidence := confidence;
     user_language_match := user_language_match;
     detected_languages := detected_languages;
     processing_time_ms := processing_time_ms;
     cache_hit := cache_hit;
     calibrated_confidence := 0.0;
     reliability_score := 0.0;
     quality_assessment := "unknown";
     calibration_method := "none";
     context_optimization := None;
     performance_mode := "balanced";
     version := "2.1.2" |}.

Definition set_cache_hit (b : bool) (r : SwitchPrintResult) : SwitchPrintResult :=
  {| tokens := tokens r; phrases := phrases r; switch_points := switch_points r;
     confidence := confidence r; user_language_match := user_language_match r;
     detected_languages := detected_languages r;
     processing_time_ms := processing_time_ms r;
     cache_hit := b;
     calibrated_confidence := calibrated_confidence r;
     reliability_score := reliability_score r;
     quality_assessment := quality_assessment r;
     calibration_method := calibration_method r;
     context_optimization := context_optimization r;
     performance_mode := performance_mode r;
     version := version r |}.

Definition set_processing_time_ms (t : Q) (r : SwitchPrintResult) : SwitchPrintResult :=
  {| tokens := tokens r; phrases := phrases r; switch_points := switch_points r;
     confidence := confidence r; user_language_match := user_language_match r;
     detected_languages := detected_languages r;
     processing_time_ms := t;
     cache_hit := cache_hit r;
     calibrated_confidence := calibrated_confidence r;
     reliability_score := reliability_score r;
     quality_assessment := quality_assessment r;
     calibration_method := calibration_method r;
     context_optimization := context_optimization r;
     performance_mode := performance_mode r;
     version := version r |}.

(** *** Token creation *)

(** Truth value of a list. *)
Definition non_empty {A : Type} (l : list A) : bool :=
  match l with [] => false | _ => true end.

Definition make_token (word lang : string) (conf : Q) : Token :=
  {| tk_word := word; tk_lang := lang; tk_language := lang; tk_confidence := conf |}.

(** The loop of [_convert_v2_1_2_result] over [enumerate(words)] in the
    branch "multi-language with switch points": [i] is the index of the
    next word, [current_lang_idx] the index reached so far. *)
Fixpoint walk_cyclic (detected_languages : list string) (switch_points : list Z)
    (conf : Q) (i : nat) (current_lang_idx : nat) (words : list string)
    : list Token :=
  match words with
  | [] => []
  | word :: rest =>
      let current_lang_idx :=
        if non_empty switch_points && Py.int_in (Z.of_nat i) switch_points
        then (current_lang_idx + 1) mod length detected_languages
        else current_lang_idx in
      let lang := Py.index_or "unknown" detected_languages current_lang_idx in
      make_token word lang conf
        :: walk_cyclic detected_languages switch_points conf (S i) current_lang_idx rest
  end.

(** The same loop in [_convert_legacy_result]: the index only advances
    while it is below the last position. *)
Fixpoint walk_clamped (detected_langs : list string) (switch_points : list Z)
    (conf : Q) (i : nat) (current_lang_idx : nat) (words : list string)
    : list Token :=
  match words with
  | [] => []
  | word :: rest =>
      let current_lang_idx :=
        if Py.int_in (Z.of_nat i) switch_points
           && (current_lang_idx <? length detected_langs - 1)%nat
        then (current_lang_idx + 1)%nat
        else current_lang_idx in
      let lang :=
        if (current_lang_idx <? length detected_langs)%nat
        then nth current_lang_idx detected_langs EmptyString
        else nth 0 detected_langs EmptyString in
      make_token word lang conf
        :: walk_clamped detected_langs switch_points conf (S i) current_lang_idx rest
  end.

(** The [else] branch of both conversions: one language for all words. *)
Definition single_language (detected_languages : list string) (conf : Q)
    (words : list string) : list Token :=
  let lang := Py.index_or "unknown" detected_languages 0 in
  map (fun word => make_token word lang conf) words.

Definition tokens_v2_1_2 (detected_languages : list string) (switch_points : list Z)
    (conf : Q) (words : list string) : list Token :=
  if (1 <? length detected_languages)%nat && non_empty switch_points
  then walk_cyclic detected_languages switch_points conf 0 0 words
  else single_language detected_languages conf words.

Definition tokens_legacy (detected_langs : list string) (switch_points : list Z)
    (conf : Q) (words : list string) : list Token :=
  if (1 <? length detected_langs)%nat && non_empty switch_points
  then walk_clamped detected_langs switch_points conf 0 0 words
  else single_language detected_langs conf words.

(** *** Phrase creation (the same code in both conversions) *)

(** The dictionary [current_phrase] before it is finalized. *)
Record OpenPhrase := {
  op_words : list string;
  op_language : string;
  op_startIndex : Z
}.

(** [user_languages and language in user_languages], as a truth value. *)
Definition is_user_language (user_languages : user_langs) (language : string) : bool :=
  ul_truthy user_languages && Py.str_in language (or_empty user_languages).

(** [current_phrase.update({...})] *)
Definition finalize (conf : Q) (user_languages : user_langs) (cp : OpenPhrase) : Phrase :=
  {| ph_words := op_words cp;
     ph_text := Py.join " " (op_words cp);
     ph_language := op_language cp;
     ph_confidence := conf;
     ph_startIndex := op_startIndex cp;
     ph_endIndex := op_startIndex cp + Z.of_nat (length (op_words cp)) - 1;
     ph_isUserLanguage := is_user_language user_languages (op_language cp) |}.

(** The loop [for i in range(1, len(tokens))] followed by "add last
    phrase": [rest] holds [tokens[i:]]. *)
Fixpoint group_from (conf : Q) (user_languages : user_langs) (i : nat)
    (current_phrase : OpenPhrase) (phrases : list Phrase) (rest : list Token)
    : list Phrase :=
  match rest with
  | [] => phrases ++ [finalize conf user_languages current_phrase]
  | t :: rest' =>
      if String.eqb (tk_lang t) (op_language current_phrase)
      then group_from conf user_languages (S i)
             {| op_words := op_words current_phrase ++ [tk_word t];
                op_language := op_language current_phrase;
                op_startIndex := op_startIndex current_phrase |}
             phrases rest'
      else group_from conf user_languages (S i)
             {| op_words := [tk_word t];
                op_language := tk_lang t;
                op_startIndex := Z.of_nat i |}
             (phrases ++ [finalize conf user_languages current_phrase]) rest'
  end.

Definition make_phrases (conf : Q) (user_languages : user_langs)
    (tokens : list Token) : list Phrase :=
  match tokens with
  | [] => []
  | t0 :: rest =>
      group_from conf user_languages 1
        {| op_words := [tk_word t0]; op_language := tk_lang t0; op_startIndex := 0 |}
        [] rest
  end.

(** *** User-language match of a result *)

(** [any(ul.lower() in [dl.lower() for dl in detected] for ul in user)],
    guarded by [if user_languages and detected_languages]. *)
Definition match_user_languages (user_languages : user_langs)
    (detected_languages : list string) : bool :=
  if ul_truthy user_languages && non_empty detected_languages
  then existsb (fun ul => Py.str_in (Py.lower ul) (map Py.lower detected_languages))
               (or_empty user_languages)
  else false.

(** *** The three result builders *)

Section Service.

(** The module-level flag set by the import of [codeswitch_ai]. *)
Variable SWITCHPRINT_AVAILABLE : bool.

Definition SWITCHPRINT_VERSION : string :=
  if SWITCHPRINT_AVAILABLE then "2.1.2" else "unavailable".

(** The result of the context detector is handed to the conversion and
    never inspected. *)
Inductive ContextResult := context_result_object.

Definition context_optimization_of (optimization_result : option OptimizationResult)
    (calibrated_confidence : Q) : option ContextOptimization :=
  match optimization_result with
  | None => None
  | Some o =>
      Some {| text_type := getattr (or_text_type o) "unknown";
              optimal_window_size := getattr (or_optimal_window_size o) 0%Z;
              improvement_score := getattr (or_improvement_score o) 0.0;
              context_enhanced_confidence :=
                getattr (or_context_enhanced_confidence o) calibrated_confidence;
              optimization_applied := getattr (or_optimization_applied o) false |}
  end.

(** [_convert_v2_1_2_result]; [now] is the clock reading taken when the
    result object is built. *)
Definition _convert_v2_1_2_result (sp_result : IntegratedResult)
    (context_result : option ContextResult)
    (optimization_result : option OptimizationResult)
    (text : string) (user_languages : user_langs) (start_time now : Q)
    (performance_mode : string) : SwitchPrintResult :=
  let words := Py.split text in
  let original_confidence := getattr (ir_original_confidence sp_result) 0.5 in
  let calibrated_confidence :=
    getattr (ir_calibrated_confidence sp_result) original_confidence in
  let reliability_score := getattr (ir_reliability_score sp_result) 0.0 in
  let quality_assessment := getattr (ir_quality_assessment sp_result) "unknown" in
  let calibration_method := getattr (ir_calibration_method sp_result) "none" in
  let detected_languages := getattr (ir_detected_languages sp_result) ["unknown"] in
  let switch_points := getattr (ir_switch_points sp_result) [] in
  let tokens := tokens_v2_1_2 detected_languages switch_points calibrated_confidence words in
  let phrases := make_phrases calibrated_confidence user_languages tokens in
  let context_optimization :=
    context_optimization_of optimization_result calibrated_confidence in
  let user_language_match := match_user_languages user_languages detected_languages in
  {| tokens := tokens;
     phrases := phrases;
     switch_points := switch_points;
     confidence := original_confidence;
     user_language_match := user_language_match;
     detected_languages := detected_languages;
     processing_time_ms := (now - start_time) * 1000;
     cache_hit := false;
     calibrated_confidence := calibrated_confidence;
     reliability_score := reliability_score;
     quality_assessment := quality_assessment;
     calibration_method := calibration_method;
     context_optimization := context_optimization;
     performance_mode := performance_mode;
     version := SWITCHPRINT_VERSION |}.

(** "Legacy format might be tuples (index, language) or just indices":
    the first component of a non-empty sequence, or the integer itself. *)
Definition legacy_index (sp : LegacySwitchPoint) : list Z :=
  match sp with
  | SpSeq (Some first) => [first]
  | SpSeq None => []
  | SpInt i => [i]
  | SpOther => []
  end.

Definition legacy_switch_points (attr : option (list LegacySwitchPoint)) : list Z :=
  match attr with
  | None => []
  | Some legacy_switch_points =>
      if non_empty legacy_switch_points
      then flat_map legacy_index legacy_switch_points
      else []
  end.

(** [_convert_legacy_result] *)
Definition _convert_legacy_result (sp_result : LegacyResult)
    (text : string) (user_languages : user_langs) (start_time now : Q)
    : SwitchPrintResult :=
  let words := Py.split text in
  let detected_langs := getattr (lr_detected_languages sp_result) ["unknown"] in
  let confidence := getattr (lr_confidence sp_result) 0.5 in
  let switch_points := legacy_switch_points (lr_switch_points sp_result) in
  let tokens := tokens_legacy detected_langs switch_points confidence words in
  let phrases := make_phrases confidence user_languages tokens in
  let user_language_match := match_user_languages user_languages detected_langs in
  {| tokens := tokens;
     phrases := phrases;
     switch_points := switch_points;
     confidence := confidence;
     user_language_match := user_language_match;
     detected_languages := detected_langs;
     processing_time_ms := (now - start_time) * 1000;
     cache_hit := false;
     calibrated_confidence := confidence;
     reliability_score := 0.0;
     quality_assessment := "legacy";
     calibration_method := "none";
     context_optimization := None;
     performance_mode := "legacy";
     version := "legacy" |}.

(** [_get_mock_result] *)
Definition _get_mock_result (text : string) (user_languages : user_langs)
    (start_time now : Q) (error : option string) : SwitchPrintResult :=
  let words := Py.split text in
  let mock_lang :=
    if negb (ul_truthy user_languages) then "english"
    else nth 0 (or_empty user_languages) EmptyString in
  let tokens := map (fun word => make_token word mock_lang 0.85) words in
  let phrases :=
    [ {| ph_words := words;
         ph_text := text;
         ph_language := mock_lang;
         ph_confidence := 0.85;
         ph_startIndex := 0;
         ph_endIndex := Z.of_nat (length words) - 1;
         ph_isUserLanguage := true |} ] in
  SwitchPrintResult_defaults tokens phrases [] 0.85 true [mock_lang]
    ((now - start_time) * 1000) false.

(** *** The service object and the object store *)

(** Result objects live in a store and are handled by reference: the
    cache and the caller of [analyze_text] share one object. *)
Definition ref := nat.

(** The attributes of [SwitchPrintService].  A component is [true] when
    the attribute holds an object and [false] when it is [None]. *)
Record SwitchPrintService := {
  integrated_detector : bool;
  context_detector : bool;
  batch_processor : bool;
  metrics_dashboard : bool;
  context_optimizer : bool;
  legacy_detector : bool;
  fasttext_detector : bool;
  cache : Py.dict ref;
  cache_hits : Z;
  total_requests : Z;
  objects : list SwitchPrintResult
}.

Definition with_cache (c : Py.dict ref) (s : SwitchPrintService) : SwitchPrintService :=
  {| integrated_detector := integrated_detector s;
     context_detector := context_detector s;
     batch_processor := batch_processor s;
     metrics_dashboard := metrics_dashboard s;
     context_optimizer := context_optimizer s;
     legacy_detector := legacy_detector s;
     fasttext_detector := fasttext_detector s;
     cache := c;
     cache_hits := cache_hits s;
     total_requests := total_requests s;
     objects := objects s |}.

Definition with_cache_hits (n : Z) (s : SwitchPrintService) : SwitchPrintService :=
  {| integrated_detector := integrated_detector s;
     context_detector := context_detector s;
     batch_processor := batch_processor s;
     metrics_dashboard := metrics_dashboard s;
     context_optimizer := context_optimizer s;
     legacy_detector := legacy_detector s;
     fasttext_detector := fasttext_detector s;
     cache := cache s;
     cache_hits := n;
     total_requests := total_requests s;
     objects := objects s |}.

Definition with_total_requests (n : Z) (s : SwitchPrintService) : SwitchPrintService :=
  {| integrated_detector := integrated_detector s;
     context_detector := context_detector s;
     batch_processor := batch_processor s;
     metrics_dashboard := metrics_dashboard s;
     context_optimizer := context_optimizer s;
     legacy_detector := legacy_detector s;
     fasttext_detector := fasttext_detector s;
     cache := cache s;
     cache_hits := cache_hits s;
     total_requests := n;
     objects := objects s |}.

Definition with_objects (o : list SwitchPrintResult) (s : SwitchPrintService)
    : SwitchPrintService :=
  {| integrated_detector := integrated_detector s;
     context_detector := context_detector s;
     batch_processor := batch_processor s;
     metrics_dashboard := metrics_dashboard s;
     context_optimizer := context_optimizer s;
     legacy_detector := legacy_detector s;
     fasttext_detector := fasttext_detector s;
     cache := cache s;
     cache_hits := cache_hits s;
     total_requests := total_requests s;
     objects := o |}.

(** [__init__].  The seven components are constructed in order inside
    one [try]; [failure = Some k] says that the [k]-th constructor
    raised, which leaves the later attributes [None] and resets
    [integrated_detector]. *)
Definition __init__ (failure : option nat) : SwitchPrintService :=
  let built (k : nat) :=
    SWITCHPRINT_AVAILABLE
    && match failure with None => true | Some f => (k <? f)%nat end in
  {| integrated_detector :=
       built 1%nat && match failure with None => true | Some _ => false end;
     context_detector := built 2%nat;
     batch_processor := built 3%nat;
     metrics_dashboard := built 4%nat;
     context_optimizer := built 5%nat;
     legacy_detector := built 6%nat;
     fasttext_detector := built 7%nat;
     cache := [];
     cache_hits := 0;
     total_requests := 0;
     objects := [] |}.

(** *** A state-and-exception monad for the methods *)

Definition M (A : Type) : Type :=
  SwitchPrintService -> outcome A * SwitchPrintService.

Definition ret {A : Type} (a : A) : M A := fun s => (Returned a, s).

Definition raise {A : Type} (e : string) : M A := fun s => (Raised e, s).

Definition bind {A B : Type} (m : M A) (k : A -> M B) : M B :=
  fun s =>
    match m s with
    | (Returned a, s') => k a s'
    | (Raised e, s') => (Raised e, s')
    end.

(** [try: m  except Exception as e: handler(e)]; what [m] did to the
    state before raising stays done. *)
Definition try_except {A : Type} (m : M A) (handler : string -> M A) : M A :=
  fun s =>
    match m s with
    | (Returned a, s') => (Returned a, s')
    | (Raised e, s') => handler e s'
    end.

Definition get_self : M SwitchPrintService := fun s => (Returned s, s).

Definition modify (f : SwitchPrintService -> SwitchPrintService) : M unit :=
  fun s => (Returned tt, f s).

(** A call into external code: its outcome is given. *)
Definition call {A : Type} (o : outcome A) : M A := fun s => (o, s).

Notation "x <- m ;; k" := (bind m (fun x => k))
  (at level 61, m at next level, right associativity).
Notation "m ;; k" := (bind m (fun _ => k))
  (at level 61, right associativity).

(** Object creation, and assignment to attributes of an object. *)
Definition new (r : SwitchPrintResult) : M ref :=
  fun s => (Returned (length (objects s)), with_objects (objects s ++ [r]) s).

Fixpoint update_nth {A : Type} (i : nat) (f : A -> A) (l : list A) : list A :=
  match l, i with
  | [], _ => []
  | x :: l', O => f x :: l'
  | x :: l', S j => x :: update_nth j f l'
  end.

Definition setattr (r : ref) (f : SwitchPrintResult -> SwitchPrintResult) : M unit :=
  modify (fun s => with_objects (update_nth r f (objects s)) s).

Definition deref (s : SwitchPrintService) (r : ref) : option SwitchPrintResult :=
  nth_error (objects s) r.

(** *** The cache *)

Definition cache_key (text : string) (user_languages : user_langs)
    (performance_mode : string) : string :=
  "v2.1.2:" ++ text ++ ":" ++ Py.join "," (or_empty user_languages)
    ++ ":" ++ performance_mode.

(** [self.cache[cache_key]] raises [KeyError] on a missing key. *)
Definition cache_lookup (key : string) : M ref :=
  s <- get_self ;;
  match Py.get key (cache s) with
  | Some r => ret r
  | None => raise ("KeyError: " ++ key)
  end.

(** [for key in list(self.cache.keys())[:100]: del self.cache[key]] *)
Definition evict_oldest (c : Py.dict ref) : Py.dict ref :=
  fold_left (fun c key => Py.del key c) (firstn 100 (Py.keys c)) c.

(** The block under [if use_cache:] after a conversion. *)
Definition cache_store (key : string) (result : ref) (c : Py.dict ref) : Py.dict ref :=
  let c := Py.set key result c in
  if (1000 <? length c)%nat then evict_oldest c else c.

(** *** The methods *)

(** What the collaborators answer during one request, and the two clock
    readings of that request ([time.time()] on entry and when the result
    is built or refreshed). *)
Record Externals := {
  time_start : Q;
  time_now : Q;
  integrated_detect : string -> user_langs -> outcome IntegratedResult;
  context_detect : string -> outcome ContextResult;
  optimize_detection : string -> outcome (option OptimizationResult);
  dashboard_analyze : string -> outcome unit;
  legacy_detect : string -> user_langs -> outcome LegacyResult;
  fasttext_detect : string -> user_langs -> outcome LegacyResult
}.

Definition _fallback_analysis (ext : Externals) (text : string)
    (user_languages : user_langs) (start_time : Q) (fast_mode : bool) : M ref :=
  self <- get_self ;;
  if negb (legacy_detector self)
  then new (_get_mock_result text user_languages start_time (time_now ext) None)
  else
    try_except
      (let detector :=
         if fast_mode && fasttext_detector self
         then fasttext_detect ext else legacy_detect ext in
       sp_result <- call (detector text user_languages) ;;
       new (_convert_legacy_result sp_result text user_languages
              start_time (time_now ext)))
      (fun e =>
         new (_get_mock_result text user_languages start_time (time_now ext) (Some e))).

Definition analyze_text (ext : Externals) (text : string)
    (user_languages : user_langs) (use_cache fast_mode : bool)
    (performance_mode : string) : M ref :=
  let start_time := time_start ext in
  modify (fun self => with_total_requests (total_requests self + 1) self) ;;
  let cache_key := cache_key text user_languages performance_mode in
  self <- get_self ;;
  if use_cache && Py.contains cache_key (cache self)
  then
    modify (fun self => with_cache_hits (cache_hits self + 1) self) ;;
    result <- cache_lookup cache_key ;;
    setattr result (set_cache_hit true) ;;
    setattr result (set_processing_time_ms ((time_now ext - start_time) * 1000)) ;;
    ret result
  else if negb (integrated_detector self)
  then _fallback_analysis ext text user_languages start_time fast_mode
  else
    try_except
      (sp_result <- call (integrated_detect ext text user_languages) ;;
       context_result <-
         (if context_detector self
          then try_except
                 (c <- call (context_detect ext text) ;; ret (Some c))
                 (fun ctx_e => ret None)
          else ret None) ;;
       optimization_result <-
         (if context_optimizer self
          then try_except
                 (call (optimize_detection ext text))
                 (fun opt_e => ret None)
          else ret None) ;;
       (if metrics_dashboard self
        then try_except
               (call (dashboard_analyze ext text))
               (fun dash_e => ret tt)
        else ret tt) ;;
       result <- new (_convert_v2_1_2_result sp_result context_result
                        optimization_result text user_languages start_time
                        (time_now ext) performance_mode) ;;
       (if use_cache
        then modify (fun self => with_cache (cache_store cache_key result (cache self)) self)
        else ret tt) ;;
       ret result)
      (fun e => _fallback_analysis ext text user_languages start_time fast_mode).

(** Python's true division [a / b] of two integers. *)
Definition true_div (a b : Z) : outcome Q :=
  if (b =? 0)%Z then Raised "ZeroDivisionError: division by zero"
  else Returned (inject_Z a / inject_Z b).

Record CacheStats := {
  st_total_requests : Z;
  st_cache_hits : Z;
  st_cache_size : nat;
  st_hit_rate : Q;
  st_available : bool
}.

Definition get_cache_stats : M CacheStats :=
  self <- get_self ;;
  hit_rate <- call (true_div (cache_hits self) (Z.max (total_requests self) 1)) ;;
  ret {| st_total_requests := total_requests self;
         st_cache_hits := cache_hits self;
         st_cache_size := length (cache self);
         st_hit_rate := hit_rate;
         st_available := SWITCHPRINT_AVAILABLE |}.

Definition clear_cache : M unit :=
  modify (with_cache []).

(** *** Sequences of calls on one service object *)

Inductive request :=
| Analyze (ext : Externals) (text : string) (user_languages : user_langs)
          (use_cache fast_mode : bool) (performance_mode : string)
| ClearCache
| GetCacheStats.

Definition serve (q : request) (s : SwitchPrintService) : SwitchPrintService :=
  match q with
  | Analyze ext text user_languages use_cache fast_mode performance_mode =>
      snd (analyze_text ext text user_languages use_cache fast_mode performance_mode s)
  | ClearCache => snd (clear_cache s)
  | GetCacheStats => snd (get_cache_stats s)
  end.

Definition run (qs : list request) (s : SwitchPrintService) : SwitchPrintService :=
  fold_left (fun s q => serve q s) qs s.

End Service.

End Bridge.

(* ================================================================== *)
(** ** fasttext_worker.py                                              *)
(* ================================================================== *)

Module Worker.

(** A parsed JSON document, as [json.loads] builds it: an object is a
    dictionary. *)
#[local] Set Warnings "-register-all".
Inductive json :=
| JNull
| JBool (b : bool)
| JInt (z : Z)
| JFloat (q : Q)
| JString (s : string)
| JArray (items : list json)
| JObject (fields : Py.dict json).

(** [bool(v)] *)
Definition truthy (v : json) : bool :=
  match v with
  | JNull => false
  | JBool b => b
  | JInt z => negb (z =? 0)%Z
  | JFloat q => negb (Qeq_bool q 0)
  | JString s => Py.truthy s
  | JArray items => Bridge.non_empty items
  | JObject fields => Bridge.non_empty fields
  end.

(** [type(v).__name__] *)
Definition type_name (v : json) : string :=
  match v with
  | JNull => "NoneType"
  | JBool _ => "bool"
  | JInt _ => "int"
  | JFloat _ => "float"
  | JString _ => "str"
  | JArray _ => "list"
  | JObject _ => "dict"
  end.

(** [str(e)] of the [AttributeError] raised by [v.attr]. *)
Definition no_attribute (v : json) (attr : string) : string :=
  "'" ++ type_name v ++ "' object has no attribute '" ++ attr ++ "'".

Definition AttributeError {A : Type} (v : json) (attr : string) : outcome A :=
  Raised (no_attribute v attr).

Definition obind {A B : Type} (m : outcome A) (k : A -> outcome B) : outcome B :=
  match m with
  | Returned a => k a
  | Raised e => Raised e
  end.

Notation "x <- m ;; k" := (obind m (fun x => k))
  (at level 61, m at next level, right associativity).

Fixpoint mapM {A B : Type} (f : A -> outcome B) (l : list A) : outcome (list B) :=
  match l with
  | [] => Returned []
  | a :: l' => b <- f a ;; bs <- mapM f l' ;; Returned (b :: bs)
  end.

(** A value used as a string: calling a [str] method on anything else
    raises. *)
Definition as_str (attr : string) (v : json) : outcome string :=
  match v with
  | JString s => Returned s
  | _ => AttributeError v attr
  end.

Fixpoint characters (s : string) : list string :=
  match s with
  | EmptyString => []
  | String c s' => String c EmptyString :: characters s'
  end.

(** [for x in v]: the items of a list, the keys of a dictionary, the
    characters of a string. *)
Definition iterate (v : json) : outcome (list json) :=
  match v with
  | JArray items => Returned items
  | JObject fields => Returned (map JString (Py.keys fields))
  | JString s => Returned (map JString (characters s))
  | _ => Raised ("'" ++ type_name v ++ "' object is not iterable")
  end.

(** [_create_language_mapping] *)
Definition languages_map : Py.dict string :=
  [ ("english", "en"); ("spanish", "es"); ("hindi", "hi"); ("mandarin", "zh");
    ("chinese", "zh"); ("french", "fr"); ("arabic", "ar"); ("portuguese", "pt");
    ("russian", "ru"); ("japanese", "ja"); ("german", "de"); ("korean", "ko");
    ("italian", "it"); ("dutch", "nl"); ("swedish", "sv"); ("norwegian", "no");
    ("tagalog", "tl"); ("urdu", "ur"); ("bengali", "bn"); ("vietnamese", "vi");
    ("turkish", "tr"); ("polish", "pl"); ("ukrainian", "uk"); ("czech", "cs");
    ("greek", "el"); ("hebrew", "he"); ("thai", "th"); ("romanian", "ro");
    ("hungarian", "hu"); ("finnish", "fi"); ("bulgarian", "bg"); ("croatian", "hr");
    ("slovak", "sk"); ("lithuanian", "lt"); ("latvian", "lv"); ("estonian", "et");
    ("slovenian", "sl"); ("macedonian", "mk"); ("albanian", "sq"); ("serbian", "sr");
    ("bosnian", "bs"); ("montenegrin", "cnr"); ("maltese", "mt") ].

(** [_normalize_language] *)
Definition _normalize_language (lang : string) : string :=
  let lang_lower := Py.strip (Py.lower lang) in
  getattr (Py.get lang_lower languages_map) (Py.take 2 lang_lower).

Definition code_to_name_map : Py.dict string :=
  [ ("en", "English"); ("es", "Spanish"); ("hi", "Hindi"); ("zh", "Chinese");
    ("fr", "French"); ("ar", "Arabic"); ("pt", "Portuguese"); ("ru", "Russian");
    ("ja", "Japanese"); ("de", "German"); ("ko", "Korean"); ("it", "Italian");
    ("nl", "Dutch"); ("sv", "Swedish"); ("no", "Norwegian"); ("tl", "Tagalog");
    ("ur", "Urdu"); ("bn", "Bengali"); ("vi", "Vietnamese"); ("tr", "Turkish");
    ("pl", "Polish"); ("uk", "Ukrainian"); ("cs", "Czech"); ("el", "Greek");
    ("he", "Hebrew"); ("th", "Thai"); ("ro", "Romanian"); ("hu", "Hungarian");
    ("fi", "Finnish"); ("bg", "Bulgarian"); ("hr", "Croatian"); ("sk", "Slovak");
    ("lt", "Lithuanian"); ("lv", "Latvian"); ("et", "Estonian"); ("sl", "Slovenian");
    ("mk", "Macedonian"); ("sq", "Albanian"); ("sr", "Serbian"); ("bs", "Bosnian");
    ("mt", "Maltese") ].

(** [_code_to_name] *)
Definition _code_to_name (code : string) : string :=
  getattr (Py.get code code_to_name_map) (Py.upper code).

(** The loaded FastText model: [model.predict(text, k)] returns the [k]
    best labels with their probabilities, or raises. *)
Definition Model := string -> nat -> outcome (list string * list Q).

(** The attributes [model] and [model_path] of [FastTextWorker]. *)
Record FastTextWorker := {
  model : option Model;
  model_path : option string
}.

(** One entry of the ranked list [detected_languages]. *)
Record Detected := {
  d_language : string;
  d_confidence : Q;
  d_name : string
}.

Record Processing := {
  timeMs : Q;
  engine : string;
  modelPath : option string;
  tokensPerSecond : Z
}.

(** The dictionary returned by a successful detection. *)
Record Detection := {
  tokens : list Token;
  phrases : list Phrase;
  switchPoints : list Z;
  confidence : Q;
  userLanguageMatch : bool;
  detectedLanguages : list string;
  processing : Processing
}.

(** A line written to standard output, before [json.dumps]. *)
Inductive Response :=
| Ready (engine model : string)
| Error (error : string)
| Result (result : Detection).

Definition Qsum (l : list Q) : Q := fold_left Qplus l 0.

(** [_create_phrase], called on non-empty token lists only. *)
Definition _create_phrase (tokens : list Token) : Phrase :=
  let words := map tk_word tokens in
  let text := Py.join " " words in
  let avg_confidence :=
    Qsum (map tk_confidence tokens) / inject_Z (Z.of_nat (length tokens)) in
  {| ph_words := words;
     ph_text := text;
     ph_language := match tokens with t :: _ => tk_language t | [] => EmptyString end;
     ph_confidence := avg_confidence;
     ph_startIndex := 0;
     ph_endIndex := Z.of_nat (length words);
     ph_isUserLanguage := false |}.

(** [current_phrase[-1]['lang']] *)
Definition last_lang (current_phrase : list Token) : string :=
  match rev current_phrase with
  | t :: _ => tk_lang t
  | [] => EmptyString
  end.

(** The loop [for token in tokens[1:]] and "add final phrase". *)
Fixpoint group_tokens (current_phrase : list Token) (phrases : list Phrase)
    (rest : list Token) : list Phrase :=
  match rest with
  | [] =>
      if Bridge.non_empty current_phrase
      then phrases ++ [_create_phrase current_phrase]
      else phrases
  | token :: rest' =>
      if String.eqb (tk_lang token) (last_lang current_phrase)
      then group_tokens (current_phrase ++ [token]) phrases rest'
      else group_tokens [token] (phrases ++ [_create_phrase current_phrase]) rest'
  end.

Definition make_phrases (tokens : list Token) : list Phrase :=
  match tokens with
  | [] => []
  | t0 :: rest => group_tokens [t0] [] rest
  end.

(** [for i in range(len(phrases) - 1)]: the [endIndex] of every phrase
    whose successor has another language. *)
Fixpoint switch_points_of (phrases : list Phrase) : list Z :=
  match phrases with
  | p :: (q :: _) as rest =>
      (if negb (String.eqb (ph_language p) (ph_language q))
       then [ph_endIndex p] else [])
      ++ switch_points_of rest
  | _ => []
  end.

(** The word-level prediction of one token. *)
Definition word_token (predict : Model) (word : string) : outcome Token :=
  word_pred <- predict word 1%nat ;;
  let word_lang :=
    match fst word_pred with
    | label :: _ => Py.remove "__label__" label
    | [] => "unknown"
    end in
  let word_conf :=
    match snd word_pred with
    | c :: _ => c
    | [] => 0.0
    end in
  Returned {| tk_word := word;
              tk_lang := word_lang;
              tk_language := _code_to_name word_lang;
              tk_confidence := word_conf |}.

Definition LF : ascii := ascii_of_nat 10.
Definition CR : ascii := ascii_of_nat 13.

(** The body of the [try] of [detect_language]. *)
Definition detect_body (self : FastTextWorker) (predict : Model)
    (text user_languages : json) : outcome Response :=
  text <- as_str "replace" text ;;
  let cleaned_text :=
    Py.strip (Py.replace_char CR " " (Py.replace_char LF " " text)) in
  if negb (Py.truthy cleaned_text) then Returned (Error "Empty text provided")
  else
    predictions <- predict cleaned_text 5%nat ;;
    let detected_languages :=
      map (fun lc =>
             let lang_code := Py.remove "__label__" (fst lc) in
             {| d_language := lang_code;
                d_confidence := snd lc;
                d_name := _code_to_name lang_code |})
          (combine (fst predictions) (snd predictions)) in
    let words := Py.split cleaned_text in
    tokens <- mapM (word_token predict) words ;;
    let phrases := make_phrases tokens in
    let switch_points := switch_points_of phrases in
    let primary_lang := hd_error detected_languages in
    user_lang_match <-
      match primary_lang with
      | Some primary =>
          if truthy user_languages
          then
            langs <- iterate user_languages ;;
            normalized_user_langs <-
              mapM (fun lang => l <- as_str "lower" lang ;;
                                Returned (_normalize_language l)) langs ;;
            Returned (Py.str_in (d_language primary) normalized_user_langs)
          else Returned false
      | None => Returned false
      end ;;
    Returned (Result
      {| tokens := tokens;
         phrases := phrases;
         switchPoints := switch_points;
         confidence := match primary_lang with
                       | Some primary => d_confidence primary
                       | None => 0.0
                       end;
         userLanguageMatch := user_lang_match;
         detectedLanguages := map d_name (firstn 3 detected_languages);
         processing :=
           {| timeMs := 0;
              engine := "FastText";
              modelPath := model_path self;
              tokensPerSecond :=
                if Bridge.non_empty tokens
                then Z.of_nat (length tokens) * 1000 else 0 |} |}).

(** [detect_language]: every exception of the body becomes an error
    dictionary. *)
Definition detect_language (self : FastTextWorker) (text user_languages : json)
    : Response :=
  match model self with
  | None => Error "FastText model not initialized"
  | Some predict =>
      match detect_body self predict text user_languages with
      | Returned response => response
      | Raised e => Error ("Detection failed: " ++ e)
      end
  end.

(** *** The request loop *)

(** [round(x)] to the nearest integer, ties to even, and [round(x, 2)]. *)
Definition round_half_even (q : Q) : Z :=
  let n := Qnum q in
  let d := Zpos (Qden q) in
  let f := (n / d)%Z in
  let r := (n mod d)%Z in
  if (2 * r <? d)%Z then f
  else if (d <? 2 * r)%Z then (f + 1)%Z
  else if Z.even f then f else (f + 1)%Z.

Definition round2 (q : Q) : Q := inject_Z (round_half_even (q * 100)) / 100.

(** [result['processing']['timeMs'] = ...] when the key is present. *)
Definition set_timeMs (t : Q) (response : Response) : Response :=
  match response with
  | Result r =>
      Result {| tokens := tokens r;
                phrases := phrases r;
                switchPoints := switchPoints r;
                confidence := confidence r;
                userLanguageMatch := userLanguageMatch r;
                detectedLanguages := detectedLanguages r;
                processing :=
                  {| timeMs := t;
                     engine := engine (processing r);
                     modelPath := modelPath (processing r);
                     tokensPerSecond := tokensPerSecond (processing r) |} |}
  | other => other
  end.

(** What [json.loads] does with a line. *)
Inductive parsed :=
| Loaded (request : json)
| JSONDecodeError (msg : string).

(** What the process does, in order. *)
Inductive event :=
| Read (line : string)
| Print (response : Response)
| Flush
| Exit (status : Z).

(** The two exception classes the loop tells apart. *)
Inductive raised (A : Type) :=
| Done (a : A)
| DecodeFailed (e : string)
| Failed (e : string).
Arguments Done {A} a.
Arguments DecodeFailed {A} e.
Arguments Failed {A} e.

Section Loop.

(** The JSON parser, and the two clock readings taken around the
    detection of the [n]-th line read. *)
Variable json_loads : string -> parsed.
Variable clock : nat -> Q * Q.

(** [d.get(key, default)] *)
Definition get_default (key : string) (default : json) (fields : Py.dict json) : json :=
  getattr (Py.get key fields) default.

(** The statements of the inner [try] up to the assignment of
    [response]. *)
Definition respond (worker : FastTextWorker) (n : nat) (line : string)
    : raised Response :=
  match json_loads line with
  | JSONDecodeError e => DecodeFailed e
  | Loaded request =>
      match request with
      | JObject fields =>
          let text := get_default "text" (JString EmptyString) fields in
          let languages := get_default "languages" (JArray []) fields in
          if negb (truthy text) then Done (Error "No text provided")
          else
            let start_time := fst (clock n) in
            let result := detect_language worker text languages in
            let end_time := snd (clock n) in
            Done (set_timeMs (round2 ((end_time - start_time) * 1000)) result)
      | _ => Failed (no_attribute request "get")
      end
  end.

(** One non-blank line: the inner [try] with its two handlers. *)
Definition handle_line (worker : FastTextWorker) (n : nat) (line : string)
    : list event :=
  match respond worker n line with
  | Done response => [Print response; Flush]
  | DecodeFailed e => [Print (Error ("Invalid JSON: " ++ e)); Flush]
  | Failed e => [Print (Error ("Processing failed: " ++ e)); Flush]
  end.

(** [for line in sys.stdin]; [n] numbers the lines read. *)
Fixpoint request_loop (worker : FastTextWorker) (n : nat) (stdin : list string)
    : list event :=
  match stdin with
  | [] => []
  | raw :: rest =>
      let line := Py.strip raw in
      Read raw ::
        (if negb (Py.truthy line) then request_loop worker (S n) rest
         else handle_line worker n line ++ request_loop worker (S n) rest)
  end.

(** [main]; [initialized] is what [worker.initialize()] achieved: the
    path and the loaded model, or nothing. *)
Definition main (initialized : option (string * Model)) (stdin : list string)
    : list event :=
  match initialized with
  | None => [Print (Error "Failed to initialize FastText model"); Exit 1]
  | Some (path, loaded_model) =>
      let worker := {| model := Some loaded_model; model_path := Some path |} in
      Print (Ready "FastText" path) :: Flush :: request_loop worker 0 stdin
  end.

End Loop.

End Worker.

(* ================================================================== *)
(** ** Properties of the token walk                                    *)
(* ================================================================== *)

Module TokenWalk.
Import Bridge.


(** How many positions of [start, start + len) are supplied switch-point
    indices. *)
Definition switches_in (switch_points : list Z) (start len : nat) : nat :=
  length (filter (fun j => Py.int_in (Z.of_nat j) switch_points) (seq start len)).

(** How many of the positions [0 .. i] are supplied switch-point
    indices. *)
Definition switches_upto (switch_points : list Z) (i : nat) : nat :=
  switches_in switch_points 0 (S i).

(** The test of both conversions for the walking branch. *)
Definition walks (detected_languages : list string) (switch_points : list Z) : bool :=
  (1 <? length detected_languages)%nat && non_empty switch_points.

Lemma non_empty_int_in (x : Z) (sp : list Z) :
  non_empty sp && Py.int_in x sp = Py.int_in x sp.
Proof. destruct sp; reflexivity. Qed.

Lemma switches_in_S (sp : list Z) (start len : nat) :
  switches_in sp start (S len)
  = ((if Py.int_in (Z.of_nat start) sp then 1 else 0) + switches_in sp (S start) len)%nat.
Proof.
  unfold switches_in. cbn [seq filter].
  destruct (Py.int_in (Z.of_nat start) sp); reflexivity.
Qed.

Lemma index_or_nth (d : string) (l : list string) (i : nat) :
  Py.index_or d l i = nth i l d.
Proof. destruct l; [destruct i|]; reflexivity. Qed.

(** Tokens built from positions: the shape shared by the closed forms. *)
Definition tokens_at (lang_at : nat -> string) (conf : Q) (start : nat)
    (words : list string) : list Token :=
  map (fun iw => make_token (snd iw) (lang_at (fst iw)) conf)
      (combine (seq start (length words)) words).

Lemma tokens_at_cons lang_at conf start w words :
  tokens_at lang_at conf start (w :: words)
  = make_token w (lang_at start) conf :: tokens_at lang_at conf (S start) words.
Proof. reflexivity. Qed.

Lemma tokens_at_ext (f g : nat -> string) conf start words :
  (forall k, (k < length words)%nat -> f (start + k)%nat = g (start + k)%nat) ->
  tokens_at f conf start words = tokens_at g conf start words.
Proof.
  revert start. induction words as [|w words IH]; intros start H; [reflexivity|].
  rewrite !tokens_at_cons. f_equal.
  - specialize (H 0%nat). rewrite Nat.add_0_r in H. rewrite H; [reflexivity|cbn; lia].
  - apply IH. intros k Hk. replace (S start + k)%nat with (start + S k)%nat by lia.
    apply H. cbn. lia.
Qed.

Section Walk.

Variable detected_languages : list string.
Variable switch_points : list Z.
Variable conf : Q.

Let n := length detected_languages.

(** The cyclic walk from position [i] with index [cur]: the token at
    position [j >= i] gets the language at index
    [(cur + switches in [i, j]) mod n]. *)
Lemma walk_cyclic_from (words : list string) :
  forall i cur,
    (cur < n)%nat ->
    walk_cyclic detected_languages switch_points conf i cur words
    = tokens_at
        (fun j => nth ((cur + switches_in switch_points i (S j - i)) mod n)
                      detected_languages "unknown")
        conf i words.
Proof.
  induction words as [|w words IH]; intros i cur Hcur; [reflexivity|].
  cbn [walk_cyclic]. rewrite tokens_at_cons, non_empty_int_in, index_or_nth.
  replace (S i - i)%nat with 1%nat by lia.
  rewrite switches_in_S. cbn [switches_in seq filter length]. rewrite Nat.add_0_r.
  fold n.
  destruct (Py.int_in (Z.of_nat i) switch_points) eqn:Hin.
  - f_equal. rewrite IH by (apply Nat.mod_upper_bound; lia).
    apply tokens_at_ext. intros k _.
    replace (S (S i + k) - S i)%nat with (S k) by lia.
    replace (S (S i + k) - i)%nat with (S (S k)) by lia.
    rewrite (switches_in_S switch_points i (S k)), Hin.
    rewrite Nat.Div0.add_mod_idemp_l. f_equal. f_equal. lia.
  - rewrite Nat.add_0_r, (Nat.mod_small cur n) by lia. f_equal.
    rewrite IH by assumption.
    apply tokens_at_ext. intros k _.
    replace (S (S i + k) - S i)%nat with (S k) by lia.
    replace (S (S i + k) - i)%nat with (S (S k)) by lia.
    rewrite (switches_in_S switch_points i (S k)), Hin. reflexivity.
Qed.

(** The clamped walk: the index is [min (cur + switches) (n - 1)]. *)
Lemma walk_clamped_from (words : list string) :
  forall i cur,
    (cur < n)%nat ->
    walk_clamped detected_languages switch_points conf i cur words
    = tokens_at
        (fun j => nth (Nat.min (cur + switches_in switch_points i (S j - i)) (n - 1))
                      detected_languages "unknown")
        conf i words.
Proof.
  induction words as [|w words IH]; intros i cur Hcur; [reflexivity|].
  cbn [walk_clamped]. rewrite tokens_at_cons.
  replace (S i - i)%nat with 1%nat by lia.
  rewrite switches_in_S. cbn [switches_in seq filter length]. rewrite Nat.add_0_r.
  fold n.
  set (cur' := if Py.int_in (Z.of_nat i) switch_points && (cur <? n - 1)%nat
               then (cur + 1)%nat else cur).
  assert (Hcur' : cur' = Nat.min
            (cur + (if Py.int_in (Z.of_nat i) switch_points then 1 else 0)) (n - 1)).
  { subst cur'. destruct (Py.int_in (Z.of_nat i) switch_points); cbn [andb].
    - destruct (Nat.ltb_spec cur (n - 1)); lia.
    - lia. }
  assert (Hlt : (cur' < n)%nat) by lia.
  apply Nat.ltb_lt in Hlt as Hltb. rewrite Hltb.
  f_equal.
  - rewrite (nth_indep _ EmptyString "unknown") by (fold n; lia).
    rewrite Hcur'. reflexivity.
  - rewrite IH by assumption.
    apply tokens_at_ext. intros k _.
    replace (S (S i + k) - S i)%nat with (S k) by lia.
    replace (S (S i + k) - i)%nat with (S (S k)) by lia.
    rewrite (switches_in_S switch_points i (S k)). f_equal. lia.
Qed.

Lemma single_language_tokens (words : list string) :
  single_language detected_languages conf words
  = tokens_at (fun _ => nth 0 detected_languages "unknown") conf 0 words.
Proof.
  unfold single_language. rewrite index_or_nth.
  generalize 0%nat at 3. induction words as [|w words IH]; intro k; [reflexivity|].
  rewrite tokens_at_cons. cbn [map]. f_equal. apply IH.
Qed.

End Walk.

(** The index into [detected_languages] that the primary conversion
    uses for the token at position [i]. *)
Definition cyclic_index (detected_languages : list string) (switch_points : list Z)
    (i : nat) : nat :=
  if walks detected_languages switch_points
  then switches_upto switch_points i mod length detected_languages
  else 0%nat.

(** The same for the legacy conversion. *)
Definition clamped_index (detected_langs : list string) (switch_points : list Z)
    (i : nat) : nat :=
  if walks detected_langs switch_points
  then Nat.min (switches_upto switch_points i) (length detected_langs - 1)
  else 0%nat.

(** The tokens of the primary conversion, position by position. *)
Lemma tokens_v2_1_2_closed (detected_languages : list string)
    (switch_points : list Z) (conf : Q) (words : list string) :
  tokens_v2_1_2 detected_languages switch_points conf words
  = tokens_at (fun i => nth (cyclic_index detected_languages switch_points i)
                            detected_languages "unknown")
      conf 0 words.
Proof.
  unfold tokens_v2_1_2, cyclic_index.
  fold (walks detected_languages switch_points).
  destruct (walks detected_languages switch_points) eqn:W.
  - assert (Hn : (0 < length detected_languages)%nat).
    { unfold walks in W. apply andb_prop in W as [W _].
      apply Nat.ltb_lt in W. lia. }
    rewrite walk_cyclic_from by exact Hn.
    apply tokens_at_ext. intros k _. cbn [Nat.add].
    rewrite Nat.sub_0_r. reflexivity.
  - apply single_language_tokens.
Qed.

(** The tokens of the legacy conversion, position by position. *)
Lemma tokens_legacy_closed (detected_langs : list string)
    (switch_points : list Z) (conf : Q) (words : list string) :
  tokens_legacy detected_langs switch_points conf words
  = tokens_at (fun i => nth (clamped_index detected_langs switch_points i)
                            detected_langs "unknown")
      conf 0 words.
Proof.
  unfold tokens_legacy, clamped_index.
  fold (walks detected_langs switch_points).
  destruct (walks detected_langs switch_points) eqn:W.
  - assert (Hn : (0 < length detected_langs)%nat).
    { unfold walks in W. apply andb_prop in W as [W _].
      apply Nat.ltb_lt in W. lia. }
    rewrite walk_clamped_from by exact Hn.
    apply tokens_at_ext. intros k _. cbn [Nat.add].
    rewrite Nat.sub_0_r. reflexivity.
  - apply single_language_tokens.
Qed.


Example cyclic_walk_example :
  map tk_lang (tokens_v2_1_2 ["en"; "es"] [1%Z; 3%Z; 4%Z] 0.5 ["a"; "b"; "c"; "d"; "e"])
  = ["en"; "es"; "es"; "en"; "es"].
Proof. reflexivity. Qed.

Example clamped_walk_example :
  map tk_lang (tokens_legacy ["en"; "es"] [1%Z; 3%Z; 4%Z] 0.5 ["a"; "b"; "c"; "d"; "e"])
  = ["en"; "es"; "es"; "es"; "es"].
Proof. reflexivity. Qed.

End TokenWalk.

(* ================================================================== *)
(** ** Phrases of the bridge conversions partition the tokens          *)
(* ================================================================== *)

Module PhrasePartition.
Import Bridge.

(** [covers start tokens phrases]: read from left to right, the phrases
    cut [tokens] into consecutive non-empty blocks; each phrase holds
    the words of its block, its [startIndex] is the position of the
    block's first token when the first token of [tokens] has position
    [start], its [endIndex] the position of the last, and its language
    is the language of every token of the block. *)
Fixpoint covers (start : Z) (tokens : list Token) (phrases : list Phrase) : Prop :=
  match phrases with
  | [] => tokens = []
  | p :: ps =>
      let n := length (ph_words p) in
      ph_words p <> []
      /\ ph_startIndex p = start
      /\ ph_endIndex p = (start + Z.of_nat n - 1)%Z
      /\ ph_words p = map tk_word (firstn n tokens)
      /\ Forall (fun t => tk_lang t = ph_language p) (firstn n tokens)
      /\ covers (start + Z.of_nat n) (skipn n tokens) ps
  end.

(** Neighbouring phrases have different languages. *)
Fixpoint adjacent_differ (phrases : list Phrase) : Prop :=
  match phrases with
  | p :: (q :: _) as rest => ph_language p <> ph_language q /\ adjacent_differ rest
  | _ => True
  end.

Section Grouping.

Variable conf : Q.
Variable user_languages : user_langs.

Lemma group_from_acc (rest : list Token) :
  forall i cp acc,
    group_from conf user_languages i cp acc rest
    = acc ++ group_from conf user_languages i cp [] rest.
Proof.
  induction rest as [|t rest IH]; intros i cp acc; cbn [group_from].
  - reflexivity.
  - destruct (String.eqb (tk_lang t) (op_language cp)).
    + apply IH.
    + rewrite (IH _ _ (acc ++ _)), (IH _ _ ([] ++ _)).
      rewrite <- app_assoc. reflexivity.
Qed.

(** The first phrase produced from an open phrase has its language. *)
Lemma group_from_head (rest : list Token) :
  forall i cp,
    exists p ps,
      group_from conf user_languages i cp [] rest = p :: ps
      /\ ph_language p = op_language cp.
Proof.
  induction rest as [|t rest IH]; intros i cp; cbn [group_from].
  - eexists _, _. split; reflexivity.
  - destruct (String.eqb (tk_lang t) (op_language cp)).
    + destruct (IH (S i) {| op_words := op_words cp ++ [tk_word t];
                            op_language := op_language cp;
                            op_startIndex := op_startIndex cp |})
        as (p & ps & E & L).
      exists p, ps. split; assumption.
    + rewrite group_from_acc. eexists _, _. split; reflexivity.
Qed.

Lemma group_from_adjacent (rest : list Token) :
  forall i cp, adjacent_differ (group_from conf user_languages i cp [] rest).
Proof.
  induction rest as [|t rest IH]; intros i cp; cbn [group_from].
  - exact I.
  - destruct (String.eqb (tk_lang t) (op_language cp)) eqn:E.
    + apply IH.
    + rewrite group_from_acc. cbn [app].
      set (new := {| op_words := [tk_word t]; op_language := tk_lang t;
                     op_startIndex := Z.of_nat i |}).
      destruct (group_from_head rest (S i) new) as (p & ps & Eq & L).
      specialize (IH (S i) new). rewrite Eq in *.
      cbn [adjacent_differ]. split; [|exact IH].
      cbn [finalize ph_language]. rewrite L. cbn [new op_language].
      apply String.eqb_neq in E. congruence.
Qed.

(** The loop invariant: [cur] are the tokens gathered in the open
    phrase, the next token has position [i]. *)
Lemma group_from_covers (rest : list Token) :
  forall i cp cur,
    cur <> [] ->
    op_words cp = map tk_word cur ->
    Forall (fun t => tk_lang t = op_language cp) cur ->
    (op_startIndex cp + Z.of_nat (length cur))%Z = Z.of_nat i ->
    covers (op_startIndex cp) (cur ++ rest)
           (group_from conf user_languages i cp [] rest).
Proof.
  induction rest as [|t rest IH]; intros i cp cur Hne Hw Hl Hi; cbn [group_from].
  - cbn [app covers finalize ph_words ph_startIndex ph_endIndex ph_language].
    rewrite Hw, length_map, app_nil_r, firstn_all, skipn_all.
    repeat split; try reflexivity; try assumption.
    destruct cur; [contradiction|discriminate].
  - destruct (String.eqb (tk_lang t) (op_language cp)) eqn:E.
    + apply String.eqb_eq in E.
      replace (cur ++ t :: rest) with ((cur ++ [t]) ++ rest)
        by (rewrite <- app_assoc; reflexivity).
      apply (IH (S i)
               {| op_words := op_words cp ++ [tk_word t];
                  op_language := op_language cp;
                  op_startIndex := op_startIndex cp |}).
      * destruct cur; discriminate.
      * cbn [op_words]. rewrite map_app, Hw. reflexivity.
      * cbn [op_language]. apply Forall_app. split; [assumption|].
        constructor; [assumption|constructor].
      * cbn [op_startIndex]. rewrite length_app. cbn [length]. lia.
    + rewrite group_from_acc. cbn [app].
      cbn [covers finalize ph_words ph_startIndex ph_endIndex ph_language].
      rewrite Hw, length_map.
      rewrite firstn_app, firstn_all, Nat.sub_diag, app_nil_r.
      rewrite skipn_app, skipn_all, Nat.sub_diag. cbn [firstn skipn app].
      repeat split; try reflexivity; try assumption.
      * destruct cur; [contradiction|discriminate].
      * rewrite Hi.
        apply (IH (S i)
                 {| op_words := [tk_word t]; op_language := tk_lang t;
                    op_startIndex := Z.of_nat i |} [t]).
        -- discriminate.
        -- reflexivity.
        -- constructor; [reflexivity|constructor].
        -- cbn [op_startIndex length]. lia.
Qed.

(** The phrases of [make_phrases] cover the tokens from position 0. *)
Lemma make_phrases_covers (tokens : list Token) :
  covers 0 tokens (make_phrases conf user_languages tokens).
Proof.
  destruct tokens as [|t0 rest]; [reflexivity|].
  cbn [make_phrases].
  apply (group_from_covers rest 1
           {| op_words := [tk_word t0]; op_language := tk_lang t0;
              op_startIndex := 0 |} [t0]).
  - discriminate.
  - reflexivity.
  - constructor; [reflexivity|constructor].
  - reflexivity.
Qed.

Lemma make_phrases_adjacent (tokens : list Token) :
  adjacent_differ (make_phrases conf user_languages tokens).
Proof.
  destruct tokens as [|t0 rest]; [exact I|]. apply group_from_adjacent.
Qed.

End Grouping.

(** The partition property as the design document words it.  The index
    ranges are contiguous from [start]: *)
Fixpoint contiguous (start : Z) (phrases : list Phrase) : Prop :=
  match phrases with
  | [] => True
  | p :: ps =>
      ph_startIndex p = start
      /\ ph_endIndex p
         = (ph_startIndex p + Z.of_nat (length (ph_words p)) - 1)%Z
      /\ contiguous (ph_endIndex p + 1) ps
  end.

Definition word_count (p : Phrase) : nat := length (ph_words p).

(** The word counts add up to the number of tokens, the index ranges
    are contiguous from 0, the words are those of the tokens in order,
    and every token in the range of a phrase has the language of the
    phrase. *)
Definition is_partition (tokens : list Token) (phrases : list Phrase) : Prop :=
  list_sum (map word_count phrases) = length tokens
  /\ contiguous 0 phrases
  /\ concat (map ph_words phrases) = map tk_word tokens
  /\ forall p, In p phrases ->
       forall i, (ph_startIndex p <= i <= ph_endIndex p)%Z ->
         option_map tk_lang (nth_error tokens (Z.to_nat i)) = Some (ph_language p).

Lemma covers_block (start : Z) (tokens : list Token) (p : Phrase) (ps : list Phrase) :
  covers start tokens (p :: ps) ->
  (word_count p <= length tokens)%nat /\ (0 < word_count p)%nat.
Proof.
  cbn [covers]. intros (Hne & _ & _ & Hw & _). unfold word_count. split.
  - apply (f_equal (@length string)) in Hw.
    rewrite length_map, length_firstn in Hw. lia.
  - destruct (ph_words p); [contradiction|cbn; lia].
Qed.

Lemma covers_facts (phrases : list Phrase) :
  forall start tokens,
    (0 <= start)%Z ->
    covers start tokens phrases ->
    list_sum (map word_count phrases) = length tokens
    /\ contiguous start phrases
    /\ concat (map ph_words phrases) = map tk_word tokens
    /\ forall p, In p phrases ->
         (start <= ph_startIndex p)%Z
         /\ forall i, (ph_startIndex p <= i <= ph_endIndex p)%Z ->
              option_map tk_lang (nth_error tokens (Z.to_nat (i - start)))
              = Some (ph_language p).
Proof.
  induction phrases as [|p ps IH]; intros start tokens Hs H.
  - cbn in H. subst tokens.
    split; [reflexivity|]. split; [exact I|]. split; [reflexivity|].
    intros p [].
  - destruct (covers_block _ _ _ _ H) as [Hle Hpos].
    cbn [covers] in H. destruct H as (Hne & Hst & Hen & Hw & Hl & Hrest).
    fold (word_count p) in *.
    destruct (IH (start + Z.of_nat (word_count p))%Z
                 (skipn (word_count p) tokens)) as (S1 & S2 & S3 & S4);
      [lia|exact Hrest|].
    split; [|split; [|split]].
    + change (list_sum (map word_count (p :: ps)))
        with (word_count p + list_sum (map word_count ps))%nat.
      rewrite S1, length_skipn. lia.
    + cbn [contiguous]. split; [exact Hst|]. split.
      * rewrite Hen, Hst. reflexivity.
      * replace (ph_endIndex p + 1)%Z with (start + Z.of_nat (word_count p))%Z
          by (unfold word_count in *; lia).
        exact S2.
    + cbn [map concat]. rewrite S3, Hw, <- map_app, firstn_skipn. reflexivity.
    + intros q [<-|Hq].
      * split; [lia|]. intros i Hi.
        assert (Hk : (Z.to_nat (i - start) < word_count p)%nat)
          by (unfold word_count in *; lia).
        pose proof (nth_error_firstn (word_count p) tokens (Z.to_nat (i - start))) as E.
        apply Nat.ltb_lt in Hk as Hkb. rewrite Hkb in E. rewrite <- E.
        destruct (nth_error (firstn (word_count p) tokens) (Z.to_nat (i - start)))
          as [t|] eqn:Et.
        -- cbn [option_map]. f_equal.
           rewrite Forall_forall in Hl. apply Hl.
           apply nth_error_In with (n := Z.to_nat (i - start)). exact Et.
        -- apply nth_error_None in Et. rewrite length_firstn in Et. lia.
      * destruct (S4 q Hq) as [Hge Hlang]. split; [lia|].
        intros i Hi. specialize (Hlang i Hi).
        rewrite nth_error_skipn in Hlang. rewrite <- Hlang.
        f_equal. f_equal. lia.
Qed.

Lemma covers_partition (tokens : list Token) (phrases : list Phrase) :
  covers 0 tokens phrases -> is_partition tokens phrases.
Proof.
  intro H. destruct (covers_facts phrases 0 tokens (Z.le_refl 0) H)
    as (S1 & S2 & S3 & S4).
  split; [exact S1|]. split; [exact S2|]. split; [exact S3|].
  intros p Hp i Hi. destruct (S4 p Hp) as [_ Hlang].
  rewrite <- (Hlang i Hi). rewrite Z.sub_0_r. reflexivity.
Qed.

(** The phrases of both conversions partition the tokens of the result,
    for every detector output and every text. *)
Lemma convert_v2_1_2_partition (available : bool) (sp_result : IntegratedResult)
    (context_result : option ContextResult)
    (optimization_result : option OptimizationResult)
    (text : string) (user_languages : user_langs) (start_time now : Q)
    (performance_mode : string) :
  let r := _convert_v2_1_2_result available sp_result context_result
             optimization_result text user_languages start_time now
             performance_mode in
  is_partition (tokens r) (phrases r) /\ adjacent_differ (phrases r).
Proof.
  cbn zeta. unfold _convert_v2_1_2_result. cbn [tokens phrases]. split.
  - apply covers_partition, make_phrases_covers.
  - apply make_phrases_adjacent.
Qed.

Lemma convert_legacy_partition (sp_result : LegacyResult)
    (text : string) (user_languages : user_langs) (start_time now : Q) :
  let r := _convert_legacy_result sp_result text user_languages start_time now in
  is_partition (tokens r) (phrases r) /\ adjacent_differ (phrases r).
Proof.
  cbn zeta. unfold _convert_legacy_result. cbn [tokens phrases]. split.
  - apply covers_partition, make_phrases_covers.
  - apply make_phrases_adjacent.
Qed.

End PhrasePartition.

(* ================================================================== *)
(** ** Switch points                                                   *)
(* ================================================================== *)

Module SwitchPoints.
Import Bridge.
Import PhrasePartition.

(** The property of the design document, stated on a result's phrases
    and switch points. *)
Fixpoint strictly_increasing (l : list Z) : Prop :=
  match l with
  | a :: (b :: _) as rest => (a < b)%Z /\ strictly_increasing rest
  | _ => True
  end.

(** [z] is the [endIndex] of a phrase immediately followed by a phrase
    of another language. *)
Definition is_boundary (phrases : list Phrase) (z : Z) : Prop :=
  exists pre p q post,
    phrases = pre ++ p :: q :: post
    /\ ph_language p <> ph_language q
    /\ ph_endIndex p = z.

Definition switch_points_spec (phrases : list Phrase) (switch_points : list Z) : Prop :=
  length switch_points = (length phrases - 1)%nat
  /\ strictly_increasing switch_points
  /\ Forall (is_boundary phrases) switch_points.

(** The token at position [S k] has another language than the token
    before it, and [z] is its position. *)
Definition language_changes_at (tokens : list Token) (z : Z) : Prop :=
  exists k a b,
    z = Z.of_nat (S k)
    /\ nth_error tokens k = Some a
    /\ nth_error tokens (S k) = Some b
    /\ tk_lang a <> tk_lang b.

Lemma covers_block_lang (start : Z) (tokens : list Token) (p : Phrase)
    (ps : list Phrase) (k : nat) :
  covers start tokens (p :: ps) ->
  (k < word_count p)%nat ->
  exists t, nth_error tokens k = Some t /\ tk_lang t = ph_language p.
Proof.
  intros H Hk. destruct (covers_block _ _ _ _ H) as [Hle _].
  cbn [covers] in H. destruct H as (_ & _ & _ & _ & Hl & _).
  fold (word_count p) in Hl.
  destruct (nth_error tokens k) as [t|] eqn:Et.
  - exists t. split; [reflexivity|].
    rewrite Forall_forall in Hl. apply Hl.
    apply nth_error_In with (n := k).
    rewrite nth_error_firstn. apply Nat.ltb_lt in Hk. rewrite Hk. exact Et.
  - apply nth_error_None in Et. lia.
Qed.

(** Every phrase after the first starts where the language of the
    tokens changes. *)
Lemma later_phrases_start_at_changes (phrases : list Phrase) :
  forall tokens start,
    covers start tokens phrases ->
    adjacent_differ phrases ->
    Forall (fun q => exists k a b,
              ph_startIndex q = (start + Z.of_nat (S k))%Z
              /\ nth_error tokens k = Some a
              /\ nth_error tokens (S k) = Some b
              /\ tk_lang a <> tk_lang b)
           (tl phrases).
Proof.
  induction phrases as [|p ps IH]; intros tokens start Hc Ha; [constructor|].
  destruct ps as [|q ps']; [constructor|].
  cbn [tl].
  destruct (covers_block _ _ _ _ Hc) as [Hle Hpos].
  destruct (covers_block_lang _ _ _ _ (word_count p - 1) Hc) as (a & Ea & La); [lia|].
  pose proof Hc as Hc'. cbn [covers] in Hc'.
  destruct Hc' as (_ & _ & _ & _ & _ & Hrest). fold (word_count p) in Hrest.
  destruct (covers_block _ _ _ _ Hrest) as [_ Hqpos].
  destruct (covers_block_lang _ _ _ _ 0 Hrest Hqpos) as (b & Eb & Lb).
  rewrite nth_error_skipn, Nat.add_0_r in Eb.
  cbn [adjacent_differ] in Ha. destruct Ha as [Hne Ha].
  constructor.
  - exists (word_count p - 1)%nat, a, b.
    replace (S (word_count p - 1)) with (word_count p) by lia.
    repeat split; try assumption.
    + cbn [covers] in Hrest. destruct Hrest as (_ & Hst & _). exact Hst.
    + congruence.
  - specialize (IH _ _ Hrest Ha). cbn [tl] in IH.
    eapply Forall_impl; [|exact IH].
    intros r (k & x & y & Hs & Ex & Ey & Hxy).
    rewrite nth_error_skipn in Ex, Ey.
    exists (word_count p + k)%nat, x, y.
    repeat split; try assumption.
    + rewrite Hs. lia.
    + rewrite <- Ey. f_equal. lia.
Qed.

Lemma nth_error_tokens_at (f : nat -> string) (conf : Q) (words : list string) :
  forall start k t,
    nth_error (TokenWalk.tokens_at f conf start words) k = Some t ->
    tk_lang t = f (start + k)%nat.
Proof.
  induction words as [|w words IH]; intros start k t H.
  - destruct k; discriminate.
  - rewrite TokenWalk.tokens_at_cons in H. destruct k as [|k].
    + cbn in H. injection H as <-. cbn. rewrite Nat.add_0_r. reflexivity.
    + cbn [nth_error] in H. apply IH in H. rewrite H. f_equal. lia.
Qed.

Lemma switches_upto_S (sp : list Z) (k : nat) :
  TokenWalk.switches_upto sp (S k)
  = (TokenWalk.switches_upto sp k
     + (if Py.int_in (Z.of_nat (S k)) sp then 1 else 0))%nat.
Proof.
  unfold TokenWalk.switches_upto, TokenWalk.switches_in.
  rewrite (seq_S (S k)), filter_app, length_app. cbn [Nat.add filter].
  destruct (Py.int_in (Z.of_nat (S k)) sp); reflexivity.
Qed.

Lemma int_in_In (x : Z) (l : list Z) : Py.int_in x l = true -> In x l.
Proof.
  unfold Py.int_in. intro H. apply existsb_exists in H as (y & Hy & E).
  apply Z.eqb_eq in E. subst y. exact Hy.
Qed.

(** In the tokens of either conversion the language only changes at a
    supplied switch-point index. *)
Lemma change_is_switch_point (index : list string -> list Z -> nat -> nat)
    (detected_languages : list string) (switch_points : list Z) (conf : Q)
    (words : list string) (z : Z) :
  (forall k, Py.int_in (Z.of_nat (S k)) switch_points = false ->
             index detected_languages switch_points (S k)
             = index detected_languages switch_points k) ->
  language_changes_at
    (TokenWalk.tokens_at
       (fun i => nth (index detected_languages switch_points i)
                     detected_languages "unknown") conf 0 words) z ->
  In z switch_points.
Proof.
  intros Hidx (k & a & b & -> & Ea & Eb & Hab).
  apply nth_error_tokens_at in Ea, Eb. cbn [Nat.add] in Ea, Eb.
  apply int_in_In.
  destruct (Py.int_in (Z.of_nat (S k)) switch_points) eqn:E; [reflexivity|].
  exfalso. apply Hab. rewrite Ea, Eb, (Hidx k E). reflexivity.
Qed.

Lemma cyclic_index_stays (dl : list string) (sp : list Z) (k : nat) :
  Py.int_in (Z.of_nat (S k)) sp = false ->
  TokenWalk.cyclic_index dl sp (S k) = TokenWalk.cyclic_index dl sp k.
Proof.
  intro E. unfold TokenWalk.cyclic_index.
  rewrite switches_upto_S, E, Nat.add_0_r. reflexivity.
Qed.

Lemma clamped_index_stays (dl : list string) (sp : list Z) (k : nat) :
  Py.int_in (Z.of_nat (S k)) sp = false ->
  TokenWalk.clamped_index dl sp (S k) = TokenWalk.clamped_index dl sp k.
Proof.
  intro E. unfold TokenWalk.clamped_index.
  rewrite switches_upto_S, E, Nat.add_0_r. reflexivity.
Qed.

Lemma later_starts_in_switch_points (conf : Q) (user_languages : user_langs)
    (tokens : list Token) (switch_points : list Z) :
  (forall z, language_changes_at tokens z -> In z switch_points) ->
  Forall (fun q => In (ph_startIndex q) switch_points)
         (tl (make_phrases conf user_languages tokens)).
Proof.
  intro H.
  pose proof (later_phrases_start_at_changes _ tokens 0
                (make_phrases_covers conf user_languages tokens)
                (make_phrases_adjacent conf user_languages tokens)) as L.
  eapply Forall_impl; [|exact L].
  intros q (k & a & b & Hs & Ea & Eb & Hab).
  apply H. exists k, a, b. rewrite Hs. repeat split; assumption.
Qed.

(** *** The worker: switch points are read off the phrases *)

(** What a successful detection of the worker is made of. *)
Lemma detect_body_result (self : Worker.FastTextWorker) (predict : Worker.Model)
    (text user_languages : Worker.json) (d : Worker.Detection) :
  Worker.detect_body self predict text user_languages = Returned (Worker.Result d) ->
  Worker.phrases d = Worker.make_phrases (Worker.tokens d)
  /\ Worker.switchPoints d = Worker.switch_points_of (Worker.phrases d).
Proof.
  unfold Worker.detect_body, Worker.obind. intro H.
  repeat match type of H with
         | context [match ?x with _ => _ end] => destruct x eqn:?; try discriminate
         | context [if ?x then _ else _] => destruct x eqn:?; try discriminate
         end;
    injection H as <-; split; reflexivity.
Qed.

Lemma detect_language_result (self : Worker.FastTextWorker)
    (text user_languages : Worker.json) (d : Worker.Detection) :
  Worker.detect_language self text user_languages = Worker.Result d ->
  Worker.phrases d = Worker.make_phrases (Worker.tokens d)
  /\ Worker.switchPoints d = Worker.switch_points_of (Worker.phrases d).
Proof.
  unfold Worker.detect_language. intro H.
  destruct (Worker.model self) as [predict|]; [|discriminate].
  destruct (Worker.detect_body self predict text user_languages) as [r|e] eqn:E;
    [|discriminate].
  subst r. exact (detect_body_result _ _ _ _ _ E).
Qed.

Lemma switch_points_of_length (phrases : list Phrase) :
  (length (Worker.switch_points_of phrases) <= length phrases - 1)%nat.
Proof.
  induction phrases as [|p [|q ps] IH]; cbn [Worker.switch_points_of length];
    try lia.
  rewrite length_app. cbn [Worker.switch_points_of length] in IH.
  destruct (negb (ph_language p =? ph_language q)%string); cbn [length]; lia.
Qed.

Lemma switch_points_of_boundary (phrases : list Phrase) :
  forall pre,
    Forall (is_boundary (pre ++ phrases)) (Worker.switch_points_of phrases).
Proof.
  induction phrases as [|p [|q ps] IH]; intro pre;
    cbn [Worker.switch_points_of]; try constructor.
  apply Forall_app. split.
  - destruct (ph_language p =? ph_language q)%string eqn:E; cbn [negb];
      constructor; [|constructor].
    exists pre, p, q, ps. split; [reflexivity|].
    split; [|reflexivity]. apply String.eqb_neq. exact E.
  - specialize (IH (pre ++ [p])). rewrite <- app_assoc in IH. exact IH.
Qed.

(** C2, as the code has it.  The conversions of the bridge hand on the
    switch points supplied by the detector (for a legacy result: the
    indices extracted from them) and never recompute them from the
    phrases; every phrase after the first starts at an index of that
    list.  The worker reads its list off the phrases: in order, the
    [endIndex] entry of each phrase whose successor has another
    language, so at most [len(phrases) - 1] entries. *)
Theorem switch_points_as_built :
  (forall available sp_result context_result optimization_result text
          user_languages start_time now performance_mode,
      let r := _convert_v2_1_2_result available sp_result context_result
                 optimization_result text user_languages start_time now
                 performance_mode in
      switch_points r = getattr (ir_switch_points sp_result) []
      /\ Forall (fun q => In (ph_startIndex q) (switch_points r)) (tl (phrases r)))
  /\ (forall sp_result text user_languages start_time now,
        let r := _convert_legacy_result sp_result text user_languages
                   start_time now in
        switch_points r = legacy_switch_points (lr_switch_points sp_result)
        /\ Forall (fun q => In (ph_startIndex q) (switch_points r)) (tl (phrases r)))
  /\ (forall worker text user_languages,
        match Worker.detect_language worker text user_languages with
        | Worker.Result d =>
            Worker.switchPoints d = Worker.switch_points_of (Worker.phrases d)
            /\ Forall (is_boundary (Worker.phrases d)) (Worker.switchPoints d)
            /\ (length (Worker.switchPoints d) <= length (Worker.phrases d) - 1)%nat
        | _ => True
        end).
Proof.
  split; [|split].
  - intros. subst r. unfold _convert_v2_1_2_result.
    cbn [switch_points phrases]. split; [reflexivity|].
    apply later_starts_in_switch_points. intros z Hz.
    rewrite TokenWalk.tokens_v2_1_2_closed in Hz.
    apply (change_is_switch_point TokenWalk.cyclic_index _ _ _ _ _
             (cyclic_index_stays _ _) Hz).
  - intros. subst r. unfold _convert_legacy_result.
    cbn [switch_points phrases]. split; [reflexivity|].
    apply later_starts_in_switch_points. intros z Hz.
    rewrite TokenWalk.tokens_legacy_closed in Hz.
    apply (change_is_switch_point TokenWalk.clamped_index _ _ _ _ _
             (clamped_index_stays _ _) Hz).
  - intros worker text user_languages.
    destruct (Worker.detect_language worker text user_languages) as [| |d] eqn:E;
      try exact I.
    destruct (detect_language_result _ _ _ _ E) as [_ Hsp].
    rewrite Hsp. split; [reflexivity|]. split.
    + apply (switch_points_of_boundary _ []).
    + apply switch_points_of_length.
Qed.

(** A detector answer with two languages and the switch at the third
    word, as the primary detector reports it. *)
Definition two_language_answer : IntegratedResult :=
  {| ir_original_confidence := Some 0.9;
     ir_calibrated_confidence := Some 0.8;
     ir_reliability_score := None;
     ir_quality_assessment := None;
     ir_calibration_method := None;
     ir_detected_languages := Some ["english"; "spanish"];
     ir_switch_points := Some [2%Z] |}.

(** C2 fails as stated: for the text "going to la tienda" with the
    switch reported at index 2 the primary conversion builds the phrases
    [0..1] and [2..3] and returns the switch point 2, which is the
    [startIndex] of the second phrase and the [endIndex] of none. *)
Lemma switch_point_is_not_an_endIndex :
  let r := _convert_v2_1_2_result true two_language_answer None None
             "going to la tienda" (Some ["english"; "spanish"]) 0 1 "balanced" in
  map (fun p => (ph_startIndex p, ph_endIndex p)) (phrases r)
  = [(0%Z, 1%Z); (2%Z, 3%Z)]
  /\ switch_points r = [2%Z]
  /\ ~ switch_points_spec (phrases r) (switch_points r).
Proof.
  cbn zeta. split; [reflexivity|]. split; [reflexivity|].
  intros (_ & _ & F).
  apply Forall_inv in F. destruct F as (pre & p & q & post & E & _ & Hend).
  vm_compute in E.
  destruct pre as [|x [|y pre]]; cbn in E.
  - injection E as <- _. vm_compute in Hend. discriminate.
  - injection E as _ <- _. discriminate.
  - injection E as _ _ E. destruct pre; discriminate.
Qed.

End SwitchPoints.

(* ================================================================== *)
(** ** Phrases of the worker                                           *)
(* ================================================================== *)

Module WorkerPhrases.
Import PhrasePartition.

(** What [_create_phrase] stores for every phrase: start 0
    ("simplified for now"), the number of words as end, and no user
    language. *)
Definition as_created (p : Phrase) : Prop :=
  ph_startIndex p = 0%Z
  /\ ph_endIndex p = Z.of_nat (length (ph_words p))
  /\ ph_isUserLanguage p = false.

Lemma create_phrase_as_created (tokens : list Token) :
  as_created (Worker._create_phrase tokens).
Proof. repeat split. Qed.

Lemma group_tokens_as_created (rest : list Token) :
  forall current_phrase phrases,
    Forall as_created phrases ->
    Forall as_created (Worker.group_tokens current_phrase phrases rest).
Proof.
  induction rest as [|t rest IH]; intros cur acc H; cbn [Worker.group_tokens].
  - destruct (Bridge.non_empty cur); [|exact H].
    apply Forall_app. split; [exact H|].
    constructor; [apply create_phrase_as_created|constructor].
  - destruct (tk_lang t =? Worker.last_lang cur)%string.
    + apply IH, H.
    + apply IH, Forall_app. split; [exact H|].
      constructor; [apply create_phrase_as_created|constructor].
Qed.

Lemma make_phrases_as_created (tokens : list Token) :
  Forall as_created (Worker.make_phrases tokens).
Proof.
  destruct tokens as [|t0 rest]; [constructor|].
  apply group_tokens_as_created. constructor.
Qed.

Lemma group_tokens_non_empty (rest : list Token) :
  forall current_phrase phrases,
    current_phrase <> [] ->
    Worker.group_tokens current_phrase phrases rest <> [].
Proof.
  induction rest as [|t rest IH]; intros cur acc H; cbn [Worker.group_tokens].
  - destruct cur; [contradiction|]. cbn [Bridge.non_empty].
    destruct acc; discriminate.
  - destruct (tk_lang t =? Worker.last_lang cur)%string; apply IH.
    + destruct cur; discriminate.
    + discriminate.
Qed.

(** No successful detection of the worker with at least one token has
    phrases that partition its tokens: the first phrase already ends one
    past its last word. *)
Lemma worker_never_partitions (self : Worker.FastTextWorker)
    (text user_languages : Worker.json) (d : Worker.Detection) :
  Worker.detect_language self text user_languages = Worker.Result d ->
  Worker.tokens d <> [] ->
  ~ is_partition (Worker.tokens d) (Worker.phrases d).
Proof.
  intros H Hne (_ & C & _).
  destruct (SwitchPoints.detect_language_result _ _ _ _ H) as [Hp _].
  pose proof (make_phrases_as_created (Worker.tokens d)) as Hc.
  rewrite <- Hp in Hc.
  destruct (Worker.phrases d) as [|p ps] eqn:E.
  - destruct (Worker.tokens d) as [|t0 rest]; [contradiction|].
    cbn [Worker.make_phrases] in Hp. symmetry in Hp.
    apply group_tokens_non_empty in Hp; [contradiction|discriminate].
  - apply Forall_inv in Hc. destruct Hc as (Hs & He & _).
    cbn [contiguous] in C. destruct C as (_ & C & _). lia.
Qed.

(** A FastText stand-in that labels the word "hello" English and every
    other text Spanish. *)
Definition spanish_unless_hello : Worker.Model :=
  fun text k =>
    Returned (if (text =? "hello")%string then ["__label__en"] else ["__label__es"],
              [0.9]).

Definition sample_worker : Worker.FastTextWorker :=
  {| Worker.model := Some spanish_unless_hello;
     Worker.model_path := Some "/tmp/lid.176.ftz" |}.

(** C1 at the worker.  For the request text "hola amigo hello" the
    worker returns three tokens and the phrases ("hola amigo") and
    ("hello") with the index pairs (0, 2) and (0, 1): the first phrase
    ends at [startIndex + wordCount] instead of
    [startIndex + wordCount - 1], the second does not start after the
    first, and the phrases are not a partition of the tokens. *)
Theorem worker_phrase_indices :
  exists d,
    Worker.detect_language sample_worker (Worker.JString "hola amigo hello")
      (Worker.JArray []) = Worker.Result d
    /\ length (Worker.tokens d) = 3%nat
    /\ map (fun p => (ph_words p, ph_startIndex p, ph_endIndex p)) (Worker.phrases d)
       = [(["hola"; "amigo"], 0%Z, 2%Z); (["hello"], 0%Z, 1%Z)]
    /\ ~ is_partition (Worker.tokens d) (Worker.phrases d).
Proof.
  eexists. split; [vm_compute; reflexivity|].
  split; [reflexivity|]. split; [reflexivity|].
  intros (_ & C & _). cbn in C. lia.
Qed.

End WorkerPhrases.

(* ================================================================== *)
(** ** User-language matching                                          *)
(* ================================================================== *)

Module UserLanguages.
Import Bridge.













(** A detector answer naming one language in lower case. *)
Definition english_answer : IntegratedResult :=
  {| ir_original_confidence := Some 0.9;
     ir_calibrated_confidence := None;
     ir_reliability_score := None;
     ir_quality_assessment := None;
     ir_calibration_method := None;
     ir_detected_languages := Some ["english"];
     ir_switch_points := None |}.


End UserLanguages.

(* ================================================================== *)
(** ** The orchestrator: what [analyze_text] returns and leaves behind *)
(* ================================================================== *)

Module Orchestrator.
Import Bridge.

Section Call.

Variable available : bool.
Variable ext : Externals.
Variable text : string.
Variable user_languages : user_langs.
Variable use_cache fast_mode : bool.
Variable performance_mode : string.

Let key := cache_key text user_languages performance_mode.

(** The service after [self.total_requests += 1]. *)
Definition counted (s : SwitchPrintService) : SwitchPrintService :=
  with_total_requests (total_requests s + 1) s.

(** What the two value-producing enrichment stages hand to the
    conversion: their answer, or [None] when the stage is not
    configured or raised. *)
Definition context_of (s : SwitchPrintService) : option ContextResult :=
  if context_detector s
  then match context_detect ext text with
       | Returned c => Some c
       | Raised _ => None
       end
  else None.

Definition optimization_of (s : SwitchPrintService) : option OptimizationResult :=
  if context_optimizer s
  then match optimize_detection ext text with
       | Returned o => o
       | Raised _ => None
       end
  else None.

(** The result object of the primary tier. *)
Definition primary_value (s : SwitchPrintService) (sp_result : IntegratedResult)
    : SwitchPrintResult :=
  _convert_v2_1_2_result available sp_result (context_of s) (optimization_of s)
    text user_languages (time_start ext) (time_now ext) performance_mode.

(** The result object of the fallback chain. *)
Definition fallback_value (s : SwitchPrintService) : SwitchPrintResult :=
  if negb (legacy_detector s)
  then _get_mock_result text user_languages (time_start ext) (time_now ext) None
  else
    match (if fast_mode && fasttext_detector s
           then fasttext_detect ext else legacy_detect ext) text user_languages with
    | Returned sp_result =>
        _convert_legacy_result sp_result text user_languages
          (time_start ext) (time_now ext)
    | Raised e =>
        _get_mock_result text user_languages (time_start ext) (time_now ext) (Some e)
    end.

(** The fallback chain always returns a new object and touches nothing
    else. *)
Lemma fallback_returns (s : SwitchPrintService) :
  _fallback_analysis ext text user_languages (time_start ext) fast_mode s
  = (Returned (length (objects s)),
     with_objects (objects s ++ [fallback_value s]) s).
Proof.
  unfold _fallback_analysis, fallback_value, bind, get_self, try_except, call, new.
  destruct (legacy_detector s); cbn [negb]; [|reflexivity].
  destruct ((if fast_mode && fasttext_detector s
             then fasttext_detect ext else legacy_detect ext) text user_languages);
    reflexivity.
Qed.

(** The refresh of a cached object on a hit. *)
Definition refresh (r : SwitchPrintResult) : SwitchPrintResult :=
  set_processing_time_ms ((time_now ext - time_start ext) * 1000)
    (set_cache_hit true r).

Lemma update_nth_twice {A : Type} (f g : A -> A) (l : list A) :
  forall i, update_nth i g (update_nth i f l) = update_nth i (fun x => g (f x)) l.
Proof.
  induction l as [|x l IH]; intros [|i]; cbn; try reflexivity.
  rewrite IH. reflexivity.
Qed.

Lemma contains_get {V : Type} (k : string) (d : Py.dict V) :
  Py.contains k d = true -> exists v, Py.get k d = Some v.
Proof.
  induction d as [|[k' v'] d IH]; cbn; [discriminate|].
  destruct (k =? k')%string; cbn.
  - intros _. exists v'. reflexivity.
  - exact IH.
Qed.

Lemma get_contains {V : Type} (k : string) (d : Py.dict V) (v : V) :
  Py.get k d = Some v -> Py.contains k d = true.
Proof.
  induction d as [|[k' v'] d IH]; cbn; [discriminate|].
  destruct (k =? k')%string; cbn; [reflexivity|exact IH].
Qed.

(** A cache hit. *)
Lemma analyze_text_hit (s : SwitchPrintService) (r : ref) :
  use_cache = true ->
  Py.get key (cache s) = Some r ->
  analyze_text available ext text user_languages use_cache fast_mode
    performance_mode s
  = (Returned r,
     with_objects (update_nth r refresh (objects s))
       (with_cache_hits (cache_hits s + 1) (counted s))).
Proof.
  intros -> G. pose proof (get_contains _ _ _ G) as C.
  unfold analyze_text, bind, modify, get_self, cache_lookup, setattr, ret.
  cbn [with_total_requests cache andb]. fold key. rewrite C.
  cbn [bind with_cache_hits cache]. unfold bind, get_self, ret.
  cbn [cache with_cache_hits with_total_requests]. rewrite G.
  unfold modify, with_objects, with_cache_hits, counted, with_total_requests.
  cbn. rewrite update_nth_twice. reflexivity.
Qed.

(** A miss answered by the primary tier. *)
Lemma analyze_text_primary (s : SwitchPrintService) (sp_result : IntegratedResult) :
  use_cache && Py.contains key (cache s) = false ->
  integrated_detector s = true ->
  integrated_detect ext text user_languages = Returned sp_result ->
  analyze_text available ext text user_languages use_cache fast_mode
    performance_mode s
  = (Returned (length (objects s)),
     with_cache
       (if use_cache
        then cache_store key (length (objects s)) (cache s)
        else cache s)
       (with_objects (objects s ++ [primary_value s sp_result]) (counted s))).
Proof.
  intros C D P.
  unfold analyze_text, bind, modify, get_self, try_except, call, new, ret.
  cbn [with_total_requests cache integrated_detector context_detector
       context_optimizer metrics_dashboard objects]. fold key.
  rewrite C, D, P. cbn [negb].
  unfold primary_value, context_of, optimization_of.
  destruct (context_detector s); [destruct (context_detect ext text)|];
    (destruct (context_optimizer s); [destruct (optimize_detection ext text)|]);
    (destruct (metrics_dashboard s); [destruct (dashboard_analyze ext text)|]);
    destruct use_cache; reflexivity.
Qed.

(** A miss answered by the fallback chain: no primary detector, or the
    primary detector raised. *)
Lemma analyze_text_fallback (s : SwitchPrintService) :
  use_cache && Py.contains key (cache s) = false ->
  (integrated_detector s = false
   \/ exists e, integrated_detect ext text user_languages = Raised e) ->
  analyze_text available ext text user_languages use_cache fast_mode
    performance_mode s
  = (Returned (length (objects s)),
     with_objects (objects s ++ [fallback_value (counted s)]) (counted s)).
Proof.
  intros C H.
  unfold analyze_text, bind, modify, get_self, try_except, call.
  cbn [with_total_requests cache integrated_detector]. fold key. rewrite C.
  destruct (integrated_detector s) eqn:D; cbn [negb].
  - destruct H as [H|[e P]]; [discriminate|]. rewrite P.
    apply (fallback_returns (counted s)).
  - apply (fallback_returns (counted s)).
Qed.

End Call.

(** *** Failure handling *)

(** Whatever the collaborators do, [analyze_text] returns a reference
    and raises nothing; the enrichment stages cannot change that. *)
Lemma analyze_text_always_returns (available : bool) (ext : Externals)
    (text : string) (user_languages : user_langs) (use_cache fast_mode : bool)
    (performance_mode : string) (s : SwitchPrintService) :
  exists r s',
    analyze_text available ext text user_languages use_cache fast_mode
      performance_mode s = (Returned r, s').
Proof.
  destruct (use_cache && Py.contains (cache_key text user_languages performance_mode)
                           (cache s)) eqn:C.
  - apply andb_prop in C as [U C]. destruct (contains_get _ _ C) as [r G].
    eexists _, _. apply analyze_text_hit; eassumption.
  - destruct (integrated_detector s) eqn:D.
    + destruct (integrated_detect ext text user_languages) as [sp|e] eqn:P.
      * eexists _, _. apply analyze_text_primary; eassumption.
      * eexists _, _. apply analyze_text_fallback; [exact C|]. right. eauto.
    + eexists _, _. apply analyze_text_fallback; [exact C|]. left. exact D.
Qed.

(** On a miss the primary result is returned whatever the three
    enrichment stages do; a stage that raised counts as absent. *)
Lemma enrichment_is_isolated (available : bool) (ext : Externals)
    (text : string) (user_languages : user_langs) (use_cache fast_mode : bool)
    (performance_mode : string) (s : SwitchPrintService)
    (sp_result : IntegratedResult) :
  use_cache && Py.contains (cache_key text user_languages performance_mode)
                 (cache s) = false ->
  integrated_detector s = true ->
  integrated_detect ext text user_languages = Returned sp_result ->
  let run := analyze_text available ext text user_languages use_cache fast_mode
               performance_mode s in
  exists r,
    fst run = Returned r
    /\ deref (snd run) r
       = Some (primary_value available ext text user_languages performance_mode
                 s sp_result).
Proof.
  intros C D P run. subst run.
  rewrite (analyze_text_primary _ _ _ _ _ _ _ _ _ C D P).
  eexists. split; [reflexivity|].
  cbn [snd]. unfold deref. cbn.
  rewrite nth_error_app2, Nat.sub_diag by lia. reflexivity.
Qed.

(** When the legacy tier is not usable either, the fallback chain
    yields the mock result. *)
Lemma fallback_without_legacy_is_mock (ext : Externals) (text : string)
    (user_languages : user_langs) (fast_mode : bool) (s : SwitchPrintService) :
  (legacy_detector s = false
   \/ exists e,
        (if fast_mode && fasttext_detector s
         then fasttext_detect ext else legacy_detect ext) text user_languages
        = Raised e) ->
  exists error,
    fallback_value ext text user_languages fast_mode s
    = _get_mock_result text user_languages (time_start ext) (time_now ext) error.
Proof.
  unfold fallback_value. intros [L|[e E]].
  - rewrite L. eexists. reflexivity.
  - destruct (legacy_detector s); cbn [negb]; [|eexists; reflexivity].
    rewrite E. eexists. reflexivity.
Qed.

(** The shape of the mock result. *)
Lemma mock_result_shape (text : string) (user_languages : user_langs)
    (start_time now : Q) (error : option string) :
  let r := _get_mock_result text user_languages start_time now error in
  let words := Py.split text in
  let mock_lang :=
    match user_languages with
    | Some (first :: _) => first
    | _ => "english"
    end in
  tokens r = map (fun word => make_token word mock_lang 0.85) words
  /\ (exists p,
        phrases r = [p]
        /\ ph_words p = words
        /\ ph_language p = mock_lang
        /\ ph_confidence p = 0.85
        /\ ph_startIndex p = 0%Z
        /\ ph_endIndex p = (Z.of_nat (length words) - 1)%Z)
  /\ switch_points r = []
  /\ confidence r = 0.85
  /\ detected_languages r = [mock_lang].
Proof.
  cbn zeta. unfold _get_mock_result.
  destruct user_languages as [[|first rest]|]; cbn;
    (split; [reflexivity|]); (split; [eexists; repeat split|]);
    repeat split.
Qed.

(** Collaborators that all raise. *)
Definition all_raise : Externals :=
  {| time_start := 10;
     time_now := 10.5;
     integrated_detect := fun _ _ => Raised "primary detector failed";
     context_detect := fun _ => Raised "context detector failed";
     optimize_detection := fun _ => Raised "optimizer failed";
     dashboard_analyze := fun _ => Raised "dashboard failed";
     legacy_detect := fun _ _ => Raised "legacy detector failed";
     fasttext_detect := fun _ _ => Raised "fasttext detector failed" |}.

(** C3, the error annotation.  With every detector raising,
    [analyze_text] returns the mock result; [_fallback_analysis] hands
    the message of the legacy failure to [_get_mock_result], which
    drops it: the object returned is the one built without any error. *)
Theorem mock_result_drops_error :
  let s := __init__ true None in
  let run := analyze_text true all_raise "hola mundo" None true false "balanced" s in
  exists r,
    fst run = Returned r
    /\ deref (snd run) r
       = Some (_get_mock_result "hola mundo" None 10 10.5
                 (Some "legacy detector failed"))
    /\ _get_mock_result "hola mundo" None 10 10.5 (Some "legacy detector failed")
       = _get_mock_result "hola mundo" None 10 10.5 None.
Proof.
  cbn zeta. exists 0%nat. repeat split.
Qed.

(** C4, the version tag.  The mock result built when every detector
    raises carries the version "2.1.2", the default of the dataclass,
    which is also the tag of every result of the primary tier. *)
Theorem mock_result_version :
  let s := __init__ true None in
  let run := analyze_text true all_raise "hola mundo" None true false "balanced" s in
  exists r res,
    fst run = Returned r
    /\ deref (snd run) r = Some res
    /\ version res = "2.1.2"
    /\ (forall sp_result context_result optimization_result text user_languages
               start_time now performance_mode,
          version (_convert_v2_1_2_result true sp_result context_result
                     optimization_result text user_languages start_time now
                     performance_mode)
          = version res).
Proof.
  cbn zeta. eexists 0%nat, _. split; [reflexivity|]. split; [reflexivity|].
  split; reflexivity.
Qed.

End Orchestrator.

(* ================================================================== *)
(** ** The cache and its counters                                      *)
(* ================================================================== *)

Module CacheFacts.
Import Bridge.
Import Orchestrator.

(** *** Dictionary facts *)

Lemma set_new {V : Type} (k : string) (v : V) (d : Py.dict V) :
  Py.contains k d = false -> Py.set k v d = d ++ [(k, v)].
Proof.
  induction d as [|[k' v'] d IH]; cbn; [reflexivity|].
  destruct (k =? k')%string; cbn; [discriminate|].
  intro H. rewrite (IH H). reflexivity.
Qed.

(** Deleting the first [n] keys in order removes the first [n]
    entries. *)
Lemma del_oldest {V : Type} (n : nat) :
  forall d : Py.dict V,
    fold_left (fun c key => Py.del key c) (firstn n (Py.keys d)) d = skipn n d.
Proof.
  induction n as [|n IH]; intros [|[k v] d]; cbn; try reflexivity.
  rewrite String.eqb_refl. apply IH.
Qed.

Lemma evict_oldest_skipn (c : Py.dict ref) : evict_oldest c = skipn 100 c.
Proof. apply del_oldest. Qed.

Lemma contains_app {V : Type} (k : string) (d1 d2 : Py.dict V) :
  Py.contains k (d1 ++ d2) = Py.contains k d1 || Py.contains k d2.
Proof. unfold Py.contains. apply existsb_app. Qed.

Lemma contains_skipn {V : Type} (k : string) (n : nat) (d : Py.dict V) :
  Py.contains k d = false -> Py.contains k (skipn n d) = false.
Proof.
  intro H. rewrite <- (firstn_skipn n d), contains_app in H.
  apply orb_false_elim in H as [_ H]. exact H.
Qed.

Lemma get_app_new {V : Type} (k : string) (v : V) (d : Py.dict V) :
  Py.contains k d = false -> Py.get k (d ++ [(k, v)]) = Some v.
Proof.
  induction d as [|[k' v'] d IH]; cbn.
  - rewrite String.eqb_refl. reflexivity.
  - destruct (k =? k')%string; cbn; [discriminate|exact IH].
Qed.

(** Storing under a key that is not cached: the entry goes last, and
    once the size passes 1000 the 100 oldest entries go. *)
Lemma cache_store_new (key : string) (r : ref) (c : Py.dict ref) :
  Py.contains key c = false ->
  cache_store key r c
  = if (1000 <=? length c)%nat
    then skipn 100 (c ++ [(key, r)])
    else c ++ [(key, r)].
Proof.
  intro H. unfold cache_store. rewrite (set_new _ _ _ H), evict_oldest_skipn.
  rewrite length_app. cbn [length].
  destruct (Nat.ltb_spec 1000 (length c + 1)), (Nat.leb_spec 1000 (length c));
    try reflexivity; lia.
Qed.

Lemma cache_store_keeps_new (key : string) (r : ref) (c : Py.dict ref) :
  Py.contains key c = false ->
  Py.get key (cache_store key r c) = Some r.
Proof.
  intro H. rewrite (cache_store_new _ _ _ H).
  destruct (1000 <=? length c)%nat eqn:E.
  - apply Nat.leb_le in E.
    rewrite skipn_app.
    replace (100 - length c)%nat with 0%nat by lia.
    change (skipn 0 [(key, r)]) with [(key, r)].
    apply get_app_new, contains_skipn, H.
  - apply get_app_new, H.
Qed.

(** *** What one call does to the cache and to the counters *)

Section Effect.

Variable available : bool.
Variable ext : Externals.
Variable text : string.
Variable user_languages : user_langs.
Variable use_cache fast_mode : bool.
Variable performance_mode : string.
Variable s : SwitchPrintService.

Let key := cache_key text user_languages performance_mode.
Let s' := snd (analyze_text available ext text user_languages use_cache fast_mode
                 performance_mode s).

(** The three ways a call can go, with what each leaves behind. *)
Lemma analyze_text_effect :
  total_requests s' = (total_requests s + 1)%Z
  /\ ((cache_hits s' = (cache_hits s + 1)%Z
       /\ cache s' = cache s
       /\ use_cache = true /\ Py.contains key (cache s) = true)
      \/ (cache_hits s' = cache_hits s
          /\ cache s' = cache s)
      \/ (cache_hits s' = cache_hits s
          /\ use_cache = true /\ Py.contains key (cache s) = false
          /\ cache s' = cache_store key (length (objects s)) (cache s))).
Proof.
  subst s'.
  destruct (use_cache && Py.contains key (cache s)) eqn:C.
  - apply andb_prop in C as [U C]. destruct (contains_get _ _ C) as [r G].
    rewrite (analyze_text_hit available ext text user_languages use_cache
               fast_mode performance_mode s r U G).
    split; [reflexivity|]. left. repeat split; assumption.
  - destruct (integrated_detector s) eqn:D.
    + destruct (integrated_detect ext text user_languages) as [sp|e] eqn:P.
      * rewrite (analyze_text_primary available ext text user_languages use_cache
                   fast_mode performance_mode s sp C D P).
        split; [reflexivity|]. right.
        destruct use_cache eqn:U.
        -- right. cbn [andb] in C. repeat split; try reflexivity. exact C.
        -- left. split; reflexivity.
      * rewrite (analyze_text_fallback available ext text user_languages use_cache
                   fast_mode performance_mode s C (or_intror (ex_intro _ e P))).
        split; [reflexivity|]. right. left. split; reflexivity.
    + rewrite (analyze_text_fallback available ext text user_languages use_cache
                 fast_mode performance_mode s C (or_introl D)).
      split; [reflexivity|]. right. left. split; reflexivity.
Qed.

End Effect.

(** *** Invariants of every reachable service *)

Definition counters_ok (s : SwitchPrintService) : Prop :=
  (0 <= cache_hits s <= total_requests s)%Z.

Definition cache_bounded (s : SwitchPrintService) : Prop :=
  (length (cache s) <= 1000)%nat.

Lemma serve_keeps_invariants (available : bool) (q : request)
    (s : SwitchPrintService) :
  counters_ok s /\ cache_bounded s ->
  counters_ok (serve available q s) /\ cache_bounded (serve available q s).
Proof.
  unfold counters_ok, cache_bounded. intros [Hc Hb].
  destruct q as [ext text ul uc fm mode| |]; cbn [serve].
  - destruct (analyze_text_effect available ext text ul uc fm mode s)
      as (T & [(H & C & _)|[(H & C)|(H & _ & N & C)]]);
      rewrite T, H, C; try (split; [lia|assumption]).
    split; [lia|].
    rewrite (cache_store_new _ _ _ N).
    destruct (Nat.leb_spec 1000 (length (cache s))).
    + rewrite length_skipn, length_app. cbn [length]. lia.
    + rewrite length_app. cbn [length]. lia.
  - cbn. split; [assumption|lia].
  - unfold get_cache_stats, bind, get_self, call, true_div, ret.
    destruct (Z.max (total_requests s) 1 =? 0)%Z; cbn; split; assumption.
Qed.

Lemma run_keeps_invariants (available : bool) (qs : list request) :
  forall s,
    counters_ok s /\ cache_bounded s ->
    counters_ok (run available qs s) /\ cache_bounded (run available qs s).
Proof.
  induction qs as [|q qs IH]; intros s H; [exact H|].
  cbn [run fold_left]. apply IH, serve_keeps_invariants, H.
Qed.

Lemma init_invariants (available : bool) (failure : option nat) :
  counters_ok (__init__ available failure)
  /\ cache_bounded (__init__ available failure).
Proof. unfold counters_ok, cache_bounded. cbn. split; lia. Qed.

Lemma reachable_invariants (available : bool) (failure : option nat)
    (qs : list request) :
  counters_ok (run available qs (__init__ available failure))
  /\ cache_bounded (run available qs (__init__ available failure)).
Proof. apply run_keeps_invariants, init_invariants. Qed.

(** *** Cache statistics *)

Lemma hit_rate_bounds (hits total : Z) :
  (0 <= hits <= total)%Z ->
  0 <= inject_Z hits / inject_Z (Z.max total 1) <= 1.
Proof.
  intro H. assert (B : (hits <= Z.max total 1)%Z) by lia.
  assert (P : (1 <= Z.max total 1)%Z) by lia.
  destruct (Z.max total 1) as [|b|b]; try lia.
  unfold Qdiv, Qinv, Qmult, Qle, inject_Z. cbn. split; lia.
Qed.

Lemma get_cache_stats_returns (available : bool) (s : SwitchPrintService) :
  exists st,
    get_cache_stats available s = (Returned st, s)
    /\ st_hit_rate st
       = inject_Z (cache_hits s) / inject_Z (Z.max (total_requests s) 1)
    /\ st_total_requests st = total_requests s
    /\ st_cache_hits st = cache_hits s.
Proof.
  unfold get_cache_stats, bind, get_self, call, true_div, ret.
  destruct (Z.eqb_spec (Z.max (total_requests s) 1) 0) as [E|_]; [lia|].
  eexists. repeat split.
Qed.

(** What a request does to the two counters. *)
Definition counters_step (q : request) (s s' : SwitchPrintService) : Prop :=
  match q with
  | Analyze _ _ _ _ _ _ =>
      total_requests s' = (total_requests s + 1)%Z
      /\ (cache_hits s <= cache_hits s' <= cache_hits s + 1)%Z
  | ClearCache | GetCacheStats =>
      total_requests s' = total_requests s /\ cache_hits s' = cache_hits s
  end.

Lemma serve_counters (available : bool) (q : request) (s : SwitchPrintService) :
  counters_step q s (serve available q s).
Proof.
  destruct q as [ext text ul uc fm mode| |]; cbn [serve counters_step].
  - destruct (analyze_text_effect available ext text ul uc fm mode s)
      as (T & [(H & _)|[(H & _)|(H & _)]]); rewrite T, H; split; lia.
  - split; reflexivity.
  - destruct (get_cache_stats_returns available s) as (st & E & _).
    rewrite E. split; reflexivity.
Qed.

(** C10.  After any sequence of requests on a new service the hit
    counter lies between 0 and the request counter; [get_cache_stats]
    returns (the divisor [max(total_requests, 1)] is never 0) a hit rate
    between 0 and 1; an [analyze_text] call adds one to the request
    counter and at most one to the hit counter, the other operations
    change neither; and every operation preserves
    [cache_hits <= total_requests]. *)
Theorem cache_stats_well_defined (available : bool) (failure : option nat)
    (qs : list request) :
  let s := run available qs (__init__ available failure) in
  (0 <= cache_hits s <= total_requests s)%Z
  /\ (exists st,
        get_cache_stats available s = (Returned st, s)
        /\ st_hit_rate st
           = inject_Z (cache_hits s) / inject_Z (Z.max (total_requests s) 1)
        /\ 0 <= st_hit_rate st <= 1)
  /\ (forall q, counters_step q s (serve available q s))
  /\ (forall q s0, counters_ok s0 -> counters_ok (serve available q s0)).
Proof.
  cbn zeta.
  destruct (reachable_invariants available failure qs) as [Hc _].
  split; [exact Hc|]. split; [|split].
  - destruct (get_cache_stats_returns available
                (run available qs (__init__ available failure)))
      as (st & E & R & _).
    exists st. split; [exact E|]. split; [exact R|].
    rewrite R. apply hit_rate_bounds, Hc.
  - intro q. apply serve_counters.
  - intros q s0 H. pose proof (serve_counters available q s0) as S.
    unfold counters_ok in *. destruct q; cbn [counters_step] in S; lia.
Qed.

Example cache_stats_before_any_request :
  fst (get_cache_stats true (__init__ true None))
  = Returned {| st_total_requests := 0; st_cache_hits := 0; st_cache_size := 0;
                st_hit_rate := inject_Z 0 / inject_Z 1; st_available := true |}.
Proof. reflexivity. Qed.

(** *** Eviction *)

(** C7.  On every reachable service the cache holds at most 1000
    entries, before and after an [analyze_text] call.  The call leaves
    the cache as it is (a hit does not reorder it), or it stores the
    result under a key that was not cached: last in insertion order
    when fewer than 1000 entries were held, and otherwise, the store
    making it 1001 entries, exactly the 100 oldest entries leave and the
    new entry stays last, 901 in all. *)
Theorem cache_eviction_fifo (available : bool) (failure : option nat)
    (qs : list request) (ext : Externals) (text : string)
    (user_languages : user_langs) (use_cache fast_mode : bool)
    (performance_mode : string) :
  let s := run available qs (__init__ available failure) in
  let s' := snd (analyze_text available ext text user_languages use_cache
                   fast_mode performance_mode s) in
  let key := cache_key text user_languages performance_mode in
  (length (cache s) <= 1000)%nat
  /\ (length (cache s') <= 1000)%nat
  /\ (cache s' = cache s
      \/ exists r,
           Py.contains key (cache s) = false
           /\ ((length (cache s) < 1000)%nat
               /\ cache s' = cache s ++ [(key, r)]
               \/ length (cache s) = 1000%nat
                  /\ cache s' = skipn 100 (cache s) ++ [(key, r)]
                  /\ length (cache s') = 901%nat)).
Proof.
  cbn zeta.
  set (s := run available qs (__init__ available failure)).
  pose proof (reachable_invariants available failure qs) as Inv. fold s in Inv.
  pose proof (serve_keeps_invariants available
                (Analyze ext text user_languages use_cache fast_mode
                   performance_mode) s Inv) as [_ B'].
  destruct Inv as [_ B]. unfold cache_bounded in B, B'. cbn [serve] in B'.
  split; [exact B|]. split; [exact B'|].
  destruct (analyze_text_effect available ext text user_languages use_cache
              fast_mode performance_mode s)
    as (_ & [(_ & C & _)|[(_ & C)|(_ & _ & N & C)]]);
    [left; exact C|left; exact C|].
  right. exists (length (objects s)). split; [exact N|].
  rewrite C, (cache_store_new _ _ _ N).
  destruct (Nat.leb_spec 1000 (length (cache s))).
  - right. assert (E : length (cache s) = 1000%nat) by lia.
    split; [exact E|].
    rewrite skipn_app.
    replace (100 - length (cache s))%nat with 0%nat by lia.
    change (skipn 0 [(cache_key text user_languages performance_mode,
                      length (objects s))])
      with [(cache_key text user_languages performance_mode, length (objects s))].
    split; [reflexivity|].
    rewrite length_app, length_skipn. cbn [length]. lia.
  - left. split; [assumption|reflexivity].
Qed.

(** A primary detector that answers every text, with every enrichment
    stage raising. *)
Definition primary_answers (answer : IntegratedResult) : Externals :=
  {| time_start := 0;
     time_now := 1;
     integrated_detect := fun _ _ => Returned answer;
     context_detect := fun _ => Raised "context detector failed";
     optimize_detection := fun _ => Raised "optimizer failed";
     dashboard_analyze := fun _ => Raised "dashboard failed";
     legacy_detect := fun _ _ => Raised "legacy detector failed";
     fasttext_detect := fun _ _ => Raised "fasttext detector failed" |}.

(** The texts "0", "1", ..., analysed in turn with caching. *)
Definition numbered_requests (n : nat) : list request :=
  map (fun i =>
         Analyze (primary_answers UserLanguages.english_answer)
           (NilEmpty.string_of_uint (Nat.to_uint i)) None true false "balanced")
      (seq 0 n).

(** One thousand distinct texts fill the cache; the next one evicts the
    entries of the texts "0" to "99" and is itself kept. *)
Example eviction_after_1001_texts :
  let full := run true (numbered_requests 1000) (__init__ true None) in
  let next := run true (numbered_requests 1001) (__init__ true None) in
  length (cache full) = 1000%nat
  /\ hd_error (Py.keys (cache full)) = Some "v2.1.2:0::balanced"
  /\ length (cache next) = 901%nat
  /\ hd_error (Py.keys (cache next)) = Some "v2.1.2:100::balanced"
  /\ Py.get "v2.1.2:1000::balanced" (cache next) = Some 1000%nat.
Proof. vm_compute. repeat split. Qed.

End CacheFacts.

(* ================================================================== *)
(** ** Caching of results                                              *)
(* ================================================================== *)

Module CacheRoundTrip.
Import Bridge.
Import Orchestrator.
Import CacheFacts.

(** Two results agree apart from [cache_hit] and [processing_time_ms]. *)
Definition same_payload (a b : SwitchPrintResult) : Prop :=
  set_processing_time_ms 0 (set_cache_hit false a)
  = set_processing_time_ms 0 (set_cache_hit false b).

(** The round trip of the design document: after a miss with caching
    on, a second call whose text, sorted user languages and mode are the
    same returns the stored result as a hit. *)
Definition round_trip_spec (available : bool) (s : SwitchPrintService)
    (ext1 ext2 : Externals) (text : string) (user_languages1 user_languages2 : user_langs)
    (performance_mode : string) : Prop :=
  Permutation (or_empty user_languages1) (or_empty user_languages2) ->
  Py.contains (cache_key text user_languages1 performance_mode) (cache s) = false ->
  let run1 := analyze_text available ext1 text user_languages1 true false
                performance_mode s in
  let run2 := analyze_text available ext2 text user_languages2 true false
                performance_mode (snd run1) in
  exists r1 r2 first second,
    fst run1 = Returned r1
    /\ deref (snd run1) r1 = Some first
    /\ cache_hit first = false
    /\ fst run2 = Returned r2
    /\ deref (snd run2) r2 = Some second
    /\ cache_hit second = true
    /\ same_payload first second.

Lemma update_nth_last {A : Type} (f : A -> A) (x : A) (l : list A) :
  update_nth (length l) f (l ++ [x]) = l ++ [f x].
Proof. induction l as [|y l IH]; cbn; [reflexivity|]. rewrite IH. reflexivity. Qed.

Lemma nth_error_last {A : Type} (x : A) (l : list A) :
  nth_error (l ++ [x]) (length l) = Some x.
Proof. rewrite nth_error_app2, Nat.sub_diag by lia. reflexivity. Qed.

(** C6, as the code has it.  With caching on, a miss answered by the
    primary tier stores its result object under the key made of the
    text, the user languages in the order given and the mode; the call
    reports [cache_hit] false.  A second call with the same text, user
    languages and mode (the fast-mode flag may differ) returns the same
    object, now with [cache_hit] true and the processing time of the
    second call, every other field as stored.  A miss answered by the
    fallback chain (legacy or mock result) leaves the cache as it is. *)
Theorem cache_round_trip :
  (forall available s ext1 ext2 text user_languages performance_mode
          fast_mode1 fast_mode2 sp_result,
      integrated_detector s = true ->
      integrated_detect ext1 text user_languages = Returned sp_result ->
      Py.contains (cache_key text user_languages performance_mode) (cache s) = false ->
      let run1 := analyze_text available ext1 text user_languages true fast_mode1
                    performance_mode s in
      let run2 := analyze_text available ext2 text user_languages true fast_mode2
                    performance_mode (snd run1) in
      exists r first,
        fst run1 = Returned r
        /\ deref (snd run1) r = Some first
        /\ first = primary_value available ext1 text user_languages
                     performance_mode s sp_result
        /\ cache_hit first = false
        /\ Py.get (cache_key text user_languages performance_mode)
                  (cache (snd run1)) = Some r
        /\ fst run2 = Returned r
        /\ deref (snd run2) r
           = Some (set_processing_time_ms
                     ((time_now ext2 - time_start ext2) * 1000)
                     (set_cache_hit true first)))
  /\ (forall available s ext text user_languages use_cache fast_mode
             performance_mode,
        use_cache
        && Py.contains (cache_key text user_languages performance_mode) (cache s)
        = false ->
        integrated_detector s = false
        \/ (exists e, integrated_detect ext text user_languages = Raised e) ->
        cache (snd (analyze_text available ext text user_languages use_cache
                      fast_mode performance_mode s))
        = cache s).
Proof.
  split.
  - intros available s ext1 ext2 text ul mode fm1 fm2 sp D P N run1 run2.
    assert (E1 : run1
                 = (Returned (length (objects s)),
                    with_cache
                      (cache_store (cache_key text ul mode) (length (objects s))
                         (cache s))
                      (with_objects
                         (objects s ++ [primary_value available ext1 text ul mode s sp])
                         (counted s)))).
    { subst run1. apply (analyze_text_primary available ext1 text ul true fm1 mode s sp);
        [cbn [andb]; exact N|exact D|exact P]. }
    pose proof (cache_store_keeps_new _ (length (objects s)) _ N) as G.
    assert (E2 : run2
                 = (Returned (length (objects s)),
                    with_objects
                      (update_nth (length (objects s))
                         (refresh ext2) (objects (snd run1)))
                      (with_cache_hits (cache_hits (snd run1) + 1)
                         (counted (snd run1))))).
    { subst run2.
      apply (analyze_text_hit available ext2 text ul true fm2 mode (snd run1));
        [reflexivity|]. rewrite E1. exact G. }
    exists (length (objects s)),
           (primary_value available ext1 text ul mode s sp).
    rewrite E2, E1. cbn [fst snd]. unfold deref.
    cbn [objects cache with_cache with_objects with_cache_hits counted
         with_total_requests].
    rewrite update_nth_last, !nth_error_last.
    repeat split. exact G.
  - intros available s ext text ul uc fm mode C H.
    rewrite (analyze_text_fallback available ext text ul uc fm mode s C H).
    reflexivity.
Qed.

(** C6 fails as stated, twice.  On a service without detectors the mock
    result of a first call is not stored, so an identical second call is
    no hit; and with the primary detector answering, a second call that
    names the same two user languages in the other order misses the
    entry stored by the first. *)
Lemma round_trip_spec_fails :
  ~ round_trip_spec false (__init__ false None) all_raise all_raise
      "hola mundo" None None "balanced"
  /\ ~ round_trip_spec true (__init__ true None)
         (primary_answers SwitchPoints.two_language_answer)
         (primary_answers SwitchPoints.two_language_answer)
         "going to la tienda"
         (Some ["english"; "spanish"]) (Some ["spanish"; "english"]) "balanced".
Proof.
  split.
  - intro H.
    destruct (H (Permutation_refl _) eq_refl)
      as (r1 & r2 & first & second & _ & _ & _ & E2 & D2 & C2 & _).
    vm_compute in E2. injection E2 as <-.
    vm_compute in D2. injection D2 as <-.
    discriminate C2.
  - intro H.
    destruct (H (perm_swap _ _ _) eq_refl)
      as (r1 & r2 & first & second & _ & _ & _ & E2 & D2 & C2 & _).
    vm_compute in E2. injection E2 as <-.
    vm_compute in D2. injection D2 as <-.
    discriminate C2.
Qed.

(** The round trip on a concrete service: the second call returns the
    object of the first, which now reads as a hit. *)
Example round_trip_hit :
  let ext := primary_answers SwitchPoints.two_language_answer in
  let run1 := analyze_text true ext "going to la tienda"
                (Some ["english"; "spanish"]) true false "balanced"
                (__init__ true None) in
  let run2 := analyze_text true ext "going to la tienda"
                (Some ["english"; "spanish"]) true true "balanced" (snd run1) in
  fst run1 = Returned 0%nat
  /\ option_map cache_hit (deref (snd run1) 0%nat) = Some false
  /\ fst run2 = Returned 0%nat
  /\ option_map cache_hit (deref (snd run2) 0%nat) = Some true
  /\ cache_hits (snd run2) = 1%Z.
Proof. vm_compute. repeat split. Qed.

End CacheRoundTrip.

(* ================================================================== *)
(** ** The request loop of the worker                                  *)
(* ================================================================== *)

Module WorkerLoop.
Import Worker.

Section Protocol.

Variable json_loads : string -> parsed.
Variable clock : nat -> Q * Q.
Variable worker : FastTextWorker.





End Protocol.

(** A parser stand-in that accepts two request lines. *)
Definition sample_loads (line : string) : parsed :=
  if (line =? "{}")%string then Loaded (JObject [])
  else if (line =? "{text}")%string
  then Loaded (JObject [("text", JString "hola amigo hello")])
  else JSONDecodeError "Expecting value: line 1 column 1 (char 0)".

(** A session: a blank line, a malformed line, a request without text
    and a request with text. *)
Example session :
  map (fun e => match e with
                | Read _ => "read"
                | Print (Error msg) => msg
                | Print (Result _) => "result"
                | Print (Ready _ _) => "ready"
                | Flush => "flush"
                | Exit _ => "exit"
                end)
      (main sample_loads (fun _ => (0, 1))
         (Some ("/tmp/lid.176.ftz", WorkerPhrases.spanish_unless_hello))
         ["   "; "oops"; " {} "; "{text}"])
  = ["ready"; "flush";
     "read";
     "read"; "Invalid JSON: Expecting value: line 1 column 1 (char 0)"; "flush";
     "read"; "No text provided"; "flush";
     "read"; "result"; "flush"].
Proof. vm_compute. reflexivity. Qed.

End WorkerLoop.

(* ================================================================== *)
(** ** What every call leaves in the object store                      *)
(* ================================================================== *)

Module ServiceInvariants.
Import Bridge.
Import Orchestrator.
Import CacheFacts.
Import PhrasePartition.

(** *** The object a miss creates *)

Section Miss.

Variable available : bool.
Variable ext : Externals.
Variable text : string.
Variable user_languages : user_langs.
Variable use_cache fast_mode : bool.
Variable performance_mode : string.

Let key := cache_key text user_languages performance_mode.

(** The tier that answers a miss, and its result object. *)
Definition miss_value (s : SwitchPrintService) : SwitchPrintResult :=
  if integrated_detector s
  then match integrated_detect ext text user_languages with
       | Returned sp_result =>
           primary_value available ext text user_languages performance_mode
             s sp_result
       | Raised _ =>
           fallback_value ext text user_languages fast_mode (counted s)
       end
  else fallback_value ext text user_languages fast_mode (counted s).

(** A miss returns a reference to a new object, appended to the store;
    the objects already there are not touched. *)
Lemma analyze_text_miss (s : SwitchPrintService) :
  use_cache && Py.contains key (cache s) = false ->
  let run := analyze_text available ext text user_languages use_cache fast_mode
               performance_mode s in
  fst run = Returned (length (objects s))
  /\ objects (snd run) = objects s ++ [miss_value s]
  /\ (cache (snd run) = cache s
      \/ use_cache = true
         /\ Py.contains key (cache s) = false
         /\ cache (snd run) = cache_store key (length (objects s)) (cache s)).
Proof.
  intros C run. subst run. unfold miss_value.
  destruct (integrated_detector s) eqn:D.
  - destruct (integrated_detect ext text user_languages) as [sp|e] eqn:P.
    + rewrite (analyze_text_primary available ext text user_languages use_cache
                 fast_mode performance_mode s sp C D P).
      split; [reflexivity|]. split; [reflexivity|].
      destruct use_cache; [right|left; reflexivity].
      cbn [andb] in C. repeat split. exact C.
    + rewrite (analyze_text_fallback available ext text user_languages use_cache
                 fast_mode performance_mode s C (or_intror (ex_intro _ e P))).
      split; [reflexivity|]. split; [reflexivity|]. left. reflexivity.
  - rewrite (analyze_text_fallback available ext text user_languages use_cache
               fast_mode performance_mode s C (or_introl D)).
    split; [reflexivity|]. split; [reflexivity|]. left. reflexivity.
Qed.

(** A hit returns the cached reference and rewrites that one object. *)
Lemma analyze_text_hit_objects (s : SwitchPrintService) :
  use_cache && Py.contains key (cache s) = true ->
  let run := analyze_text available ext text user_languages use_cache fast_mode
               performance_mode s in
  exists r,
    Py.get key (cache s) = Some r
    /\ fst run = Returned r
    /\ objects (snd run) = update_nth r (refresh ext) (objects s)
    /\ cache (snd run) = cache s.
Proof.
  intros C run. subst run.
  apply andb_prop in C as [U C]. destruct (contains_get _ _ C) as [r G].
  exists r. split; [exact G|].
  rewrite (analyze_text_hit available ext text user_languages use_cache
             fast_mode performance_mode s r U G).
  repeat split.
Qed.

(** No call changes which components the service has. *)
Definition components (s : SwitchPrintService) : list bool :=
  [ integrated_detector s; context_detector s; batch_processor s;
    metrics_dashboard s; context_optimizer s; legacy_detector s;
    fasttext_detector s ].

Lemma analyze_text_components (s : SwitchPrintService) :
  components (snd (analyze_text available ext text user_languages use_cache
                     fast_mode performance_mode s))
  = components s.
Proof.
  destruct (use_cache && Py.contains key (cache s)) eqn:C.
  - apply andb_prop in C as [U C]. destruct (contains_get _ _ C) as [r G].
    rewrite (analyze_text_hit available ext text user_languages use_cache
               fast_mode performance_mode s r U G). reflexivity.
  - destruct (integrated_detector s) eqn:D.
    + destruct (integrated_detect ext text user_languages) as [sp|e] eqn:P.
      * rewrite (analyze_text_primary available ext text user_languages use_cache
                   fast_mode performance_mode s sp C D P).
        unfold components. cbn. rewrite D. reflexivity.
      * rewrite (analyze_text_fallback available ext text user_languages use_cache
                   fast_mode performance_mode s C (or_intror (ex_intro _ e P))).
        unfold components. cbn. rewrite D. reflexivity.
    + rewrite (analyze_text_fallback available ext text user_languages use_cache
                 fast_mode performance_mode s C (or_introl D)).
      unfold components. cbn. rewrite D. reflexivity.
Qed.

End Miss.

Lemma serve_components (available : bool) (q : request) (s : SwitchPrintService) :
  components (serve available q s) = components s.
Proof.
  destruct q as [ext text ul uc fm mode| |]; cbn [serve].
  - apply analyze_text_components.
  - reflexivity.
  - destruct (get_cache_stats_returns available s) as (st & E & _).
    rewrite E. reflexivity.
Qed.

Lemma run_components (available : bool) (qs : list request) :
  forall s, components (run available qs s) = components s.
Proof.
  induction qs as [|q qs IH]; intro s; [reflexivity|].
  cbn [run fold_left]. fold (run available qs (serve available q s)).
  rewrite IH. apply serve_components.
Qed.

(** *** Store invariants *)

(** Every cached reference points into the store. *)
Definition live_cache (s : SwitchPrintService) : Prop :=
  Forall (fun kv => (snd kv < length (objects s))%nat) (cache s).

(** The keys of the cache are pairwise different. *)
Definition unique_keys (s : SwitchPrintService) : Prop :=
  NoDup (Py.keys (cache s)).

(** The phrases of a result partition its tokens. *)
Definition sound (r : SwitchPrintResult) : Prop :=
  is_partition (tokens r) (phrases r).

Lemma length_update_nth {A : Type} (f : A -> A) (l : list A) :
  forall i, length (update_nth i f l) = length l.
Proof.
  induction l as [|x l IH]; intros [|i]; cbn; try reflexivity.
  rewrite IH. reflexivity.
Qed.

Lemma Forall_update_nth {A : Type} (P : A -> Prop) (f : A -> A) (l : list A) :
  (forall x, P x -> P (f x)) ->
  forall i, Forall P l -> Forall P (update_nth i f l).
Proof.
  intro Hf. induction l as [|x l IH]; intros [|i] H; cbn; try exact H;
    inversion H; subst; constructor; auto.
Qed.

Lemma nth_error_update_nth {A : Type} (f : A -> A) (l : list A) :
  forall i x, nth_error l i = Some x -> nth_error (update_nth i f l) i = Some (f x).
Proof.
  induction l as [|y l IH]; intros [|i] x H; cbn in *; try discriminate.
  - injection H as <-. reflexivity.
  - apply IH, H.
Qed.

Lemma get_In {V : Type} (k : string) (v : V) (d : Py.dict V) :
  Py.get k d = Some v -> In (k, v) d.
Proof.
  induction d as [|[k' v'] d IH]; cbn; [discriminate|].
  destruct (String.eqb_spec k k') as [->|_].
  - intro H. injection H as <-. left. reflexivity.
  - intro H. right. apply IH, H.
Qed.

Lemma contains_false_keys {V : Type} (k : string) (d : Py.dict V) :
  Py.contains k d = false -> ~ In k (Py.keys d).
Proof.
  induction d as [|[k' v'] d IH]; cbn; [tauto|].
  destruct (String.eqb_spec k k') as [->|N]; cbn; [discriminate|].
  intros H [E|I]; [congruence|]. exact (IH H I).
Qed.

Lemma NoDup_skipn {A : Type} (n : nat) (l : list A) :
  NoDup l -> NoDup (skipn n l).
Proof.
  intro H. rewrite <- (firstn_skipn n l) in H.
  apply NoDup_app_remove_l in H. exact H.
Qed.

Lemma Forall_skipn {A : Type} (P : A -> Prop) (n : nat) (l : list A) :
  Forall P l -> Forall P (skipn n l).
Proof.
  intro H. rewrite <- (firstn_skipn n l) in H.
  apply Forall_app in H. apply H.
Qed.

Lemma cache_store_live (key : string) (c : Py.dict ref) (n : nat) :
  Py.contains key c = false ->
  Forall (fun kv => (snd kv < n)%nat) c ->
  Forall (fun kv => (snd kv < S n)%nat) (cache_store key n c).
Proof.
  intros N H. rewrite (cache_store_new _ _ _ N).
  assert (F : Forall (fun kv => (snd kv < S n)%nat) (c ++ [(key, n)])).
  { apply Forall_app. split.
    - eapply Forall_impl; [|exact H]. cbn. intros; lia.
    - constructor; [cbn; lia|constructor]. }
  destruct (1000 <=? length c)%nat; [apply Forall_skipn|]; exact F.
Qed.

Lemma cache_store_unique (key : string) (c : Py.dict ref) (n : nat) :
  Py.contains key c = false ->
  NoDup (Py.keys c) ->
  NoDup (Py.keys (cache_store key n c)).
Proof.
  intros N H. rewrite (cache_store_new _ _ _ N).
  assert (F : NoDup (Py.keys (c ++ [(key, n)]))).
  { unfold Py.keys. rewrite map_app. cbn [map fst].
    apply NoDup_app; [exact H|repeat constructor; intros []|].
    intros k I [<-|[]]. exact (contains_false_keys _ _ N I). }
  destruct (1000 <=? length c)%nat; [|exact F].
  unfold Py.keys in *. rewrite <- skipn_map. apply NoDup_skipn, F.
Qed.

(** *** The three builders produce sound results *)

Lemma mock_result_sound (text : string) (user_languages : user_langs)
    (start_time now : Q) (error : option string) :
  sound (_get_mock_result text user_languages start_time now error).
Proof.
  unfold sound, _get_mock_result, is_partition.
  cbn [tokens phrases SwitchPrintResult_defaults].
  set (lang := if negb (ul_truthy user_languages) then "english"
               else nth 0 (or_empty user_languages) EmptyString).
  set (words := Py.split text).
  split; [|split; [|split]].
  - cbn. rewrite length_map. lia.
  - cbn. repeat split; lia.
  - cbn. rewrite app_nil_r, map_map. cbn. symmetry. apply map_id.
  - intros p [<-|[]] i Hi. cbn in Hi. cbn [ph_language].
    destruct (nth_error (map (fun word => make_token word lang 0.85) words)
                (Z.to_nat i)) as [t|] eqn:E.
    + apply nth_error_In, in_map_iff in E. destruct E as (w & <- & _). reflexivity.
    + apply nth_error_None in E. rewrite length_map in E. lia.
Qed.

Lemma refresh_sound (ext : Externals) (r : SwitchPrintResult) :
  sound r -> sound (refresh ext r).
Proof. intro H. exact H. Qed.

Lemma miss_value_sound (available : bool) (ext : Externals) (text : string)
    (user_languages : user_langs) (fast_mode : bool) (performance_mode : string)
    (s : SwitchPrintService) :
  sound (miss_value available ext text user_languages fast_mode performance_mode s).
Proof.
  assert (F : forall s', sound (fallback_value ext text user_languages fast_mode s')).
  { intro s'. unfold fallback_value.
    destruct (negb (legacy_detector s')); [apply mock_result_sound|].
    destruct ((if fast_mode && fasttext_detector s'
               then fasttext_detect ext else legacy_detect ext) text user_languages).
    - apply covers_partition, make_phrases_covers.
    - apply mock_result_sound. }
  unfold miss_value.
  destruct (integrated_detector s); [|apply F].
  destruct (integrated_detect ext text user_languages); [|apply F].
  apply covers_partition, make_phrases_covers.
Qed.

(** *** The invariant of reachable services *)

Definition store_ok (s : SwitchPrintService) : Prop :=
  live_cache s /\ unique_keys s /\ Forall sound (objects s).

Lemma analyze_text_keeps_store (available : bool) (ext : Externals) (text : string)
    (user_languages : user_langs) (use_cache fast_mode : bool)
    (performance_mode : string) (s : SwitchPrintService) :
  store_ok s ->
  store_ok (snd (analyze_text available ext text user_languages use_cache
                   fast_mode performance_mode s)).
Proof.
  intros (L & U & Hs). unfold store_ok, live_cache, unique_keys in *.
  destruct (use_cache
            && Py.contains (cache_key text user_languages performance_mode) (cache s))
    eqn:C.
  - destruct (analyze_text_hit_objects available ext text user_languages use_cache
                fast_mode performance_mode s C) as (r & _ & _ & O & K).
    rewrite O, K, length_update_nth. split; [exact L|]. split; [exact U|].
    apply Forall_update_nth; [apply refresh_sound|exact Hs].
  - destruct (analyze_text_miss available ext text user_languages use_cache
                fast_mode performance_mode s C) as (_ & O & K).
    rewrite O, length_app. cbn [length].
    replace (length (objects s) + 1)%nat with (S (length (objects s))) by lia.
    split; [|split].
    + destruct K as [K|(_ & N & K)]; rewrite K.
      * eapply Forall_impl; [|exact L]. cbn. intros; lia.
      * apply cache_store_live; assumption.
    + destruct K as [K|(_ & N & K)]; rewrite K; [exact U|].
      apply cache_store_unique; assumption.
    + apply Forall_app. split; [exact Hs|].
      constructor; [apply miss_value_sound|constructor].
Qed.

Lemma serve_keeps_store (available : bool) (q : request) (s : SwitchPrintService) :
  store_ok s -> store_ok (serve available q s).
Proof.
  intro H. destruct q as [ext text ul uc fm mode| |]; cbn [serve].
  - apply analyze_text_keeps_store, H.
  - destruct H as (_ & _ & Hs). repeat split; try constructor. exact Hs.
  - destruct (get_cache_stats_returns available s) as (st & E & _).
    rewrite E. exact H.
Qed.

Lemma run_keeps_store (available : bool) (qs : list request) :
  forall s, store_ok s -> store_ok (run available qs s).
Proof.
  induction qs as [|q qs IH]; intros s H; [exact H|].
  cbn [run fold_left]. apply IH, serve_keeps_store, H.
Qed.

Lemma reachable_store_ok (available : bool) (failure : option nat)
    (qs : list request) :
  store_ok (run available qs (__init__ available failure)).
Proof. apply run_keeps_store. repeat split; constructor. Qed.

(** With the store invariant in place a call returns a reference to an
    object of the store, and that object is sound. *)
Lemma analyze_text_returns_object (available : bool) (ext : Externals)
    (text : string) (user_languages : user_langs) (use_cache fast_mode : bool)
    (performance_mode : string) (s : SwitchPrintService) :
  store_ok s ->
  let run1 := analyze_text available ext text user_languages use_cache
                fast_mode performance_mode s in
  exists r res,
    fst run1 = Returned r
    /\ deref (snd run1) r = Some res
    /\ sound res.
Proof.
  intros (L & _ & Hs) run1. subst run1.
  destruct (use_cache
            && Py.contains (cache_key text user_languages performance_mode) (cache s))
    eqn:C.
  - destruct (analyze_text_hit_objects available ext text user_languages use_cache
                fast_mode performance_mode s C) as (r & G & R & O & _).
    apply get_In in G. unfold live_cache in L. rewrite Forall_forall in L.
    specialize (L _ G). cbn [snd] in L.
    destruct (nth_error (objects s) r) as [x|] eqn:E;
      [|apply nth_error_None in E; lia].
    exists r, (refresh ext x). split; [exact R|]. split.
    + unfold deref. rewrite O. apply nth_error_update_nth, E.
    + apply refresh_sound. rewrite Forall_forall in Hs.
      apply Hs. eapply nth_error_In, E.
  - destruct (analyze_text_miss available ext text user_languages use_cache
                fast_mode performance_mode s C) as (R & O & _).
    eexists _, _. split; [exact R|]. split.
    + unfold deref. rewrite O. apply CacheRoundTrip.nth_error_last.
    + apply miss_value_sound.
Qed.

(** On a service reached by any sequence of requests, every
    [analyze_text] call, hit or miss and whichever tier answers, returns
    a reference to an object of the store, and the phrases of that
    object partition its tokens. *)
Theorem returned_result_is_sound (available : bool) (failure : option nat)
    (qs : list request) (ext : Externals) (text : string)
    (user_languages : user_langs) (use_cache fast_mode : bool)
    (performance_mode : string) :
  let s := run available qs (__init__ available failure) in
  let run1 := analyze_text available ext text user_languages use_cache
                fast_mode performance_mode s in
  exists r res,
    fst run1 = Returned r
    /\ deref (snd run1) r = Some res
    /\ is_partition (tokens res) (phrases res).
Proof.
  cbn zeta.
  apply analyze_text_returns_object, reachable_store_ok.
Qed.

(** *** What a miss builds *)

Lemma tokens_at_words (f : nat -> string) (conf : Q) (words : list string) :
  forall start, map tk_word (TokenWalk.tokens_at f conf start words) = words.
Proof.
  induction words as [|w words IH]; intro start; [reflexivity|].
  rewrite TokenWalk.tokens_at_cons. cbn [map make_token tk_word].
  rewrite IH. reflexivity.
Qed.

Lemma tokens_at_Forall (P : Token -> Prop) (f : nat -> string) (conf : Q)
    (words : list string) :
  (forall i w, P (make_token w (f i) conf)) ->
  forall start, Forall P (TokenWalk.tokens_at f conf start words).
Proof.
  intro H. induction words as [|w words IH]; intro start; [constructor|].
  rewrite TokenWalk.tokens_at_cons. constructor; [apply H|apply IH].
Qed.

(** The language of a token is one of the detected languages; only when
    none was detected it is ['unknown']. *)
Definition language_detected (detected : list string) (t : Token) : Prop :=
  tk_language t = tk_lang t
  /\ (In (tk_lang t) detected \/ detected = [] /\ tk_lang t = "unknown").

Lemma nth_detected (detected : list string) (i : nat) :
  (detected <> [] -> (i < length detected)%nat) ->
  In (nth i detected "unknown") detected
  \/ detected = [] /\ nth i detected "unknown" = "unknown".
Proof.
  intro H. destruct detected as [|d ds].
  - right. split; [reflexivity|]. destruct i; reflexivity.
  - left. apply nth_In, H. discriminate.
Qed.

Lemma cyclic_index_bound (detected : list string) (sp : list Z) (i : nat) :
  detected <> [] -> (TokenWalk.cyclic_index detected sp i < length detected)%nat.
Proof.
  intro H. assert (0 < length detected)%nat by (destruct detected; [contradiction|cbn; lia]).
  unfold TokenWalk.cyclic_index. destruct (TokenWalk.walks detected sp); [|lia].
  apply Nat.mod_upper_bound. lia.
Qed.

Lemma clamped_index_bound (detected : list string) (sp : list Z) (i : nat) :
  detected <> [] -> (TokenWalk.clamped_index detected sp i < length detected)%nat.
Proof.
  intro H. assert (0 < length detected)%nat by (destruct detected; [contradiction|cbn; lia]).
  unfold TokenWalk.clamped_index. destruct (TokenWalk.walks detected sp); lia.
Qed.

(** In the results of the three builders every token names a language
    of the result's [detected_languages] (['unknown'] when a detector
    reported an empty list), and its two language fields agree. *)
Theorem token_languages_are_detected :
  (forall available sp_result context_result optimization_result text
          user_languages start_time now performance_mode,
      let r := _convert_v2_1_2_result available sp_result context_result
                 optimization_result text user_languages start_time now
                 performance_mode in
      Forall (language_detected (detected_languages r)) (tokens r))
  /\ (forall sp_result text user_languages start_time now,
        let r := _convert_legacy_result sp_result text user_languages
                   start_time now in
        Forall (language_detected (detected_languages r)) (tokens r))
  /\ (forall text user_languages start_time now error,
        let r := _get_mock_result text user_languages start_time now error in
        Forall (language_detected (detected_languages r)) (tokens r)).
Proof.
  split; [|split].
  - intros. subst r. unfold _convert_v2_1_2_result.
    cbn [tokens detected_languages].
    rewrite TokenWalk.tokens_v2_1_2_closed. apply tokens_at_Forall.
    intros i w. split; [reflexivity|]. cbn [make_token tk_lang].
    apply nth_detected, cyclic_index_bound.
  - intros. subst r. unfold _convert_legacy_result.
    cbn [tokens detected_languages].
    rewrite TokenWalk.tokens_legacy_closed. apply tokens_at_Forall.
    intros i w. split; [reflexivity|]. cbn [make_token tk_lang].
    apply nth_detected, clamped_index_bound.
  - intros. subst r. unfold _get_mock_result.
    cbn [tokens detected_languages SwitchPrintResult_defaults].
    apply Forall_forall. intros t H. apply in_map_iff in H.
    destruct H as (w & <- & _). split; [reflexivity|].
    left. left. reflexivity.
Qed.

Lemma miss_value_fields (available : bool) (ext : Externals) (text : string)
    (user_languages : user_langs) (fast_mode : bool) (performance_mode : string)
    (s : SwitchPrintService) :
  let res := miss_value available ext text user_languages fast_mode
               performance_mode s in
  map tk_word (tokens res) = Py.split text
  /\ cache_hit res = false
  /\ processing_time_ms res = (time_now ext - time_start ext) * 1000.
Proof.
  cbn zeta.
  assert (M : forall error,
             let res := _get_mock_result text user_languages (time_start ext)
                          (time_now ext) error in
             map tk_word (tokens res) = Py.split text
             /\ cache_hit res = false
             /\ processing_time_ms res = (time_now ext - time_start ext) * 1000).
  { intro error. cbn zeta. unfold _get_mock_result.
    cbn [tokens cache_hit processing_time_ms SwitchPrintResult_defaults].
    rewrite map_map. cbn [make_token tk_word]. rewrite map_id. repeat split. }
  assert (F : forall s',
             let res := fallback_value ext text user_languages fast_mode s' in
             map tk_word (tokens res) = Py.split text
             /\ cache_hit res = false
             /\ processing_time_ms res = (time_now ext - time_start ext) * 1000).
  { intro s'. cbn zeta. unfold fallback_value.
    destruct (negb (legacy_detector s')); [apply M|].
    destruct ((if fast_mode && fasttext_detector s'
               then fasttext_detect ext else legacy_detect ext) text user_languages);
      [|apply M].
    unfold _convert_legacy_result. cbn [tokens cache_hit processing_time_ms].
    rewrite TokenWalk.tokens_legacy_closed, tokens_at_words. repeat split. }
  unfold miss_value.
  destruct (integrated_detector s); [|apply F].
  destruct (integrated_detect ext text user_languages); [|apply F].
  unfold primary_value, _convert_v2_1_2_result.
  cbn [tokens cache_hit processing_time_ms].
  rewrite TokenWalk.tokens_v2_1_2_closed, tokens_at_words. repeat split.
Qed.

(** A miss (caching off, or the key not cached) creates a new result
    object and leaves the objects handed out earlier as they are.  The
    new object has one token per white-space separated word of the
    text, in order; it reads [cache_hit] false and carries the
    processing time of this call. *)
Theorem miss_result_is_fresh (available : bool) (ext : Externals) (text : string)
    (user_languages : user_langs) (use_cache fast_mode : bool)
    (performance_mode : string) (s : SwitchPrintService) :
  use_cache
  && Py.contains (cache_key text user_languages performance_mode) (cache s)
  = false ->
  let run1 := analyze_text available ext text user_languages use_cache
                fast_mode performance_mode s in
  exists res,
    fst run1 = Returned (length (objects s))
    /\ objects (snd run1) = objects s ++ [res]
    /\ map tk_word (tokens res) = Py.split text
    /\ cache_hit res = false
    /\ processing_time_ms res = (time_now ext - time_start ext) * 1000.
Proof.
  intros C run1.
  destruct (analyze_text_miss available ext text user_languages use_cache
              fast_mode performance_mode s C) as (R & O & _).
  eexists. split; [exact R|]. split; [exact O|].
  apply miss_value_fields.
Qed.

Lemma miss_result_is_fresh_witness :
  let run1 := analyze_text true all_raise "hola mundo" None true false "balanced"
                (__init__ true None) in
  exists res,
    fst run1 = Returned (length (objects (__init__ true None)))
    /\ objects (snd run1) = objects (__init__ true None) ++ [res]
    /\ map tk_word (tokens res) = Py.split "hola mundo"
    /\ cache_hit res = false
    /\ processing_time_ms res = (time_now all_raise - time_start all_raise) * 1000.
Proof.
  apply (miss_result_is_fresh true all_raise "hola mundo" None true false
           "balanced" (__init__ true None)).
  reflexivity.
Defined.

(** With caching off a call neither reads nor writes the cache: the
    cache and the hit counter stay as they are even when the key is
    cached, the request is counted, and the result is a new object. *)
Theorem uncached_call_leaves_cache (available : bool) (ext : Externals)
    (text : string) (user_languages : user_langs) (fast_mode : bool)
    (performance_mode : string) (s : SwitchPrintService) :
  let run1 := analyze_text available ext text user_languages false
                fast_mode performance_mode s in
  cache (snd run1) = cache s
  /\ cache_hits (snd run1) = cache_hits s
  /\ total_requests (snd run1) = (total_requests s + 1)%Z
  /\ fst run1 = Returned (length (objects s))
  /\ exists res, objects (snd run1) = objects s ++ [res].
Proof.
  cbn zeta.
  destruct (analyze_text_miss available ext text user_languages false
              fast_mode performance_mode s eq_refl) as (R & O & K).
  destruct (analyze_text_effect available ext text user_languages false
              fast_mode performance_mode s)
    as (T & [(_ & _ & U & _)|[(H & _)|(_ & U & _)]]); try discriminate.
  destruct K as [K|(U & _)]; [|discriminate].
  repeat split; try assumption. eexists. exact O.
Qed.

End ServiceInvariants.

(* ================================================================== *)
(** ** Behaviour of the service across calls                           *)
(* ================================================================== *)

Module ServiceBehaviour.
Import Bridge.
Import Orchestrator.
Import CacheFacts.
Import ServiceInvariants.

(** *** Grouping: how many phrases *)

(** The number of positions at which the language differs from the
    language [prev] of the position before. *)
Fixpoint changes_after (prev : string) (tokens : list Token) : nat :=
  match tokens with
  | [] => 0
  | t :: rest =>
      ((if (tk_lang t =? prev)%string then 0 else 1) + changes_after (tk_lang t) rest)%nat
  end.

Definition language_changes (tokens : list Token) : nat :=
  match tokens with
  | [] => 0
  | t0 :: rest => changes_after (tk_lang t0) rest
  end.

Lemma group_from_length (conf : Q) (user_languages : user_langs)
    (rest : list Token) :
  forall i cp,
    length (group_from conf user_languages i cp [] rest)
    = S (changes_after (op_language cp) rest).
Proof.
  induction rest as [|t rest IH]; intros i cp; cbn [group_from changes_after].
  - reflexivity.
  - destruct (tk_lang t =? op_language cp)%string eqn:E.
    + rewrite IH. cbn [op_language]. apply String.eqb_eq in E. rewrite E.
      reflexivity.
    + rewrite PhrasePartition.group_from_acc, length_app, IH. cbn. lia.
Qed.

(** The grouping loop of both conversions makes one phrase for the
    first token and one more at every position where the language
    changes: no phrase for no token, and never more phrases than
    tokens. *)
Theorem phrase_count (conf : Q) (user_languages : user_langs)
    (tokens : list Token) :
  length (make_phrases conf user_languages tokens)
  = match tokens with
    | [] => 0%nat
    | _ :: _ => S (language_changes tokens)
    end
  /\ (length (make_phrases conf user_languages tokens) <= length tokens)%nat.
Proof.
  assert (B : forall prev rest, (changes_after prev rest <= length rest)%nat).
  { intros prev rest. revert prev.
    induction rest as [|t rest IH]; intro prev; cbn; [lia|].
    specialize (IH (tk_lang t)). destruct (tk_lang t =? prev)%string; lia. }
  destruct tokens as [|t0 rest]; [split; reflexivity|].
  cbn [make_phrases language_changes]. rewrite group_from_length.
  cbn [op_language length]. split; [reflexivity|].
  specialize (B (tk_lang t0) rest). lia.
Qed.

Lemma group_from_one_language (conf : Q) (user_languages : user_langs)
    (rest : list Token) :
  forall i cp,
    Forall (fun t => tk_lang t = op_language cp) rest ->
    group_from conf user_languages i cp [] rest
    = [finalize conf user_languages
         {| op_words := op_words cp ++ map tk_word rest;
            op_language := op_language cp;
            op_startIndex := op_startIndex cp |}].
Proof.
  induction rest as [|t rest IH]; intros i cp H; cbn [group_from map].
  - rewrite app_nil_r. destruct cp; reflexivity.
  - inversion H as [|? ? Ht Hrest]; subst.
    rewrite Ht, String.eqb_refl, IH by exact Hrest.
    cbn [op_words op_language op_startIndex]. rewrite <- app_assoc. reflexivity.
Qed.

(** When all tokens of a non-empty text carry one language, which is
    the case whenever the detector named at most one language or no
    switch point, the grouping yields exactly one phrase: all words,
    indices 0 to [len(tokens) - 1]. *)
Theorem one_language_one_phrase (conf : Q) (user_languages : user_langs)
    (language : string) (tokens : list Token) :
  tokens <> [] ->
  Forall (fun t => tk_lang t = language) tokens ->
  exists p,
    make_phrases conf user_languages tokens = [p]
    /\ ph_words p = map tk_word tokens
    /\ ph_language p = language
    /\ ph_startIndex p = 0%Z
    /\ ph_endIndex p = (Z.of_nat (length tokens) - 1)%Z.
Proof.
  intros Hne H. destruct tokens as [|t0 rest]; [contradiction|].
  inversion H as [|? ? H0 Hrest]; subst.
  cbn [make_phrases]. rewrite group_from_one_language by exact Hrest.
  eexists. split; [reflexivity|].
  cbn [finalize ph_words ph_language ph_startIndex ph_endIndex op_words
       op_language op_startIndex app map].
  repeat split. cbn [length]. rewrite length_map. lia.
Qed.

Lemma one_language_one_phrase_witness :
  exists p,
    make_phrases 0.5 None (tokens_v2_1_2 ["english"] [] 0.5 ["hello"; "world"]) = [p]
    /\ ph_words p = map tk_word (tokens_v2_1_2 ["english"] [] 0.5 ["hello"; "world"])
    /\ ph_language p = "english"
    /\ ph_startIndex p = 0%Z
    /\ ph_endIndex p
       = (Z.of_nat (length (tokens_v2_1_2 ["english"] [] 0.5 ["hello"; "world"])) - 1)%Z.
Proof.
  apply (one_language_one_phrase 0.5 None "english"
           (tokens_v2_1_2 ["english"] [] 0.5 ["hello"; "world"])).
  - discriminate.
  - repeat constructor.
Defined.

(** *** The fast-mode flag *)

(** When the primary detector answers, the outcome of a call (the
    reference returned and the whole state left behind) is the same with
    [fast_mode] on and off: the flag only selects a detector inside the
    fallback chain, and it is not part of the cache key. *)
Theorem fast_mode_ignored_by_primary (available : bool) (ext : Externals)
    (text : string) (user_languages : user_langs) (use_cache : bool)
    (performance_mode : string) (s : SwitchPrintService)
    (sp_result : IntegratedResult) :
  integrated_detector s = true ->
  integrated_detect ext text user_languages = Returned sp_result ->
  analyze_text available ext text user_languages use_cache true performance_mode s
  = analyze_text available ext text user_languages use_cache false performance_mode s.
Proof.
  intros D P.
  destruct (use_cache
            && Py.contains (cache_key text user_languages performance_mode) (cache s))
    eqn:C.
  - apply andb_prop in C as [U C]. destruct (contains_get _ _ C) as [r G].
    rewrite !(analyze_text_hit available ext text user_languages use_cache _
                performance_mode s r U G).
    reflexivity.
  - rewrite !(analyze_text_primary available ext text user_languages use_cache _
                performance_mode s sp_result C D P).
    reflexivity.
Qed.

Lemma fast_mode_ignored_by_primary_witness :
  analyze_text true (primary_answers UserLanguages.english_answer) "hello world"
    None true true "balanced" (__init__ true None)
  = analyze_text true (primary_answers UserLanguages.english_answer) "hello world"
      None true false "balanced" (__init__ true None).
Proof.
  apply (fast_mode_ignored_by_primary true
           (primary_answers UserLanguages.english_answer) "hello world" None true
           "balanced" (__init__ true None) UserLanguages.english_answer);
    reflexivity.
Defined.

(** *** Initialisation *)

Lemma reachable_components (available : bool) (failure : option nat)
    (qs : list request) :
  components (run available qs (__init__ available failure))
  = components (__init__ available failure).
Proof. apply run_components. Qed.

(** The primary detector is only in place when the library was imported
    and every one of the seven constructors of [__init__] succeeded: a
    failure of any later constructor, the legacy ones included, also
    takes the primary detector away.  No request changes that. *)
Theorem primary_needs_full_init (available : bool) (failure : option nat)
    (qs : list request) :
  integrated_detector (run available qs (__init__ available failure)) = true ->
  available = true
  /\ failure = None
  /\ components (run available qs (__init__ available failure))
     = [true; true; true; true; true; true; true].
Proof.
  intro H. pose proof (reachable_components available failure qs) as C.
  assert (I : integrated_detector (__init__ available failure) = true).
  { pose proof (f_equal (hd false) C) as C0. cbn [components hd] in C0.
    rewrite <- C0. exact H. }
  rewrite C. cbn in I.
  destruct available; [|discriminate].
  destruct failure as [f|]; [|repeat split].
  cbn in I. rewrite andb_false_r in I. discriminate.
Qed.

Lemma primary_needs_full_init_witness :
  true = true
  /\ @None nat = None
  /\ components (run true [ClearCache] (__init__ true None))
     = [true; true; true; true; true; true; true].
Proof.
  apply (primary_needs_full_init true None [ClearCache]). reflexivity.
Defined.

(** Without the library ([SWITCHPRINT_AVAILABLE] false) the service has
    no detector at all: after any sequence of requests the cache is
    empty and no hit was counted, and every [analyze_text] call returns
    the mock result, built without an error message. *)
Theorem unavailable_service_mocks (failure : option nat) (qs : list request)
    (ext : Externals) (text : string) (user_languages : user_langs)
    (use_cache fast_mode : bool) (performance_mode : string) :
  let s := run false qs (__init__ false failure) in
  let run1 := analyze_text false ext text user_languages use_cache fast_mode
                performance_mode s in
  cache s = []
  /\ cache_hits s = 0%Z
  /\ total_requests s = Z.of_nat (length (filter (fun q => match q with
                                                           | Analyze _ _ _ _ _ _ => true
                                                           | _ => false
                                                           end) qs))
  /\ exists r,
       fst run1 = Returned r
       /\ deref (snd run1) r
          = Some (_get_mock_result text user_languages (time_start ext)
                    (time_now ext) None).
Proof.
  cbn zeta.
  assert (Inv : forall qs' s0,
            components s0 = [false; false; false; false; false; false; false] ->
            cache s0 = [] ->
            let s := run false qs' s0 in
            cache s = []
            /\ cache_hits s = cache_hits s0
            /\ total_requests s
               = (total_requests s0
                  + Z.of_nat (length (filter (fun q => match q with
                                                       | Analyze _ _ _ _ _ _ => true
                                                       | _ => false
                                                       end) qs')))%Z).
  { induction qs' as [|q qs' IH]; intros s0 Hc He; cbn zeta.
    - cbn. repeat split; try assumption. lia.
    - cbn [run fold_left]. fold (run false qs' (serve false q s0)).
      assert (Hc' : components (serve false q s0)
                    = [false; false; false; false; false; false; false])
        by (rewrite serve_components; exact Hc).
      destruct q as [e t ul uc fm mode| |]; cbn [serve filter length] in *.
      + assert (C : uc && Py.contains (cache_key t ul mode) (cache s0) = false)
          by (rewrite He; apply andb_false_r).
        assert (D : integrated_detector s0 = false)
          by (unfold components in Hc; injection Hc; auto).
        pose proof (analyze_text_fallback false e t ul uc fm mode s0 C (or_introl D))
          as E.
        destruct (IH (snd (analyze_text false e t ul uc fm mode s0)) Hc')
          as (I1 & I2 & I3).
        { rewrite E. exact He. }
        rewrite I1, I2, I3, E. cbn. repeat split. lia.
      + destruct (IH (snd (clear_cache s0)) Hc' eq_refl) as (I1 & I2 & I3).
        rewrite I1, I2, I3. repeat split.
      + destruct (get_cache_stats_returns false s0) as (st & E & _).
        rewrite E in *. cbn [snd] in *.
        destruct (IH s0 Hc He) as (I1 & I2 & I3).
        rewrite I1, I2, I3. repeat split. }
  destruct (Inv qs (__init__ false failure) eq_refl eq_refl) as (I1 & I2 & I3).
  split; [exact I1|]. split; [exact I2|]. split; [rewrite I3; reflexivity|].
  set (s := run false qs (__init__ false failure)) in *.
  assert (Hc : components s = [false; false; false; false; false; false; false])
    by (apply reachable_components).
  assert (C : use_cache
              && Py.contains (cache_key text user_languages performance_mode) (cache s)
              = false) by (rewrite I1; apply andb_false_r).
  assert (D : integrated_detector s = false)
    by (unfold components in Hc; injection Hc; auto).
  rewrite (analyze_text_fallback false ext text user_languages use_cache fast_mode
             performance_mode s C (or_introl D)).
  eexists. split; [reflexivity|].
  cbn [snd]. unfold deref. cbn [objects with_objects].
  rewrite CacheRoundTrip.nth_error_last. f_equal.
  unfold fallback_value.
  assert (L : legacy_detector (counted s) = false).
  { unfold components in Hc. injection Hc. intros. assumption. }
  rewrite L. reflexivity.
Qed.

(** *** Repeated requests and [clear_cache] *)

(** Later calls for one text: each with its own collaborators and
    fast-mode flag. *)
Definition again (text : string) (user_languages : user_langs)
    (performance_mode : string) (later : list (Externals * bool)) : list request :=
  map (fun eb => Analyze (fst eb) text user_languages true (snd eb) performance_mode)
      later.

Lemma hits_in_a_row (available : bool) (text : string)
    (user_languages : user_langs) (performance_mode : string)
    (later : list (Externals * bool)) :
  forall s r,
    Py.get (cache_key text user_languages performance_mode) (cache s) = Some r ->
    let s' := run available (again text user_languages performance_mode later) s in
    cache s' = cache s
    /\ cache_hits s' = (cache_hits s + Z.of_nat (length later))%Z
    /\ total_requests s' = (total_requests s + Z.of_nat (length later))%Z
    /\ length (objects s') = length (objects s).
Proof.
  induction later as [|[e fm] later IH]; intros s r G; cbn zeta.
  - cbn. repeat split; lia.
  - change (run available (again text user_languages performance_mode
                             ((e, fm) :: later)) s)
      with (run available (again text user_languages performance_mode later)
              (snd (analyze_text available e text user_languages true fm
                      performance_mode s))).
    set (s1 := snd (analyze_text available e text user_languages true fm
                      performance_mode s)).
    assert (E : s1 = with_objects (update_nth r (refresh e) (objects s))
                       (with_cache_hits (cache_hits s + 1) (counted s))).
    { subst s1.
      rewrite (analyze_text_hit available e text user_languages true fm
                 performance_mode s r eq_refl G). reflexivity. }
    assert (G1 : Py.get (cache_key text user_languages performance_mode) (cache s1)
                 = Some r) by (rewrite E; exact G).
    destruct (IH s1 r G1) as (I1 & I2 & I3 & I4).
    rewrite I1, I2, I3, I4, E. cbn. rewrite length_update_nth.
    repeat split; lia.
Qed.

(** After a miss answered by the primary detector has cached a result,
    any number of further calls for the same text, user languages and
    mode are all hits: each adds one to both counters, the cache keeps
    its entries and their order, and no further result object is
    created, whatever the detectors would answer by then. *)
Theorem repeated_requests_hit (available : bool) (s : SwitchPrintService)
    (ext : Externals) (later : list (Externals * bool)) (text : string)
    (user_languages : user_langs) (fast_mode : bool) (performance_mode : string)
    (sp_result : IntegratedResult) :
  integrated_detector s = true ->
  integrated_detect ext text user_languages = Returned sp_result ->
  Py.contains (cache_key text user_languages performance_mode) (cache s) = false ->
  let s1 := snd (analyze_text available ext text user_languages true fast_mode
                   performance_mode s) in
  let s2 := run available (again text user_languages performance_mode later) s1 in
  cache s2 = cache s1
  /\ cache_hits s2 = (cache_hits s + Z.of_nat (length later))%Z
  /\ total_requests s2 = (total_requests s + 1 + Z.of_nat (length later))%Z
  /\ length (objects s2) = S (length (objects s)).
Proof.
  intros D P N s1 s2.
  pose proof (analyze_text_primary available ext text user_languages true fast_mode
                performance_mode s sp_result N D P) as E.
  pose proof (cache_store_keeps_new _ (length (objects s)) _ N) as G.
  assert (G1 : Py.get (cache_key text user_languages performance_mode) (cache s1)
               = Some (length (objects s))).
  { subst s1. rewrite E. exact G. }
  destruct (hits_in_a_row available text user_languages performance_mode later
              s1 _ G1) as (I1 & I2 & I3 & I4).
  fold s2 in I1, I2, I3, I4. rewrite I1, I2, I3, I4.
  subst s1. rewrite E. cbn. rewrite length_app. cbn. repeat split; lia.
Qed.

Lemma repeated_requests_hit_witness :
  let ext := primary_answers UserLanguages.english_answer in
  let s := __init__ true None in
  let later := [(all_raise, true); (all_raise, false)] in
  let s1 := snd (analyze_text true ext "hello world" None true false "balanced" s) in
  let s2 := run true (again "hello world" None "balanced" later) s1 in
  cache s2 = cache s1
  /\ cache_hits s2 = (cache_hits s + Z.of_nat (length later))%Z
  /\ total_requests s2 = (total_requests s + 1 + Z.of_nat (length later))%Z
  /\ length (objects s2) = S (length (objects s)).
Proof.
  apply (repeated_requests_hit true (__init__ true None)
           (primary_answers UserLanguages.english_answer)
           [(all_raise, true); (all_raise, false)] "hello world" None false
           "balanced" UserLanguages.english_answer);
    reflexivity.
Defined.

(** [clear_cache] empties the cache and keeps the two counters and all
    result objects; the next call with caching is then a miss that
    counts no hit and creates a new object, also for a text that was
    cached before. *)
Theorem clear_cache_forgets (available : bool) (s : SwitchPrintService)
    (ext : Externals) (text : string) (user_languages : user_langs)
    (fast_mode : bool) (performance_mode : string) :
  let s1 := snd (clear_cache s) in
  let run1 := analyze_text available ext text user_languages true fast_mode
                performance_mode s1 in
  cache s1 = []
  /\ objects s1 = objects s
  /\ cache_hits s1 = cache_hits s
  /\ total_requests s1 = total_requests s
  /\ fst run1 = Returned (length (objects s))
  /\ cache_hits (snd run1) = cache_hits s
  /\ total_requests (snd run1) = (total_requests s + 1)%Z.
Proof.
  cbn zeta. split; [reflexivity|]. split; [reflexivity|].
  split; [reflexivity|]. split; [reflexivity|].
  destruct (analyze_text_miss available ext text user_languages true fast_mode
              performance_mode (snd (clear_cache s)) eq_refl) as (R & _ & _).
  split; [exact R|].
  destruct (analyze_text_effect available ext text user_languages true fast_mode
              performance_mode (snd (clear_cache s)))
    as (T & [(_ & _ & _ & C)|[(H & _)|(H & _)]]);
    [discriminate C| |]; rewrite T, H; split; reflexivity.
Qed.

End ServiceBehaviour.

(* ================================================================== *)
(** ** Cache keys                                                      *)
(* ================================================================== *)

Module CacheKeys.
Import Bridge.
Import Orchestrator.
Import CacheFacts.
Import ServiceInvariants.

(** *** Strings with separators *)

Lemma append_assoc (a b c : string) : ((a ++ b) ++ c = a ++ (b ++ c))%string.
Proof. induction a as [|x a IH]; cbn; [reflexivity|]. rewrite IH. reflexivity. Qed.

(** The character [c] occurs in [s]. *)
Fixpoint occurs (c : ascii) (s : string) : bool :=
  match s with
  | EmptyString => false
  | String x s' => Ascii.eqb x c || occurs c s'
  end.

Lemma occurs_append (c : ascii) (a b : string) :
  occurs c (a ++ b) = occurs c a || occurs c b.
Proof.
  induction a as [|x a IH]; cbn; [reflexivity|].
  rewrite IH, orb_assoc. reflexivity.
Qed.

(** A string is cut at its first [c] in one way only. *)
Lemma cut_at_first (c : ascii) (a : string) :
  forall a' b b',
    occurs c a = false -> occurs c a' = false ->
    (a ++ String c b = a' ++ String c b')%string ->
    a = a' /\ b = b'.
Proof.
  induction a as [|x a IH]; intros [|x' a'] b b' Ha Ha' E; cbn in *.
  - injection E as E. split; [reflexivity|exact E].
  - injection E as E1 E2. subst x'. rewrite Ascii.eqb_refl in Ha'. discriminate.
  - injection E as E1 E2. subst x. rewrite Ascii.eqb_refl in Ha. discriminate.
  - injection E as E1 E2. subst x'.
    apply orb_false_elim in Ha as [_ Ha]. apply orb_false_elim in Ha' as [_ Ha'].
    destruct (IH a' b b' Ha Ha' E2) as [-> ->]. split; reflexivity.
Qed.

(** A string is cut at its last [c] in one way only. *)
Lemma cut_at_last (c : ascii) (a : string) :
  forall a' b b',
    occurs c b = false -> occurs c b' = false ->
    (a ++ String c b = a' ++ String c b')%string ->
    a = a' /\ b = b'.
Proof.
  induction a as [|x a IH]; intros [|x' a'] b b' Hb Hb' E; cbn in *.
  - injection E as E. split; [reflexivity|exact E].
  - injection E as E1 E2. subst b.
    rewrite occurs_append in Hb. cbn in Hb. rewrite Ascii.eqb_refl in Hb.
    rewrite orb_true_r in Hb. discriminate.
  - injection E as E1 E2. subst b'.
    rewrite occurs_append in Hb'. cbn in Hb'. rewrite Ascii.eqb_refl in Hb'.
    rewrite orb_true_r in Hb'. discriminate.
  - injection E as E1 E2. subst x'.
    destruct (IH a' b b' Hb Hb' E2) as [-> ->]. split; reflexivity.
Qed.

Definition colon : ascii := ascii_of_nat 58.
Definition comma : ascii := ascii_of_nat 44.

(** A language name that can be told apart inside a key: not empty and
    free of the two separators. *)
Definition plain (language : string) : Prop :=
  language <> EmptyString
  /\ occurs colon language = false
  /\ occurs comma language = false.

Lemma join_no_colon (languages : list string) :
  Forall plain languages -> occurs colon (Py.join "," languages) = false.
Proof.
  unfold Py.join. induction languages as [|x [|y l] IH]; intro H.
  - reflexivity.
  - inversion H as [|? ? (_ & Hx & _) _]; subst. exact Hx.
  - inversion H as [|? ? (_ & Hx & _) Hr]; subst.
    change (String.concat "," (x :: y :: l))
      with (x ++ "," ++ String.concat "," (y :: l))%string.
    rewrite !occurs_append, Hx, (IH Hr). reflexivity.
Qed.

Lemma join_head (x : string) (l : list string) :
  plain x ->
  exists rest, Py.join "," (x :: l) = (x ++ rest)%string
               /\ (l = [] /\ rest = EmptyString
                   \/ l <> [] /\ rest = String comma (Py.join "," l)).
Proof.
  intros _. unfold Py.join. destruct l as [|y l].
  - exists EmptyString. split; [|left; split; reflexivity].
    cbn. induction x as [|c x IH]; cbn; [reflexivity|]. rewrite <- IH. reflexivity.
  - eexists. split; [reflexivity|]. right. split; [discriminate|reflexivity].
Qed.

Lemma append_nil_r (a : string) : (a ++ EmptyString)%string = a.
Proof. induction a as [|x a IH]; cbn; [reflexivity|]. rewrite IH. reflexivity. Qed.

(** A list of plain names can be read back from its comma-joined
    form. *)
Lemma join_injective (l : list string) :
  forall l',
    Forall plain l -> Forall plain l' ->
    Py.join "," l = Py.join "," l' -> l = l'.
Proof.
  induction l as [|x l IH]; intros [|x' l'] H H' E.
  - reflexivity.
  - exfalso. inversion H' as [|? ? Px' _]; subst.
    destruct (join_head x' l' Px') as (rest & J & _).
    rewrite J in E. cbn in E. destruct Px' as (Ne & _).
    destruct x'; [contradiction|discriminate].
  - exfalso. inversion H as [|? ? Px _]; subst.
    destruct (join_head x l Px) as (rest & J & _).
    rewrite J in E. cbn in E. destruct Px as (Ne & _).
    destruct x; [contradiction|discriminate].
  - inversion H as [|? ? Px Hl]; subst. inversion H' as [|? ? Px' Hl']; subst.
    destruct (join_head x l Px) as (rest & J & C).
    destruct (join_head x' l' Px') as (rest' & J' & C').
    rewrite J, J' in E.
    destruct Px as (_ & _ & Hx), Px' as (_ & _ & Hx').
    destruct C as [(-> & ->)|(Nl & ->)], C' as [(-> & ->)|(Nl' & ->)].
    + rewrite !append_nil_r in E. subst. reflexivity.
    + exfalso. rewrite append_nil_r in E. subst x.
      rewrite occurs_append in Hx. cbn in Hx. rewrite orb_true_r in Hx.
      discriminate.
    + exfalso. rewrite append_nil_r in E. subst x'.
      rewrite occurs_append in Hx'. cbn in Hx'. rewrite orb_true_r in Hx'.
      discriminate.
    + destruct (cut_at_first comma x x' _ _ Hx Hx' E) as [-> E'].
      f_equal. apply IH; assumption.
Qed.

(** Requests with plain user languages and a mode without colon share a
    cache key only if they agree in text, in the list of user languages
    ([None] counting as the empty list) and in mode: such a request is
    never answered with the cached result of another one. *)
Theorem cache_key_injective (text1 text2 : string)
    (user_languages1 user_languages2 : user_langs) (mode1 mode2 : string) :
  Forall plain (or_empty user_languages1) ->
  Forall plain (or_empty user_languages2) ->
  occurs colon mode1 = false ->
  occurs colon mode2 = false ->
  cache_key text1 user_languages1 mode1 = cache_key text2 user_languages2 mode2 ->
  text1 = text2
  /\ or_empty user_languages1 = or_empty user_languages2
  /\ mode1 = mode2.
Proof.
  intros H1 H2 M1 M2 E. unfold cache_key in E.
  cbn [String.append] in E. repeat injection E as E.
  change (text1 ++ ":" ++ Py.join "," (or_empty user_languages1) ++ ":" ++ mode1)%string
    with (text1 ++ String colon (Py.join "," (or_empty user_languages1)
                                 ++ String colon mode1))%string in E.
  change (text2 ++ ":" ++ Py.join "," (or_empty user_languages2) ++ ":" ++ mode2)%string
    with (text2 ++ String colon (Py.join "," (or_empty user_languages2)
                                 ++ String colon mode2))%string in E.
  assert (A : forall t j m, (t ++ String colon (j ++ String colon m)
                             = (t ++ String colon j) ++ String colon m)%string).
  { intros t j m. rewrite append_assoc. reflexivity. }
  rewrite !A in E.
  destruct (cut_at_last colon _ _ _ _ M1 M2 E) as [E' ->].
  destruct (cut_at_last colon _ _ _ _ (join_no_colon _ H1) (join_no_colon _ H2) E')
    as [-> J].
  split; [reflexivity|]. split; [|reflexivity].
  apply join_injective; assumption.
Qed.

Lemma cache_key_injective_witness :
  "going to la tienda" = "going to la tienda"
  /\ or_empty (Some ["english"; "spanish"]) = or_empty (Some ["english"; "spanish"])
  /\ "balanced" = "balanced".
Proof.
  apply (cache_key_injective "going to la tienda" "going to la tienda"
           (Some ["english"; "spanish"]) (Some ["english"; "spanish"])
           "balanced" "balanced").
  - repeat constructor; discriminate.
  - repeat constructor; discriminate.
  - reflexivity.
  - reflexivity.
  - reflexivity.
Defined.

(** The key does not separate its parts: a colon inside a user
    language reads like the end of the text. *)
Lemma cache_key_collision (text a b performance_mode : string) :
  cache_key (text ++ ":" ++ a) (Some [b]) performance_mode
  = cache_key text (Some [(a ++ ":" ++ b)%string]) performance_mode.
Proof.
  unfold cache_key, Py.join. cbn [or_empty String.concat].
  f_equal. rewrite !append_assoc. reflexivity.
Qed.

(** Two different requests can share a cache key, and then the second
    is answered with the first one's result.  After a miss for [text]
    with the single user language [a ++ ":" ++ b], answered by the
    primary detector with caching on, a call for the text
    [text ++ ":" ++ a] with the user language [b] is a hit: it returns
    the object built for [text], whose tokens are the words of [text],
    and no detector is asked. *)
Theorem colliding_request_gets_cached_result (available : bool)
    (s : SwitchPrintService) (ext1 ext2 : Externals) (text a b : string)
    (fast_mode1 fast_mode2 : bool) (performance_mode : string)
    (sp_result : IntegratedResult) :
  integrated_detector s = true ->
  integrated_detect ext1 text (Some [(a ++ ":" ++ b)%string]) = Returned sp_result ->
  Py.contains (cache_key text (Some [(a ++ ":" ++ b)%string]) performance_mode)
    (cache s) = false ->
  let run1 := analyze_text available ext1 text (Some [(a ++ ":" ++ b)%string]) true
                fast_mode1 performance_mode s in
  let run2 := analyze_text available ext2 (text ++ ":" ++ a) (Some [b]) true
                fast_mode2 performance_mode (snd run1) in
  exists r res,
    fst run1 = Returned r
    /\ fst run2 = Returned r
    /\ deref (snd run2) r = Some res
    /\ cache_hit res = true
    /\ map tk_word (tokens res) = Py.split text
    /\ cache_hits (snd run2) = (cache_hits s + 1)%Z.
Proof.
  intros D P N run1 run2.
  set (ul := Some [(a ++ ":" ++ b)%string]) in *.
  pose proof (analyze_text_primary available ext1 text ul true fast_mode1
                performance_mode s sp_result N D P) as E1.
  pose proof (cache_store_keeps_new _ (length (objects s)) _ N) as G.
  assert (G1 : Py.get (cache_key (text ++ ":" ++ a) (Some [b]) performance_mode)
                 (cache (snd run1)) = Some (length (objects s))).
  { rewrite cache_key_collision. subst run1. rewrite E1. exact G. }
  pose proof (analyze_text_hit available ext2 (text ++ ":" ++ a) (Some [b]) true
                fast_mode2 performance_mode (snd run1) _ eq_refl G1) as E2.
  fold run2 in E2.
  exists (length (objects s)),
         (refresh ext2 (primary_value available ext1 text ul performance_mode s
                          sp_result)).
  rewrite E2. subst run1. rewrite E1. cbn [fst snd]. unfold deref.
  cbn [objects cache_hits with_objects with_cache with_cache_hits counted
       with_total_requests].
  rewrite CacheRoundTrip.update_nth_last, CacheRoundTrip.nth_error_last.
  split; [reflexivity|]. split; [reflexivity|]. split; [reflexivity|].
  split; [reflexivity|]. split; [|reflexivity].
  unfold refresh, primary_value, _convert_v2_1_2_result.
  cbn [tokens set_processing_time_ms set_cache_hit].
  rewrite TokenWalk.tokens_v2_1_2_closed. apply tokens_at_words.
Qed.

Lemma colliding_request_gets_cached_result_witness :
  let ext := primary_answers UserLanguages.english_answer in
  let run1 := analyze_text true ext "hola" (Some [("mundo" ++ ":" ++ "es")%string])
                true false "balanced" (__init__ true None) in
  let run2 := analyze_text true all_raise ("hola" ++ ":" ++ "mundo") (Some ["es"])
                true false "balanced" (snd run1) in
  exists r res,
    fst run1 = Returned r
    /\ fst run2 = Returned r
    /\ deref (snd run2) r = Some res
    /\ cache_hit res = true
    /\ map tk_word (tokens res) = Py.split "hola"
    /\ cache_hits (snd run2) = (cache_hits (__init__ true None) + 1)%Z.
Proof.
  apply (colliding_request_gets_cached_result true (__init__ true None)
           (primary_answers UserLanguages.english_answer) all_raise
           "hola" "mundo" "es" false false "balanced"
           UserLanguages.english_answer);
    reflexivity.
Defined.

End CacheKeys.

(* ================================================================== *)
(** ** The text of a phrase                                            *)
(* ================================================================== *)

Module PhraseText.
Import Bridge.
Import PhrasePartition.

(** *** Splitting and joining *)

(** No character of [s] is white space. *)
Fixpoint spaceless (s : string) : bool :=
  match s with
  | EmptyString => true
  | String c s' => negb (Py.isspace c) && spaceless s'
  end.

(** A word as [split] produces it: not empty, no white space. *)
Definition wordy (w : string) : Prop := w <> EmptyString /\ spaceless w = true.

Lemma split_from_spaceless (w : string) :
  forall cur rest,
    spaceless w = true ->
    Py.split_from cur (w ++ rest)
    = Py.split_from (rev (list_ascii_of_string w) ++ cur) rest.
Proof.
  induction w as [|c w IH]; intros cur rest H; [reflexivity|].
  cbn in H. apply andb_prop in H as [Hc Hw].
  apply negb_true_iff in Hc.
  cbn [String.append Py.split_from list_ascii_of_string rev]. rewrite Hc.
  rewrite IH by exact Hw. rewrite <- app_assoc. reflexivity.
Qed.

Lemma flush_word (w : string) :
  w <> EmptyString ->
  match rev (list_ascii_of_string w) ++ [] with
  | [] => []
  | _ :: _ => [string_of_list_ascii (rev (rev (list_ascii_of_string w) ++ []))]
  end = [w].
Proof.
  intro H. rewrite app_nil_r.
  destruct (rev (list_ascii_of_string w)) as [|c l] eqn:E.
  - apply (f_equal (@rev ascii)) in E. rewrite rev_involutive in E. cbn in E.
    destruct w; [contradiction|discriminate].
  - rewrite <- E, rev_involutive, string_of_list_ascii_of_string. reflexivity.
Qed.

Lemma split_word (w : string) : wordy w -> Py.split w = [w].
Proof.
  intros [Hne Hs]. unfold Py.split.
  rewrite <- (CacheKeys.append_nil_r w) at 1.
  rewrite split_from_spaceless by exact Hs.
  cbn [Py.split_from]. apply flush_word, Hne.
Qed.

Lemma split_word_space (w rest : string) :
  wordy w -> Py.split (w ++ String " " rest) = w :: Py.split rest.
Proof.
  intros [Hne Hs]. unfold Py.split.
  rewrite split_from_spaceless by exact Hs.
  cbn [Py.split_from]. change (Py.isspace " ") with true. cbv iota.
  rewrite (flush_word w Hne). reflexivity.
Qed.

(** Joining words with single spaces and splitting again gives the
    words back. *)
Lemma split_join (words : list string) :
  Forall wordy words -> Py.split (Py.join " " words) = words.
Proof.
  unfold Py.join. induction words as [|w [|w' ws] IH]; intro H.
  - reflexivity.
  - inversion H; subst. apply split_word. assumption.
  - inversion H as [|? ? Hw Hr]; subst.
    change (String.concat " " (w :: w' :: ws))
      with (w ++ String " " (String.concat " " (w' :: ws)))%string.
    rewrite split_word_space by exact Hw. rewrite IH by exact Hr. reflexivity.
Qed.

Lemma spaceless_of_list (l : list ascii) :
  spaceless (string_of_list_ascii l) = forallb (fun c => negb (Py.isspace c)) l.
Proof. induction l as [|c l IH]; cbn; [reflexivity|]. rewrite IH. reflexivity. Qed.

(** Every word that [split] produces is a word. *)
Lemma split_from_wordy (s : string) :
  forall cur,
    forallb (fun c => negb (Py.isspace c)) cur = true ->
    Forall wordy (Py.split_from cur s).
Proof.
  assert (Fl : forall cur,
             forallb (fun c => negb (Py.isspace c)) cur = true ->
             Forall wordy match cur with
                          | [] => []
                          | _ :: _ => [string_of_list_ascii (rev cur)]
                          end).
  { intros [|c cur] H; constructor; [|constructor]. split.
    - cbn [rev]. destruct (rev cur); discriminate.
    - rewrite spaceless_of_list, forallb_forall.
      intros x Hx. apply in_rev in Hx.
      rewrite forallb_forall in H. apply H, Hx. }
  induction s as [|c s IH]; intros cur H; cbn [Py.split_from].
  - apply Fl, H.
  - destruct (Py.isspace c) eqn:E.
    + apply Forall_app. split; [apply Fl, H|]. apply IH. reflexivity.
    + apply IH. cbn [forallb]. rewrite E, H. reflexivity.
Qed.

Lemma split_wordy (s : string) : Forall wordy (Py.split s).
Proof. apply split_from_wordy. reflexivity. Qed.

(** *** Phrases *)

Lemma group_from_text (conf : Q) (user_languages : user_langs)
    (rest : list Token) :
  forall i cp acc,
    Forall (fun p => ph_text p = Py.join " " (ph_words p)) acc ->
    Forall (fun p => ph_text p = Py.join " " (ph_words p))
           (group_from conf user_languages i cp acc rest).
Proof.
  induction rest as [|t rest IH]; intros i cp acc H; cbn [group_from].
  - apply Forall_app. split; [exact H|]. constructor; [reflexivity|constructor].
  - destruct (tk_lang t =? op_language cp)%string.
    + apply IH, H.
    + apply IH, Forall_app. split; [exact H|].
      constructor; [reflexivity|constructor].
Qed.

Lemma phrase_words_of_tokens (tokens : list Token) (phrases : list Phrase) :
  concat (map ph_words phrases) = map tk_word tokens ->
  forall p, In p phrases -> incl (ph_words p) (map tk_word tokens).
Proof.
  intros E p Hp w Hw. rewrite <- E. apply in_concat.
  exists (ph_words p). split; [apply in_map, Hp|exact Hw].
Qed.

Lemma make_phrases_round_trip (conf : Q) (user_languages : user_langs)
    (tokens : list Token) :
  Forall wordy (map tk_word tokens) ->
  Forall (fun p => Py.split (ph_text p) = ph_words p)
         (make_phrases conf user_languages tokens).
Proof.
  intro W.
  pose proof (covers_partition tokens _
                (make_phrases_covers conf user_languages tokens))
    as (_ & _ & E & _).
  assert (T : Forall (fun p => ph_text p = Py.join " " (ph_words p))
                (make_phrases conf user_languages tokens)).
  { destruct tokens as [|t0 rest]; [constructor|].
    apply group_from_text. constructor. }
  apply Forall_forall. intros p Hp.
  rewrite Forall_forall in T. rewrite (T p Hp).
  apply split_join. apply Forall_forall. intros w Hw.
  rewrite Forall_forall in W. apply W.
  exact (phrase_words_of_tokens tokens _ E p Hp w Hw).
Qed.

(** In a result of any of the three builders the text of every phrase
    splits back into exactly the words of the phrase: the words of a
    phrase joined by single spaces for the two conversions, the text
    itself for the mock result. *)
Theorem phrase_text_round_trip :
  (forall available sp_result context_result optimization_result text
          user_languages start_time now performance_mode,
      Forall (fun p => Py.split (ph_text p) = ph_words p)
        (phrases (_convert_v2_1_2_result available sp_result context_result
                    optimization_result text user_languages start_time now
                    performance_mode)))
  /\ (forall sp_result text user_languages start_time now,
        Forall (fun p => Py.split (ph_text p) = ph_words p)
          (phrases (_convert_legacy_result sp_result text user_languages
                      start_time now)))
  /\ (forall text user_languages start_time now error,
        Forall (fun p => Py.split (ph_text p) = ph_words p)
          (phrases (_get_mock_result text user_languages start_time now error))).
Proof.
  split; [|split].
  - intros. unfold _convert_v2_1_2_result. cbn [phrases].
    apply make_phrases_round_trip.
    rewrite TokenWalk.tokens_v2_1_2_closed, ServiceInvariants.tokens_at_words.
    apply split_wordy.
  - intros. unfold _convert_legacy_result. cbn [phrases].
    apply make_phrases_round_trip.
    rewrite TokenWalk.tokens_legacy_closed, ServiceInvariants.tokens_at_words.
    apply split_wordy.
  - intros. unfold _get_mock_result. cbn [phrases SwitchPrintResult_defaults].
    constructor; [reflexivity|constructor].
Qed.

End PhraseText.

(* ================================================================== *)
(** ** Language names and codes of the worker                          *)
(* ================================================================== *)

Module LanguageCodes.
Import Worker.

(** *** Case folding, character by character *)

Lemma lower_upper_ascii (c : ascii) :
  Py.lower_ascii (Py.upper_ascii c) = Py.lower_ascii c.
Proof. destruct c as [[] [] [] [] [] [] [] []]; reflexivity. Qed.

Lemma lower_lower_ascii (c : ascii) :
  Py.lower_ascii (Py.lower_ascii c) = Py.lower_ascii c.
Proof. destruct c as [[] [] [] [] [] [] [] []]; reflexivity. Qed.

Lemma lower_upper (s : string) : Py.lower (Py.upper s) = Py.lower s.
Proof.
  unfold Py.lower, Py.upper. induction s as [|c s IH]; cbn [Py.map_string];
    [reflexivity|].
  rewrite lower_upper_ascii, IH. reflexivity.
Qed.

Lemma lower_lower (s : string) : Py.lower (Py.lower s) = Py.lower s.
Proof.
  unfold Py.lower. induction s as [|c s IH]; cbn [Py.map_string]; [reflexivity|].
  rewrite lower_lower_ascii, IH. reflexivity.
Qed.

(** A lower-case ASCII letter. *)
Definition is_lower (c : ascii) : bool :=
  let n := N_of_ascii c in ((97 <=? n) && (n <=? 122))%N.

Lemma lower_letter (c : ascii) :
  is_lower c = true ->
  Py.lower_ascii (Py.upper_ascii c) = c /\ Py.isspace c = false.
Proof.
  destruct c as [[] [] [] [] [] [] [] []]; intro H;
    try discriminate H; split; reflexivity.
Qed.

(** *** Looking up keys of another length *)

Lemma get_other_length {V : Type} (k : string) (d : Py.dict V) :
  forallb (fun k' => negb (String.length k' =? String.length k)%nat) (Py.keys d) = true ->
  Py.get k d = None.
Proof.
  induction d as [|[k' v] d IH]; cbn; [reflexivity|].
  intro H. apply andb_prop in H as [H1 H2].
  destruct (String.eqb_spec k k') as [->|_].
  - rewrite Nat.eqb_refl in H1. discriminate.
  - apply IH, H2.
Qed.

Lemma get_key {V : Type} (k : string) (v : V) (d : Py.dict V) :
  Py.get k d = Some v -> In k (Py.keys d).
Proof.
  induction d as [|[k' v'] d IH]; cbn; [discriminate|].
  destruct (String.eqb_spec k k') as [->|_]; [left; reflexivity|].
  intro H. right. apply IH, H.
Qed.

(** *** Names and codes *)

(** The letter case of a user language does not matter to the worker:
    a name, its upper-case form and its lower-case form are normalized
    to the same code. *)
Theorem normalize_ignores_case (lang : string) :
  _normalize_language (Py.upper lang) = _normalize_language lang
  /\ _normalize_language (Py.lower lang) = _normalize_language lang.
Proof.
  unfold _normalize_language. rewrite lower_upper, lower_lower.
  split; reflexivity.
Qed.

Lemma table_round_trip :
  forallb (fun code => (_normalize_language (_code_to_name code) =? code)%string)
          (Py.keys code_to_name_map)
  = true.
Proof. vm_compute. reflexivity. Qed.

(** The name the worker reports for a detected code is normalized back
    to that code, for every code of its name table and for every code
    made of two lower-case letters.  So a client that sends a reported
    language name (or an upper-cased two-letter code) back as user
    language gets a match for that language. *)
Theorem name_round_trip (code : string) :
  In code (Py.keys code_to_name_map)
  \/ (exists a b,
        code = String a (String b EmptyString)
        /\ is_lower a = true /\ is_lower b = true) ->
  _normalize_language (_code_to_name code) = code.
Proof.
  assert (T : forall c, In c (Py.keys code_to_name_map) ->
                        _normalize_language (_code_to_name c) = c).
  { intros c H. pose proof table_round_trip as F.
    rewrite forallb_forall in F. apply String.eqb_eq, F, H. }
  intros [H|(a & b & -> & Ha & Hb)]; [apply T, H|].
  destruct (Py.get (String a (String b EmptyString)) code_to_name_map)
    as [name|] eqn:G.
  - apply T. exact (get_key _ _ _ G).
  - unfold _code_to_name. rewrite G. cbn [getattr].
    destruct (lower_letter a Ha) as [La Sa], (lower_letter b Hb) as [Lb Sb].
    unfold _normalize_language, Py.upper, Py.lower. cbn [Py.map_string].
    rewrite La, Lb.
    unfold Py.strip. cbn [Py.lstrip]. rewrite Sa. cbn [Py.rstrip]. rewrite Sb.
    rewrite get_other_length; [reflexivity|].
    vm_compute. reflexivity.
Qed.

Lemma name_round_trip_witness :
  _normalize_language (_code_to_name "pt") = "pt"
  /\ _normalize_language (_code_to_name "xx") = "xx".
Proof.
  split.
  - apply (name_round_trip "pt"). left. vm_compute. tauto.
  - apply (name_round_trip "xx"). right.
    exists "x"%char, "x"%char. repeat split.
Defined.

(** The round trip stops at longer codes: a three-letter code outside
    the table, such as the code ['cnr'] that the language table itself
    assigns to Montenegrin, gets an upper-case name that is normalized
    to its first two letters. *)
Example longer_code_is_cut :
  Py.get "montenegrin" languages_map = Some "cnr"
  /\ _code_to_name "cnr" = "CNR"
  /\ _normalize_language "CNR" = "cn".
Proof. repeat split. Qed.

End LanguageCodes.

(* ================================================================== *)
(** ** Results of the worker                                           *)
(* ================================================================== *)

Module WorkerResults.
Import Worker.

(** The text the model sees: line breaks replaced by spaces, then
    stripped. *)
Definition cleaned (text : string) : string :=
  Py.strip (Py.replace_char CR " " (Py.replace_char LF " " text)).

(** *** Tokens *)

Lemma mapM_word_token (predict : Model) (words : list string) :
  forall tokens,
    mapM (word_token predict) words = Returned tokens ->
    map tk_word tokens = words
    /\ Forall (fun t => tk_language t = _code_to_name (tk_lang t)) tokens.
Proof.
  induction words as [|w words IH]; intros tokens H; cbn [mapM obind] in H.
  - injection H as <-. split; constructor.
  - unfold word_token at 1 in H. unfold obind at 1 2 in H.
    destruct (predict w 1%nat) as [pred|e]; [|discriminate].
    destruct (mapM (word_token predict) words) as [ts|e] eqn:E; [|discriminate].
    cbn [obind] in H. injection H as <-.
    destruct (IH ts eq_refl) as [W L].
    split; [cbn; rewrite W; reflexivity|].
    constructor; [reflexivity|exact L].
Qed.

(** What a successful detection is made of, field by field. *)
Lemma detect_body_fields (self : FastTextWorker) (predict : Model)
    (text : string) (user_languages : json) (d : Detection) :
  detect_body self predict (JString text) user_languages = Returned (Result d) ->
  exists labels confidences,
    predict (cleaned text) 5%nat = Returned (labels, confidences)
    /\ mapM (word_token predict) (Py.split (cleaned text)) = Returned (tokens d)
    /\ phrases d = make_phrases (tokens d)
    /\ detectedLanguages d
       = map (fun lc => _code_to_name (Py.remove "__label__" (fst lc)))
             (firstn 3 (combine labels confidences))
    /\ confidence d = match combine labels confidences with
                      | lc :: _ => snd lc
                      | [] => 0.0
                      end
    /\ timeMs (processing d) = 0.
Proof.
  unfold detect_body. cbn [as_str obind]. fold (cleaned text).
  destruct (negb (Py.truthy (cleaned text))); [discriminate|].
  destruct (predict (cleaned text) 5%nat) as [[labels confs]|e]; [|discriminate].
  cbn [obind fst snd].
  destruct (mapM (word_token predict) (Py.split (cleaned text))) as [ts|e];
    [|discriminate].
  cbn [obind]. intro H. exists labels, confs.
  assert (S3 : forall l : list (string * Q),
             map d_name
               (firstn 3 (map (fun lc =>
                                 {| d_language := Py.remove "__label__" (fst lc);
                                    d_confidence := snd lc;
                                    d_name := _code_to_name
                                                (Py.remove "__label__" (fst lc)) |}) l))
             = map (fun lc => _code_to_name (Py.remove "__label__" (fst lc)))
                   (firstn 3 l)).
  { intro l. rewrite firstn_map, map_map. reflexivity. }
  destruct (combine labels confs) as [|lc rest] eqn:C;
    cbn [map hd_error] in H.
  - cbn [obind] in H. injection H as <-. repeat split.
  - destruct (truthy user_languages).
    + unfold obind in H.
      destruct (iterate user_languages) as [langs|e]; [|discriminate].
      destruct (mapM _ langs) as [norm|e]; [|discriminate].
      injection H as <-. cbn [tokens phrases detectedLanguages confidence
                              processing timeMs].
      repeat split. rewrite <- (S3 (lc :: rest)). reflexivity.
    + cbn [obind] in H. injection H as <-.
      cbn [tokens phrases detectedLanguages confidence processing timeMs].
      repeat split. rewrite <- (S3 (lc :: rest)). reflexivity.
Qed.

(** A successful detection has one token per white-space separated word
    of the cleaned text, in order, each with the readable name of its
    code; it reports at most three detected languages although five
    predictions are requested. *)
Theorem worker_tokens_follow_text (self : FastTextWorker) (text : string)
    (user_languages : json) (d : Detection) :
  detect_language self (JString text) user_languages = Result d ->
  map tk_word (tokens d) = Py.split (cleaned text)
  /\ Forall (fun t => tk_language t = _code_to_name (tk_lang t)) (tokens d)
  /\ (length (detectedLanguages d) <= 3)%nat.
Proof.
  unfold detect_language. intro H.
  destruct (model self) as [predict|]; [|discriminate].
  destruct (detect_body self predict (JString text) user_languages) as [r|e] eqn:B;
    [|discriminate].
  subst r. destruct (detect_body_fields _ _ _ _ _ B) as (ls & cs & _ & M & _ & D & _).
  destruct (mapM_word_token _ _ _ M) as [W L].
  split; [exact W|]. split; [exact L|].
  rewrite D, length_map, length_firstn. lia.
Qed.

Lemma worker_tokens_follow_text_witness :
  exists d,
    detect_language WorkerPhrases.sample_worker (JString "hola amigo hello")
      (JArray []) = Result d
    /\ map tk_word (tokens d) = Py.split (cleaned "hola amigo hello")
    /\ Forall (fun t => tk_language t = _code_to_name (tk_lang t)) (tokens d)
    /\ (length (detectedLanguages d) <= 3)%nat.
Proof.
  eexists. split; [vm_compute; reflexivity|].
  apply (worker_tokens_follow_text WorkerPhrases.sample_worker "hola amigo hello"
           (JArray [])).
  vm_compute. reflexivity.
Defined.

(** *** Phrases *)

(** [blocks tokens phrases]: read from left to right, the phrases cut
    [tokens] into consecutive non-empty blocks; each phrase holds the
    words of its block, all tokens of the block have the language code
    of its first token, and the phrase carries the language name of
    that first token. *)
Fixpoint blocks (tokens : list Token) (phrases : list Phrase) : Prop :=
  match phrases with
  | [] => tokens = []
  | p :: ps =>
      let n := length (ph_words p) in
      ph_words p = map tk_word (firstn n tokens)
      /\ (exists t0 block,
            firstn n tokens = t0 :: block
            /\ ph_language p = tk_language t0
            /\ Forall (fun t => tk_lang t = tk_lang t0) block)
      /\ blocks (skipn n tokens) ps
  end.

Lemma group_tokens_acc (rest : list Token) :
  forall cur acc,
    group_tokens cur acc rest = acc ++ group_tokens cur [] rest.
Proof.
  induction rest as [|t rest IH]; intros cur acc; cbn [group_tokens].
  - destruct (Bridge.non_empty cur); [reflexivity|]. rewrite app_nil_r. reflexivity.
  - destruct (tk_lang t =? last_lang cur)%string.
    + apply IH.
    + rewrite (IH _ (acc ++ _)), (IH _ ([] ++ _)), <- app_assoc. reflexivity.
Qed.

Lemma last_lang_block (t0 : Token) (block : list Token) :
  Forall (fun t => tk_lang t = tk_lang t0) block ->
  last_lang (t0 :: block) = tk_lang t0.
Proof.
  intro H. unfold last_lang.
  destruct (rev (t0 :: block)) as [|x l] eqn:E.
  - apply (f_equal (@length Token)) in E. rewrite length_rev in E. discriminate.
  - assert (I : In x (t0 :: block)).
    { apply in_rev. rewrite E. left. reflexivity. }
    destruct I as [<-|I]; [reflexivity|].
    rewrite Forall_forall in H. apply H, I.
Qed.

Lemma group_tokens_blocks (rest : list Token) :
  forall t0 block,
    Forall (fun t => tk_lang t = tk_lang t0) block ->
    blocks ((t0 :: block) ++ rest) (group_tokens (t0 :: block) [] rest).
Proof.
  induction rest as [|t rest IH]; intros t0 block H; cbn [group_tokens].
  - cbn [Bridge.non_empty app blocks _create_phrase ph_words ph_language].
    rewrite length_map, app_nil_r.
    rewrite firstn_all, skipn_all.
    split; [reflexivity|]. split; [|reflexivity].
    exists t0, block. repeat split. exact H.
  - rewrite (last_lang_block t0 block H).
    destruct (tk_lang t =? tk_lang t0)%string eqn:E.
    + apply String.eqb_eq in E.
      replace ((t0 :: block) ++ t :: rest) with ((t0 :: block ++ [t]) ++ rest)
        by (cbn; rewrite <- app_assoc; reflexivity).
      change ((t0 :: block) ++ [t]) with (t0 :: block ++ [t]).
      apply IH. apply Forall_app. split; [exact H|].
      constructor; [exact E|constructor].
    + rewrite group_tokens_acc. cbn [app].
      cbn [blocks _create_phrase ph_words ph_language].
      rewrite length_map.
      change (t0 :: block ++ t :: rest) with ((t0 :: block) ++ t :: rest).
      rewrite firstn_app, firstn_all, Nat.sub_diag, skipn_app, skipn_all,
        Nat.sub_diag.
      cbn [firstn skipn app]. rewrite app_nil_r.
      split; [reflexivity|]. split.
      * exists t0, block. repeat split. exact H.
      * apply (IH t []). constructor.
Qed.

Lemma blocks_words (phrases : list Phrase) :
  forall tokens,
    blocks tokens phrases ->
    concat (map ph_words phrases) = map tk_word tokens.
Proof.
  induction phrases as [|p ps IH]; intros toks B; cbn [blocks] in B.
  - subst toks. reflexivity.
  - destruct B as (W & _ & R). cbn [map concat].
    rewrite (IH _ R).
    rewrite <- (firstn_skipn (length (ph_words p)) toks) at 2.
    rewrite map_app, <- W. reflexivity.
Qed.

(** Apart from the two index fields the worker groups correctly: the
    phrases of a successful detection cut the tokens, in order and
    without gap, into non-empty runs of one language code; each phrase
    lists the words of its run and carries the language name of the
    run's first token; and the words of all phrases together are the
    words of the tokens. *)
Theorem worker_phrases_cover_tokens (self : FastTextWorker)
    (text user_languages : json) (d : Detection) :
  detect_language self text user_languages = Result d ->
  blocks (tokens d) (phrases d)
  /\ concat (map ph_words (phrases d)) = map tk_word (tokens d).
Proof.
  intro H.
  destruct (SwitchPoints.detect_language_result _ _ _ _ H) as [P _].
  assert (B : blocks (tokens d) (phrases d)).
  { rewrite P. destruct (tokens d) as [|t0 rest]; [reflexivity|].
    cbn [make_phrases]. apply (group_tokens_blocks rest t0 []). constructor. }
  split; [exact B|apply blocks_words, B].
Qed.

Lemma worker_phrases_cover_tokens_witness :
  exists d,
    detect_language WorkerPhrases.sample_worker (JString "hola amigo hello")
      (JArray []) = Result d
    /\ blocks (tokens d) (phrases d)
    /\ concat (map ph_words (phrases d)) = map tk_word (tokens d).
Proof.
  eexists. split; [vm_compute; reflexivity|].
  apply (worker_phrases_cover_tokens WorkerPhrases.sample_worker
           (JString "hola amigo hello") (JArray [])).
  vm_compute. reflexivity.
Defined.

End WorkerResults.

(* ================================================================== *)
(** ** Edge cases of the worker protocol                               *)
(* ================================================================== *)

Module WorkerEdges.
Import Worker.

(** Every character of [s] is white space. *)
Fixpoint blank (s : string) : bool :=
  match s with
  | EmptyString => true
  | String c s' => Py.isspace c && blank s'
  end.

Lemma lstrip_blank (s : string) : blank s = true -> Py.lstrip s = EmptyString.
Proof.
  induction s as [|c s IH]; cbn; [reflexivity|].
  intro H. apply andb_prop in H as [Hc Hs]. rewrite Hc. apply IH, Hs.
Qed.

Lemma replace_blank (a : ascii) (s : string) :
  blank s = true -> blank (Py.replace_char a " " s) = true.
Proof.
  unfold Py.replace_char. induction s as [|c s IH]; cbn; [reflexivity|].
  intro H. apply andb_prop in H as [Hc Hs]. rewrite (IH Hs), andb_true_r.
  destruct (Ascii.eqb c a); [reflexivity|exact Hc].
Qed.

Lemma cleaned_blank (text : string) :
  blank text = true -> WorkerResults.cleaned text = EmptyString.
Proof.
  intro H. unfold WorkerResults.cleaned, Py.strip.
  rewrite lstrip_blank; [reflexivity|].
  apply replace_blank, replace_blank, H.
Qed.

Section Requests.

Variable json_loads : string -> parsed.
Variable clock : nat -> Q * Q.

(** A request whose text consists of white space only (spaces, tabs,
    line breaks) is answered with the one error line "Empty text
    provided", and the model is not consulted: the answer is the same
    for every model.  (An empty text is answered "No text provided".) *)
Theorem blank_text_is_rejected (path : option string) (predict : Model)
    (n : nat) (line : string) (fields : Py.dict json) (text : string) :
  json_loads line = Loaded (JObject fields) ->
  Py.get "text" fields = Some (JString text) ->
  text <> EmptyString ->
  blank text = true ->
  handle_line json_loads clock {| model := Some predict; model_path := path |} n line
  = [Print (Error "Empty text provided"); Flush].
Proof.
  intros L G Ne B. unfold handle_line, respond. rewrite L.
  unfold get_default. rewrite G. cbn [getattr truthy].
  destruct text as [|c text]; [contradiction|]. cbn [Py.truthy negb].
  unfold detect_language. cbn [model].
  unfold detect_body. cbn [as_str obind].
  fold (WorkerResults.cleaned (String c text)).
  rewrite (cleaned_blank _ B). reflexivity.
Qed.

End Requests.

(** A parser stand-in for one request line. *)
Definition loads_blank_text (line : string) : parsed :=
  Loaded (JObject [("text", JString "   ")]).

Lemma blank_text_is_rejected_witness :
  handle_line loads_blank_text (fun _ => (0, 1))
    {| model := Some WorkerPhrases.spanish_unless_hello; model_path := None |}
    0 "{text}"
  = [Print (Error "Empty text provided"); Flush].
Proof.
  apply (blank_text_is_rejected loads_blank_text (fun _ => (0, 1)) None
           WorkerPhrases.spanish_unless_hello 0 "{text}"
           [("text", JString "   ")] "   ");
    [reflexivity|reflexivity|discriminate|reflexivity].
Defined.

(** *** The whole run of [main] *)

Definition is_print (e : event) : bool :=
  match e with Print _ => true | _ => false end.

Definition is_exit (e : event) : bool :=
  match e with Exit _ => true | _ => false end.

Definition non_blank (raw : string) : bool := Py.truthy (Py.strip raw).

Lemma request_loop_prints (json_loads : string -> parsed) (clock : nat -> Q * Q)
    (worker : FastTextWorker) (stdin : list string) :
  forall n,
    length (filter is_print (request_loop json_loads clock worker n stdin))
    = length (filter non_blank stdin)
    /\ filter is_exit (request_loop json_loads clock worker n stdin) = []
    /\ map (fun e => match e with Read raw => raw | _ => EmptyString end)
           (filter (fun e => match e with Read _ => true | _ => false end)
                   (request_loop json_loads clock worker n stdin))
       = stdin.
Proof.
  induction stdin as [|raw stdin IH]; intro n; [repeat split|].
  destruct (IH (S n)) as (I1 & I2 & I3).
  cbn [request_loop filter is_print is_exit map]. unfold non_blank at 1.
  destruct (Py.truthy (Py.strip raw)); cbn [negb].
  - unfold handle_line.
    destruct (respond json_loads clock worker n (Py.strip raw));
      cbn [app filter is_print is_exit length map];
      rewrite I1, I2, I3; repeat split.
  - rewrite I1, I2, I3. repeat split.
Qed.

(** When the model was loaded, [main] first prints the ready line, then
    reads every input line in order and prints exactly one response for
    each line that is not blank; it never exits with an error status
    because of a request.  When the model could not be loaded it prints
    one error line and exits with status 1 without reading any
    input. *)
Theorem main_serves_every_line (json_loads : string -> parsed)
    (clock : nat -> Q * Q) (stdin : list string) :
  (forall path loaded_model,
      let trace := main json_loads clock (Some (path, loaded_model)) stdin in
      hd_error trace = Some (Print (Ready "FastText" path))
      /\ length (filter is_print trace) = S (length (filter non_blank stdin))
      /\ filter is_exit trace = []
      /\ map (fun e => match e with Read raw => raw | _ => EmptyString end)
             (filter (fun e => match e with Read _ => true | _ => false end) trace)
         = stdin)
  /\ main json_loads clock None stdin
     = [Print (Error "Failed to initialize FastText model"); Exit 1].
Proof.
  split; [|reflexivity].
  intros path loaded_model trace. subst trace. cbn [main].
  destruct (request_loop_prints json_loads clock
              {| model := Some loaded_model; model_path := Some path |} stdin 0%nat)
    as (I1 & I2 & I3).
  cbn [hd_error filter is_print is_exit length map].
  rewrite I1, I2, I3. repeat split.
Qed.

End WorkerEdges.

(* ================================================================== *)
(** ** Numbers reported by the worker                                  *)
(* ================================================================== *)

Module WorkerNumbers.
Import Worker.

(** *** Averages *)








(** *** Rounding of the elapsed time *)








End WorkerNumbers.

(* ================================================================== *)
(** ** Start-up of the worker                                          *)
(* ================================================================== *)

Module Startup.
Import Worker.

(** What the worker finds around it when it starts: the temporary
    directory, the files that exist when the model path is first looked
    up, what the download does, the files that exist afterwards, when
    the fall-back paths are tried, and what loading a model file
    does. *)
Record Environment := {
  gettempdir : outcome string;
  exists_first : string -> bool;
  urlretrieve : string -> string -> outcome unit;
  exists_later : string -> bool;
  load_model : string -> outcome Model
}.

(** A download that was started. *)
Inductive action :=
| Download (url path : string).

Definition model_url : string :=
  "https://dl.fbaipublicfiles.com/fasttext/supervised-models/lid.176.ftz".

Definition fallback_paths : list string :=
  ["/tmp/lid.176.ftz"; "./lid.176.ftz"; "../models/lid.176.ftz"].

(** The [except] branch of [_download_model]: the first fall-back path
    that exists. *)
Definition use_fallback (env : Environment) : outcome string :=
  match find (exists_later env) fallback_paths with
  | Some path => Returned path
  | None => Raised "No FastText model available"
  end.

(** [_download_model], with the downloads it starts. *)
Definition _download_model (env : Environment) : outcome string * list action :=
  match gettempdir env with
  | Raised e => (use_fallback env, [])
  | Returned tempdir =>
      let model_path := (tempdir ++ "/lid.176.ftz")%string in
      if negb (exists_first env model_path)
      then
        match urlretrieve env model_url model_path with
        | Returned _ => (Returned model_path, [Download model_url model_path])
        | Raised e => (use_fallback env, [Download model_url model_path])
        end
      else (Returned model_path, [])
  end.

(** [initialize]: the truth value returned and the worker afterwards. *)
Definition initialize (env : Environment) (self : FastTextWorker)
    : bool * FastTextWorker :=
  match fst (_download_model env) with
  | Returned path =>
      match load_model env path with
      | Returned loaded =>
          (true, {| model := Some loaded; model_path := Some path |})
      | Raised e => (false, {| model := model self; model_path := Some path |})
      end
  | Raised e => (false, self)
  end.

(** The process from its first statement: a new worker, [initialize],
    then the protocol of [main]. *)
Definition run_worker (json_loads : string -> parsed) (clock : nat -> Q * Q)
    (env : Environment) (stdin : list string) : list event :=
  let worker := {| model := None; model_path := None |} in
  match initialize env worker with
  | (true, {| model := Some loaded; model_path := Some path |}) =>
      main json_loads clock (Some (path, loaded)) stdin
  | _ => main json_loads clock None stdin
  end.

(** The model file was there at the first look, has just been
    downloaded, or is the first fall-back path that exists. *)
Definition found (env : Environment) (path : string) : Prop :=
  (exists tempdir,
      gettempdir env = Returned tempdir
      /\ path = (tempdir ++ "/lid.176.ftz")%string
      /\ (exists_first env path = true
          \/ urlretrieve env model_url path = Returned tt))
  \/ (exists before after,
        fallback_paths = before ++ path :: after
        /\ exists_later env path = true
        /\ Forall (fun p => exists_later env p = false) before).

Lemma find_first {A : Type} (f : A -> bool) (l : list A) (x : A) :
  find f l = Some x ->
  exists pre post,
    l = pre ++ x :: post /\ f x = true /\ Forall (fun y => f y = false) pre.
Proof.
  induction l as [|y l IH]; cbn; [discriminate|].
  destruct (f y) eqn:E.
  - intro H. injection H as <-. exists [], l. repeat split; [exact E|constructor].
  - intro H. destruct (IH H) as (pre & post & -> & Fx & Fp).
    exists (y :: pre), post. repeat split; [exact Fx|constructor; assumption].
Qed.

Lemma find_none {A : Type} (f : A -> bool) (l : list A) :
  find f l = None -> Forall (fun y => f y = false) l.
Proof.
  induction l as [|y l IH]; cbn; [constructor|].
  destruct (f y) eqn:E; [discriminate|]. intro H. constructor; auto.
Qed.

Lemma download_model_cases (env : Environment) :
  (length (snd (_download_model env)) <= 1)%nat
  /\ match fst (_download_model env) with
     | Returned path =>
         found env path
         /\ (exists_first env path = true
             /\ (exists tempdir, gettempdir env = Returned tempdir
                                 /\ path = (tempdir ++ "/lid.176.ftz")%string) ->
             snd (_download_model env) = [])
     | Raised e =>
         e = "No FastText model available"
         /\ Forall (fun p => exists_later env p = false) fallback_paths
     end.
Proof.
  assert (U : match use_fallback env with
              | Returned path =>
                  exists pre post,
                    fallback_paths = pre ++ path :: post
                    /\ exists_later env path = true
                    /\ Forall (fun p => exists_later env p = false) pre
              | Raised e =>
                  e = "No FastText model available"
                  /\ Forall (fun p => exists_later env p = false) fallback_paths
              end).
  { unfold use_fallback.
    destruct (find (exists_later env) fallback_paths) as [p|] eqn:F.
    - apply find_first, F.
    - split; [reflexivity|apply find_none, F]. }
  unfold _download_model.
  destruct (gettempdir env) as [tempdir|e] eqn:G.
  - destruct (exists_first env (tempdir ++ "/lid.176.ftz")) eqn:E; cbn [negb].
    + cbn. split; [lia|]. split; [|reflexivity].
      left. exists tempdir. split; [exact G|]. split; [reflexivity|].
      left. exact E.
    + destruct (urlretrieve env model_url (tempdir ++ "/lid.176.ftz")) as [[]|e]
        eqn:R; cbn [fst snd length].
      * split; [lia|]. split.
        -- left. exists tempdir. split; [exact G|]. split; [reflexivity|].
           right. exact R.
        -- intros [E' _]. rewrite E in E'. discriminate.
      * split; [lia|].
        destruct (use_fallback env) as [path|e']; [|exact U].
        split; [right; exact U|].
        intros (E' & tempdir' & G' & ->). injection G' as <-.
        rewrite E in E'. discriminate.
  - cbn [fst snd length]. split; [lia|].
    destruct (use_fallback env) as [path|e']; [|exact U].
    split; [right; exact U|]. intros (_ & tempdir' & G' & _). discriminate.
Qed.

(** The worker serves requests exactly when a model file was found and
    loaded.  Then the ready line names a path that existed in the
    temporary directory, was just downloaded there, or is the first
    existing fall-back path; at most one download is started, and none
    when the file is already in the temporary directory.  In every
    other case (no file and no fall-back, or a file that does not load)
    the worker prints one error line and exits with status 1 without
    reading a request. *)
Theorem worker_startup (json_loads : string -> parsed) (clock : nat -> Q * Q)
    (env : Environment) (stdin : list string) :
  (length (snd (_download_model env)) <= 1)%nat
  /\ (forall tempdir,
        gettempdir env = Returned tempdir ->
        exists_first env (tempdir ++ "/lid.176.ftz") = true ->
        _download_model env = (Returned (tempdir ++ "/lid.176.ftz")%string, []))
  /\ ((exists path loaded,
         fst (_download_model env) = Returned path
         /\ found env path
         /\ load_model env path = Returned loaded
         /\ run_worker json_loads clock env stdin
            = Print (Ready "FastText" path) :: Flush
              :: request_loop json_loads clock
                   {| model := Some loaded; model_path := Some path |} 0 stdin)
      \/ run_worker json_loads clock env stdin
         = [Print (Error "Failed to initialize FastText model"); Exit 1]).
Proof.
  destruct (download_model_cases env) as [L C].
  split; [exact L|]. split.
  - intros tempdir G E. unfold _download_model. rewrite G, E. reflexivity.
  - unfold run_worker, initialize.
    destruct (fst (_download_model env)) as [path|e]; [|right; reflexivity].
    destruct C as [F _].
    destruct (load_model env path) as [loaded|e] eqn:M; [|right; reflexivity].
    left. exists path, loaded. repeat split; assumption.
Qed.

(** A machine with the model in the current directory only, and no
    network. *)
Definition offline : Environment :=
  {| gettempdir := Returned "/var/tmp";
     exists_first := fun _ => false;
     urlretrieve := fun _ _ => Raised "URLError: no route to host";
     exists_later := fun path => (path =? "./lid.176.ftz")%string;
     load_model := fun _ => Returned WorkerPhrases.spanish_unless_hello |}.

Example offline_startup :
  _download_model offline
  = (Returned "./lid.176.ftz", [Download model_url "/var/tmp/lid.176.ftz"])
  /\ hd_error (run_worker WorkerLoop.sample_loads (fun _ => (0, 1)) offline [])
     = Some (Print (Ready "FastText" "./lid.176.ftz")).
Proof. split; reflexivity. Qed.

End Startup.

(* ================================================================== *)
(** ** The /analyze endpoint of the bridge                             *)
(* ================================================================== *)

Module Endpoint.
Import Bridge.

(** The JSON body of a request, read as an object whose fields have
    the documented types; [None] is a key that is not there.  The key
    [user_languages] may also hold [null]. *)
Record AnalyzeBody := {
  b_text : option string;
  b_user_languages : option user_langs;
  b_use_cache : option bool;
  b_fast_mode : option bool;
  b_performance_mode : option string
}.

(** The block [v2_1_2_metadata] of a successful response. *)
Record Metadata := {
  m_version : string;
  m_auto_calibration : bool;
  m_context_optimization : bool;
  m_reliability_scoring : bool;
  m_quality_assessment : bool;
  m_calibration_improvement : string;
  m_context_enhancement : string;
  m_processing_mode : string
}.

(** The JSON document of a response. *)
Inductive Body :=
| ErrorBody (error : string)
| SuccessBody (data : SwitchPrintResult) (metadata : Metadata)
| FailureBody (error version : string).

(** A response: document and HTTP status. *)
Definition Response : Type := Body * Z.

Section Routes.

Variable SWITCHPRINT_AVAILABLE : bool.

Definition metadata_of (result : SwitchPrintResult) (performance_mode : string)
    : Metadata :=
  let calibrated := negb (calibration_method result =? "none")%string in
  let optimized :=
    match context_optimization result with Some _ => true | None => false end in
  {| m_version := SWITCHPRINT_VERSION SWITCHPRINT_AVAILABLE;
     m_auto_calibration := calibrated;
     m_context_optimization := optimized;
     m_reliability_scoring := negb (Qle_bool (reliability_score result) 0);
     m_quality_assessment := negb (quality_assessment result =? "unknown")%string;
     m_calibration_improvement :=
       if calibrated then "81.2% more reliable" else "Not applied";
     m_context_enhancement :=
       if optimized then "6.5x improvement" else "Not applied";
     m_processing_mode := performance_mode |}.

(** The route [analyze_text] on the global [service]; [ext] is what the
    collaborators answer during this request.  [asdict(result)] copies
    the result object as it is after the call. *)
Definition analyze_route (ext : Externals) (data : option AnalyzeBody)
    : M Response :=
  try_except
    (match data with
     | None => ret (ErrorBody "Text is required", 400%Z)
     | Some data =>
         match b_text data with
         | None => ret (ErrorBody "Text is required", 400%Z)
         | Some text =>
             let user_languages := getattr (b_user_languages data) (Some []) in
             let use_cache := getattr (b_use_cache data) true in
             let fast_mode := getattr (b_fast_mode data) false in
             let performance_mode := getattr (b_performance_mode data) "balanced" in
             if negb (Py.truthy (Py.strip text))
             then ret (ErrorBody "Text cannot be empty", 400%Z)
             else
               let performance_mode :=
                 if negb (Py.str_in performance_mode ["fast"; "balanced"; "accurate"])
                 then "balanced" else performance_mode in
               bind (analyze_text SWITCHPRINT_AVAILABLE ext text user_languages
                       use_cache fast_mode performance_mode)
                    (fun result =>
                       bind get_self
                         (fun service =>
                            match deref service result with
                            | Some result_dict =>
                                ret (SuccessBody result_dict
                                       (metadata_of result_dict performance_mode),
                                     200%Z)
                            | None => raise "ReferenceError"
                            end))
         end
     end)
    (fun e => ret (FailureBody e (SWITCHPRINT_VERSION SWITCHPRINT_AVAILABLE), 500%Z)).

(** The routes [cache_stats] and [clear_cache]. *)
Definition cache_stats_route : M CacheStats :=
  get_cache_stats SWITCHPRINT_AVAILABLE.

Definition clear_cache_route : M (bool * string) :=
  bind clear_cache (fun _ => ret (true, "Cache cleared")).

End Routes.

(** The text of a body that passes the two checks of the route: the
    key is there and the value is not blank. *)
Definition usable_text (data : option AnalyzeBody) : option string :=
  match data with
  | Some d =>
      match b_text d with
      | Some text => if Py.truthy (Py.strip text) then Some text else None
      | None => None
      end
  | None => None
  end.

Definition modes : list string := ["fast"; "balanced"; "accurate"].

Definition with_mode (d : AnalyzeBody) (mode : option string) : AnalyzeBody :=
  {| b_text := b_text d;
     b_user_languages := b_user_languages d;
     b_use_cache := b_use_cache d;
     b_fast_mode := b_fast_mode d;
     b_performance_mode := mode |}.

(** A request without a body, without the key [text] or with a blank
    text is answered 400 before the service is touched: no counter
    moves and nothing is cached. *)
Theorem unusable_body_is_refused (available : bool) (ext : Externals)
    (data : option AnalyzeBody) (s : SwitchPrintService) :
  usable_text data = None ->
  exists message,
    analyze_route available ext data s = (Returned (ErrorBody message, 400%Z), s).
Proof.
  intro H. unfold analyze_route, try_except.
  destruct data as [d|]; [|eexists; reflexivity].
  cbn [usable_text] in H.
  destruct (b_text d) as [text|]; [|eexists; reflexivity].
  destruct (Py.truthy (Py.strip text)); [discriminate|].
  eexists. reflexivity.
Qed.

Lemma unusable_body_is_refused_witness :
  exists message,
    analyze_route true Orchestrator.all_raise
      (Some {| b_text := Some "  "; b_user_languages := None;
               b_use_cache := None; b_fast_mode := None;
               b_performance_mode := None |})
      (__init__ true None)
    = (Returned (ErrorBody message, 400%Z), __init__ true None).
Proof. apply unusable_body_is_refused. reflexivity. Defined.


(** A [performance_mode] that is not one of the three known ones is
    served exactly as if the key were not there: same answer, same
    cache entry. *)
Theorem unknown_mode_is_balanced (available : bool) (ext : Externals)
    (d : AnalyzeBody) (mode : string) (s : SwitchPrintService) :
  Py.str_in mode modes = false ->
  analyze_route available ext (Some (with_mode d (Some mode))) s
  = analyze_route available ext (Some (with_mode d None)) s.
Proof.
  intro H. unfold analyze_route, with_mode.
  cbn [b_text b_user_languages b_use_cache b_fast_mode b_performance_mode getattr].
  fold modes. rewrite H. reflexivity.
Qed.

Lemma unknown_mode_is_balanced_witness :
  let d := {| b_text := Some "hola amigo"; b_user_languages := None;
              b_use_cache := None; b_fast_mode := None;
              b_performance_mode := None |} in
  analyze_route true Orchestrator.all_raise (Some (with_mode d (Some "turbo"))) (__init__ true None)
  = analyze_route true Orchestrator.all_raise (Some (with_mode d None)) (__init__ true None).
Proof. apply unknown_mode_is_balanced. reflexivity. Defined.

End Endpoint.
